(** * Exam data readers (Applied Statistics 2023-24): a verification development

    The repository holds three stand-alone scripts,

      - DataReader_Problem4.1_LargestPopulation.py
      - DataReader_Problem5.1_SignalDetection.py
      - DataReader_Problem5.2_DecayTimes.py

    each of which loads one text file with [np.genfromtxt], prints the shape
    of the array it got, takes column slices and prints them (or a sample).

    The scripts are embedded statement by statement as computations in a
    state-and-exception monad over a small world: the file system, the
    heap of array buffers, the module globals and the log of console
    events.  The Python and NumPy operations the scripts call ([str.split],
    [str.strip], [float], [np.genfromtxt], basic indexing, [astype],
    [print]) are written out as executable functions next to them. *)

From Stdlib Require Import ZArith Ascii String SpecFloat.
From stdpp Require Import gmap strings list.

Local Open Scope string_scope.
Local Open Scope list_scope.
Local Open Scope nat_scope.

(** ** Python strings

    Text is a [string] of characters with code points below 256. *)

Module PyStr.

(** [str.isspace] on one character (code points below 256). *)
Definition is_space (c : ascii) : bool :=
  let n := nat_of_ascii c in
  ((9 <=? n) && (n <=? 13) || (28 <=? n) && (n <=? 32)
   || (n =? 133) || (n =? 160))%nat.

Definition LF : ascii := ascii_of_nat 10.
Definition CR : ascii := ascii_of_nat 13.

Fixpoint mem (c : ascii) (chars : string) : bool :=
  match chars with
  | EmptyString => false
  | String d chars' => Ascii.eqb c d || mem c chars'
  end.

(** [s.lstrip(chars)], [s.rstrip(chars)] and [s.strip(chars)], with the
    set of characters given as a predicate. *)
Fixpoint lstrip (p : ascii → bool) (s : string) : string :=
  match s with
  | EmptyString => EmptyString
  | String c s' => if p c then lstrip p s' else s
  end.

Fixpoint rstrip (p : ascii → bool) (s : string) : string :=
  match s with
  | EmptyString => EmptyString
  | String c s' =>
      match rstrip p s' with
      | EmptyString => if p c then EmptyString else String c EmptyString
      | r => String c r
      end
  end.

Definition strip (p : ascii → bool) (s : string) : string :=
  rstrip p (lstrip p s).

(** Puts [c] in front of the first field of a split. *)
Definition cons_head (c : ascii) (fields : list string) : list string :=
  match fields with
  | [] => [String c EmptyString]
  | f :: fs => String c f :: fs
  end.

(** [s.split(sep)] for a non-empty separator: [skip] counts the
    characters of a separator occurrence that are still to be dropped. *)
Fixpoint split_at (sep : string) (skip : nat) (s : string) : list string :=
  match s with
  | EmptyString => [EmptyString]
  | String c s' =>
      match skip with
      | S k => split_at sep k s'
      | O =>
          if String.prefix sep s
          then EmptyString :: split_at sep (String.length sep - 1) s'
          else cons_head c (split_at sep 0 s')
      end
  end.

Definition split (sep : string) (s : string) : list string :=
  split_at sep 0 s.

(** [s.split()]: the maximal runs of characters that are not white
    space. *)
Fixpoint split_ws (s : string) : list string :=
  match s with
  | EmptyString => []
  | String c s' =>
      if is_space c then split_ws s'
      else match s' with
           | EmptyString => [String c EmptyString]
           | String c' _ =>
               if is_space c' then String c EmptyString :: split_ws s'
               else cons_head c (split_ws s')
           end
  end.

(** Text mode with universal newlines: CR LF and a lone CR read as LF. *)
Fixpoint universal_newlines (s : string) : string :=
  match s with
  | EmptyString => EmptyString
  | String c s' =>
      if Ascii.eqb c CR then
        match s' with
        | String c' _ =>
            if Ascii.eqb c' LF then universal_newlines s'
            else String LF (universal_newlines s')
        | EmptyString => String LF EmptyString
        end
      else String c (universal_newlines s')
  end.

(** The lines a text file iterates over, each with its terminator. *)
Fixpoint lines_of (s : string) : list string :=
  match s with
  | EmptyString => []
  | String c s' =>
      if Ascii.eqb c LF then String LF EmptyString :: lines_of s'
      else cons_head c (lines_of s')
  end.

Definition readlines (text : string) : list string :=
  lines_of (universal_newlines text).

(** Writing a file: every line followed by a line feed. *)
Definition unlines (ls : list string) : string :=
  foldr (λ l acc, String.append l (String LF acc)) EmptyString ls.

End PyStr.

(** ** Python floats

    A Python [float] is an IEEE 754 binary64 number: [spec_float] at
    precision 53 and maximal exponent 1024, rounding to nearest even. *)

Module PyFloat.

Definition float64 : Type := spec_float.

Definition prec : Z := 53.
Definition emax : Z := 1024.

Definition nan : float64 := S754_nan.

Definition is_digit (c : ascii) : bool :=
  let n := nat_of_ascii c in ((48 <=? n) && (n <=? 57))%nat.

Definition digit_val (c : ascii) : Z := Z.of_nat (nat_of_ascii c - 48).

Definition lower (c : ascii) : ascii :=
  let n := nat_of_ascii c in
  if ((65 <=? n) && (n <=? 90))%nat then ascii_of_nat (n + 32) else c.

Fixpoint lower_str (s : string) : string :=
  match s with
  | EmptyString => EmptyString
  | String c s' => String (lower c) (lower_str s')
  end.

(** White space that [float] drops around the number: the ASCII white
    space of C, and the two Latin-1 spaces that are turned into a blank
    first. *)
Definition is_float_space (c : ascii) : bool :=
  let n := nat_of_ascii c in
  ((9 <=? n) && (n <=? 13) || (n =? 32) || (n =? 133) || (n =? 160))%nat.

(** Underscores are dropped when each stands between two digits;
    [prev] is the character before [s]. *)
Fixpoint drop_underscores (prev : ascii) (s : string) : option string :=
  match s with
  | EmptyString => if Ascii.eqb prev "_" then None else Some EmptyString
  | String c s' =>
      if Ascii.eqb c "_" then
        if is_digit prev then drop_underscores c s' else None
      else if Ascii.eqb prev "_" && negb (is_digit c) then None
      else String c <$> drop_underscores c s'
  end.

(** The leading decimal digits of [s], most significant first, and the
    rest of [s]. *)
Fixpoint take_digits (s : string) : list Z * string :=
  match s with
  | EmptyString => ([], EmptyString)
  | String c s' =>
      if is_digit c
      then let '(ds, r) := take_digits s' in (digit_val c :: ds, r)
      else ([], s)
  end.

Definition digits_value (ds : list Z) : Z :=
  foldl (λ acc d, 10 * acc + d)%Z 0%Z ds.

Definition take_sign (s : string) : bool * string :=
  match s with
  | String "-" r => (true, r)
  | String "+" r => (false, r)
  | _ => (false, s)
  end.

(** A decimal literal [digits [. digits] [(e|E) [sign] digits]] with at
    least one digit before the exponent, read as [m * 10 ^ e]. *)
Definition parse_decimal (s : string) : option (Z * Z) :=
  let '(ip, r1) := take_digits s in
  let '(fp, r2) :=
    match r1 with
    | String "." r => take_digits r
    | _ => ([], r1)
    end in
  match ip ++ fp with
  | [] => None
  | ds =>
      let m := digits_value ds in
      let scale := Z.of_nat (length fp) in
      match r2 with
      | EmptyString => Some (m, - scale)%Z
      | String c r3 =>
          if Ascii.eqb (lower c) "e" then
            let '(neg, r4) := take_sign r3 in
            match take_digits r4 with
            | ([], _) => None
            | (es, EmptyString) =>
                let e := digits_value es in
                Some (m, (if neg then - e else e) - scale)%Z
            | (_, String _ _) => None
            end
          else None
      end
  end.

(** [m * 10 ^ e], correctly rounded. *)
Definition of_decimal (neg : bool) (m e : Z) : float64 :=
  match m with
  | Zpos p =>
      let '(num, den) :=
        if (0 <=? e)%Z then (Z.to_pos (Zpos p * 10 ^ e), 1%positive)
        else (p, Z.to_pos (10 ^ (- e))) in
      SFdiv prec emax (S754_finite neg num 0) (S754_finite false den 0)
  | _ => S754_zero neg
  end.

(** [float(s)]; [None] stands for [ValueError]. *)
Definition float_of_str (s : string) : option float64 :=
  s1 ← drop_underscores (ascii_of_nat 0) s;
  let '(neg, body) := take_sign (PyStr.strip is_float_space s1) in
  let word := lower_str body in
  if String.eqb word "inf" || String.eqb word "infinity"
  then Some (S754_infinity neg)
  else if String.eqb word "nan" then Some S754_nan
  else '(m, e) ← parse_decimal body; Some (of_decimal neg m e).

(** The integer part of a finite float (rounding toward zero). *)
Definition trunc (x : float64) : option Z :=
  match x with
  | S754_zero _ => Some 0%Z
  | S754_finite s m e =>
      let a := if (0 <=? e)%Z then Z.shiftl (Zpos m) e
               else Z.shiftr (Zpos m) (- e) in
      Some (if s then - a else a)%Z
  | S754_infinity _ | S754_nan => None
  end.

(** The number a finite float stands for, as a fraction [(num, den)]. *)
Definition fraction (x : float64) : option (Z * Z) :=
  match x with
  | S754_zero _ => Some (0, 1)%Z
  | S754_finite s m e =>
      let n := if s then Zneg m else Zpos m in
      Some (if (0 <=? e)%Z then (n * 2 ^ e, 1) else (n, 2 ^ (- e)))%Z
  | S754_infinity _ | S754_nan => None
  end.

Definition int64_min : Z := - 2 ^ 63.
Definition int64_max : Z := 2 ^ 63 - 1.

Definition fits_int64 (n : Z) : bool :=
  ((int64_min <=? n) && (n <=? int64_max))%Z.

(** The C conversion from double to a 64-bit integer as x86-64 performs
    it: values without a representable integer part give the
    "integer indefinite" value, the least [int64]. *)
Definition to_int64 (x : float64) : Z :=
  match trunc x with
  | Some n => if fits_int64 n then n else int64_min
  | None => int64_min
  end.

Definition int64_valid (x : float64) : bool :=
  match trunc x with
  | Some n => fits_int64 n
  | None => false
  end.

End PyFloat.

(** ** NumPy arrays and the world the scripts run in *)

Module Numpy.
Import PyFloat.

(** An array item: a [float64] or an [int64]. *)
Inductive scalar : Type :=
| F64 (x : float64)
| I64 (n : Z).

#[global] Instance scalar_inhabited : Inhabited scalar := populate (F64 nan).

(** An [ndarray] is a window on a buffer of the heap: where it starts,
    its extent along each axis and the step along each axis, counted in
    items.  Arrays with the same [base] share their storage. *)
Record ndarray : Type := NDArray {
  base : nat;
  offset : nat;
  shape : list nat;
  strides : list nat
}.

Definition ndim (a : ndarray) : nat := length (shape a).
Definition size (a : ndarray) : nat := foldr Nat.mul 1 (shape a).

Inductive exn : Type :=
| FileNotFoundError (fname : string)
| ValueError (nbcols : nat) (invalid : list (nat * nat))
| IndexError
| NameError (name : string).

Inductive warning : Type :=
| EmptyInputFile (fname : string)
| InvalidValueInCast.

(** What [print] is given: a string, a tuple of integers, or an array
    shown through the items that NumPy displays. *)
Inductive pyobj : Type :=
| PStr (s : string)
| PTuple (t : list nat)
| PArray (shp : list nat) (shown : list scalar).

Inductive event : Type :=
| EvOpen (fname : string)
| EvParse (fname : string)
| EvWarn (w : warning)
| EvSlice
| EvAstype
| EvPrint (args : list pyobj).

Record world : Type := World {
  files : gmap string string;
  heap : list (list scalar);
  globals : gmap string ndarray;
  log : list event
}.

Definition boot (fs : gmap string string) : world :=
  {| files := fs; heap := []; globals := ∅; log := [] |}.

(** The lines written to standard output, oldest first. *)
Definition stdout (w : world) : list (list pyobj) :=
  omap (λ e, match e with EvPrint args => Some args | _ => None end) (log w).

(** *** Computations: state passing with exceptions *)

Definition M (A : Type) : Type := world → world * (exn + A).

#[global] Instance M_ret : MRet M := λ A x w, (w, inr x).
#[global] Instance M_bind : MBind M := λ A B f m w,
  match m w with
  | (w', inr x) => f x w'
  | (w', inl e) => (w', inl e)
  end.

Definition raise {A} (e : exn) : M A := λ w, (w, inl e).

Definition add_event (e : event) (w : world) : world :=
  {| files := files w; heap := heap w; globals := globals w;
     log := log w ++ [e] |}.

Definition add_buffer (buf : list scalar) (w : world) : world :=
  {| files := files w; heap := heap w ++ [buf]; globals := globals w;
     log := log w |}.

Definition bind_name (name : string) (a : ndarray) (w : world) : world :=
  {| files := files w; heap := heap w; globals := <[name := a]> (globals w);
     log := log w |}.

Definition emit (e : event) : M unit := λ w, (add_event e w, inr ()).

(** A new buffer goes to the end of the heap; its index is returned. *)
Definition alloc (buf : list scalar) : M nat := λ w,
  (add_buffer buf w, inr (length (heap w))).

Definition assign (name : string) (a : ndarray) : M unit := λ w,
  (bind_name name a w, inr ()).

Definition var (name : string) : M ndarray := λ w,
  match globals w !! name with
  | Some a => (w, inr a)
  | None => (w, inl (NameError name))
  end.

Definition open (fname : string) : M string := λ w,
  match files w !! fname with
  | Some text => (add_event (EvOpen fname) w, inr text)
  | None => (w, inl (FileNotFoundError fname))
  end.

(** *** Reading items *)

(** The positions, relative to the array's start, of the items picked by
    [sel] along every axis, in row-major order. *)
Fixpoint offsets_with (sel : nat → list nat) (sh st : list nat) : list nat :=
  match sh, st with
  | n :: sh', s :: st' =>
      i ← sel n; (λ o, i * s + o) <$> offsets_with sel sh' st'
  | _, _ => [0]
  end.

Definition offsets : list nat → list nat → list nat := offsets_with (seq 0).

Definition items_at (h : list (list scalar)) (a : ndarray) (os : list nat)
  : list scalar :=
  (λ o, (h !!! base a) !!! (offset a + o)) <$> os.

Definition items (h : list (list scalar)) (a : ndarray) : list scalar :=
  items_at h a (offsets (shape a) (strides a)).

Definition read (a : ndarray) : M (list scalar) := λ w, (w, inr (items (heap w) a)).

(** *** [np.genfromtxt]

    The call is modelled for the arguments the scripts give: a file
    name, [delimiter] (a string or [None]) and [skip_header]; every
    other parameter has its default ([dtype=float], [comments='#'],
    [autostrip=False], [loose=True], [invalid_raise=True]). *)

Definition comments : string := "#".

Definition blanks : string := String " " (String PyStr.CR (String PyStr.LF "")).

(** [LineSplitter._delimited_splitter]: chop off the comment, strip
    blanks and line ends, split at the delimiter. *)
Definition split_line (delimiter : option string) (line : string) : list string :=
  let line := hd "" (PyStr.split comments line) in
  let line := PyStr.strip (λ c, PyStr.mem c blanks) line in
  match line with
  | EmptyString => []
  | _ =>
      match delimiter with
      | Some (String _ _ as d) => PyStr.split d line
      | _ => PyStr.split_ws line
      end
  end.

(** The loop that reads on until a line has values; [None] when the
    file runs out ([StopIteration]). *)
Fixpoint first_valid (delimiter : option string) (fhd : list string)
  : option (string * list string * list string) :=
  match fhd with
  | [] => None
  | line :: fhd' =>
      match split_line delimiter line with
      | [] => first_valid delimiter fhd'
      | values => Some (line, values, fhd')
      end
  end.

(** The main loop over the lines, numbered from [i]: empty lines are
    skipped, a line with another number of values than [nbcols] is
    recorded as invalid, the others are stored. *)
Fixpoint parse_lines (delimiter : option string) (nbcols skip_header i : nat)
    (lines : list string) : list (list string) * list (nat * nat) :=
  match lines with
  | [] => ([], [])
  | line :: lines' =>
      let '(rows, invalid) :=
        parse_lines delimiter nbcols skip_header (S i) lines' in
      let values := split_line delimiter line in
      let nbvalues := length values in
      if (nbvalues =? 0)%nat then (rows, invalid)
      else if negb (nbvalues =? nbcols)%nat
           then (rows, (i + skip_header + 1, nbvalues) :: invalid)
           else (values :: rows, invalid)
  end.

(** [StringConverter._loose_call] for [float]: what does not convert
    becomes the default, [nan]. *)
Definition loose_call (value : string) : float64 :=
  match float_of_str value with
  | Some x => x
  | None => nan
  end.

(** Row-major steps for a shape. *)
Fixpoint c_strides (sh : list nat) : list nat :=
  match sh with
  | [] => []
  | _ :: sh' => foldr Nat.mul 1 sh' :: c_strides sh'
  end.

(** [np.array(data, float)] for a list of tuples of one length. *)
Definition np_array (data : list (list float64)) : M ndarray :=
  let sh := match data with
            | [] => [0]
            | row :: _ => [length data; length row]
            end in
  l ← alloc (F64 <$> concat data);
  mret {| base := l; offset := 0; shape := sh; strides := c_strides sh |}.

(** [np.squeeze]: the axes of length one are dropped; the result is a
    view. *)
Definition squeeze (a : ndarray) : ndarray :=
  let kept := filter (λ ax, ax.1 ≠ 1) (zip (shape a) (strides a)) in
  {| base := base a; offset := offset a; shape := kept.*1; strides := kept.*2 |}.

Definition genfromtxt (fname : string) (delimiter : option string)
    (skip_header : nat) : M ndarray :=
  text ← open fname;
  let fhd := drop skip_header (PyStr.readlines text) in
  '(first_line, first_values, fhd') ←
    match first_valid delimiter fhd with
    | Some found => mret found
    | None => emit (EvWarn (EmptyInputFile fname));; mret ("", [], [])
    end;
  let nbcols := length first_values in
  let '(rows, invalid) :=
    parse_lines delimiter nbcols skip_header 0 (first_line :: fhd') in
  match invalid with
  | _ :: _ => raise (ValueError nbcols invalid)
  | [] =>
      output ← np_array ((λ row : list string, loose_call <$> row) <$> rows);
      emit (EvParse fname);;
      mret (squeeze output)
  end.

(** *** Basic indexing: [a[:]], [a[0:stop]] and [a[i]] along the
    leading axes.  The result is always a view. *)

Inductive index : Type :=
| Full
| Upto (stop : nat)
| At (i : nat).

Fixpoint index_axes (idx : list index) (sh st : list nat)
  : option (nat * list nat * list nat) :=
  match idx, sh, st with
  | [], _, _ => Some (0, sh, st)
  | i :: idx', n :: sh', s :: st' =>
      '(off, sh2, st2) ← index_axes idx' sh' st';
      match i with
      | Full => Some (off, n :: sh2, s :: st2)
      | Upto k => Some (off, k `min` n :: sh2, s :: st2)
      | At j => if (j <? n)%nat then Some (j * s + off, sh2, st2) else None
      end
  | _ :: _, _, _ => None
  end.

Definition getitem (a : ndarray) (idx : list index) : M ndarray :=
  match index_axes idx (shape a) (strides a) with
  | Some (off, sh, st) =>
      emit EvSlice;;
      mret {| base := base a; offset := offset a + off; shape := sh; strides := st |}
  | None => raise IndexError
  end.

(** *** [a.astype(int)]: a new array, in a buffer of its own. *)

Definition cast_int (x : scalar) : scalar :=
  match x with
  | F64 f => I64 (to_int64 f)
  | I64 n => I64 n
  end.

Definition cast_valid (x : scalar) : bool :=
  match x with
  | F64 f => int64_valid f
  | I64 _ => true
  end.

Definition astype_int (a : ndarray) : M ndarray :=
  xs ← read a;
  (if forallb cast_valid xs then mret ()
   else emit (EvWarn InvalidValueInCast));;
  l ← alloc (cast_int <$> xs);
  emit EvAstype;;
  mret {| base := l; offset := 0; shape := shape a; strides := c_strides (shape a) |}.

(** *** [print]

    An array of more than [threshold] items is shown through its first
    and last [edgeitems] entries along every axis that is longer than
    twice that. *)

Definition threshold : nat := 1000.
Definition edgeitems : nat := 3.

Definition leading_trailing (n : nat) : list nat :=
  if (2 * edgeitems <? n)%nat
  then seq 0 edgeitems ++ seq (n - edgeitems) edgeitems
  else seq 0 n.

Definition shown_items (h : list (list scalar)) (a : ndarray) : list scalar :=
  if (threshold <? size a)%nat
  then items_at h a (offsets_with leading_trailing (shape a) (strides a))
  else items h a.

Definition display (a : ndarray) : M pyobj := λ w,
  (w, inr (PArray (shape a) (shown_items (heap w) a))).

Definition print (args : list pyobj) : M unit := emit (EvPrint args).

(** *** Programs: a script is the list of its statements *)

Definition stmt : Type := M unit.

Fixpoint exec (prog : list stmt) : M unit :=
  match prog with
  | [] => mret ()
  | s :: prog' => s;; exec prog'
  end.

Definition run (prog : list stmt) (fs : gmap string string) : world * (exn + unit) :=
  exec prog (boot fs).

End Numpy.

(** ** The three scripts

    One list entry per statement of the source, in source order. *)

Import Numpy.

Module Problem41.

Definition fname : string := "data_LargestPopulation.csv".

Definition script : list stmt := [
  (* data = np.genfromtxt('data_LargestPopulation.csv', delimiter = ',', skip_header=1) *)
  (data ← genfromtxt fname (Some ",") 1; assign "data" data);
  (* print(data.shape) *)
  (data ← var "data"; print [PTuple (shape data)]);
  (* year      = data[:,0] *)
  (data ← var "data"; col ← getitem data [Full; At 0]; assign "year" col);
  (* PopIndia  = data[:,1] *)
  (data ← var "data"; col ← getitem data [Full; At 1]; assign "PopIndia" col);
  (* PopChina  = data[:,2] *)
  (data ← var "data"; col ← getitem data [Full; At 2]; assign "PopChina" col);
  (* print(year) *)
  (year ← var "year"; out ← display year; print [out]);
  (* print(PopIndia) *)
  (PopIndia ← var "PopIndia"; out ← display PopIndia; print [out]);
  (* print(PopChina) *)
  (PopChina ← var "PopChina"; out ← display PopChina; print [out])
].

End Problem41.

Module Problem51.

Definition fname : string := "data_SignalDetection.csv".

Definition script : list stmt := [
  (* data = np.genfromtxt('data_SignalDetection.csv', delimiter = ',', skip_header=1) *)
  (data ← genfromtxt fname (Some ",") 1; assign "data" data);
  (* print("  Shape of data: ", data.shape) *)
  (data ← var "data"; print [PStr "  Shape of data: "; PTuple (shape data)]);
  (* index = data[:,0].astype(int) *)
  (data ← var "data"; col ← getitem data [Full; At 0];
   ints ← astype_int col; assign "index" ints);
  (* P     = data[:,1] *)
  (data ← var "data"; col ← getitem data [Full; At 1]; assign "P" col);
  (* R     = data[:,2] *)
  (data ← var "data"; col ← getitem data [Full; At 2]; assign "R" col);
  (* freq  = data[:,3] *)
  (data ← var "data"; col ← getitem data [Full; At 3]; assign "freq" col);
  (* type  = data[:,4].astype(int) *)
  (data ← var "data"; col ← getitem data [Full; At 4];
   ints ← astype_int col; assign "type" ints);
  (* print(index[0:3]) *)
  (index ← var "index"; head ← getitem index [Upto 3]; out ← display head; print [out]);
  (* print(P[0:3]) *)
  (P ← var "P"; head ← getitem P [Upto 3]; out ← display head; print [out]);
  (* print(R[0:3]) *)
  (R ← var "R"; head ← getitem R [Upto 3]; out ← display head; print [out]);
  (* print(freq[0:3]) *)
  (freq ← var "freq"; head ← getitem freq [Upto 3]; out ← display head; print [out]);
  (* print(type[0:3]) *)
  (type ← var "type"; head ← getitem type [Upto 3]; out ← display head; print [out])
].

End Problem51.

Module Problem52.

Definition fname : string := "data_DecayTimes.csv".

Definition script : list stmt := [
  (* data = np.genfromtxt('data_DecayTimes.csv') *)
  (data ← genfromtxt fname None 0; assign "data" data);
  (* print(data.shape) *)
  (data ← var "data"; print [PTuple (shape data)]);
  (* print(data[0:10]) *)
  (data ← var "data"; head ← getitem data [Upto 10]; out ← display head; print [out])
].

End Problem52.

(** ** The scripts, their input files and the documented schemas *)

Inductive script_id : Type := P41 | P51 | P52.

Definition program (s : script_id) : list stmt :=
  match s with
  | P41 => Problem41.script
  | P51 => Problem51.script
  | P52 => Problem52.script
  end.

Definition input_name (s : script_id) : string :=
  match s with
  | P41 => Problem41.fname
  | P51 => Problem51.fname
  | P52 => Problem52.fname
  end.

(** The arguments each script passes to [np.genfromtxt]. *)
Definition delimiter_of (s : script_id) : option string :=
  match s with
  | P41 | P51 => Some ","
  | P52 => None
  end.

Definition skip_header_of (s : script_id) : nat :=
  match s with
  | P41 | P51 => 1
  | P52 => 0
  end.

(** The column counts of the header comments: three (year, PopIndia,
    PopChina), five (index, P, R, nu, type), and one decay time per
    entry. *)
Definition columns_of (s : script_id) : nat :=
  match s with
  | P41 => 3
  | P51 => 5
  | P52 => 1
  end.

(** The records of a file as [np.genfromtxt] sees them: the values of
    every line after the header that has any. *)
Definition records (delimiter : option string) (skip_header : nat) (text : string)
  : list (list string) :=
  filter (λ vs, vs ≠ []) (split_line delimiter <$> drop skip_header (PyStr.readlines text)).

(** A well-formed file for a script: at least two records, each with the
    documented number of fields. *)
Definition well_formed (s : script_id) (text : string) : Prop :=
  let recs := records (delimiter_of s) (skip_header_of s) text in
  2 ≤ length recs ∧ Forall (λ vs, length vs = columns_of s) recs.

(** The float a field is stored as, and a column of a list of records. *)
Definition cell (field : string) : scalar := F64 (loose_call field).

Definition column (j : nat) (recs : list (list string)) : list scalar :=
  (λ vs, cell (vs !!! j)) <$> recs.

(** The world a script stops in, and how it stopped: [inr ()] at the end
    of its statements, [inl e] at the statement that raised [e]. *)
Definition final (s : script_id) (fs : gmap string string) : world :=
  (run (program s) fs).1.

Definition outcome (s : script_id) (fs : gmap string string) : exn + unit :=
  (run (program s) fs).2.

(** ** Specifications

    The notions the statements about the scripts are written in, and the
    sample files they are tried on. *)

(** A one-dimensional array [v] holds the list [l] in the heap [h]. *)
Definition holds (h : list (list scalar)) (v : ndarray) (l : list scalar) : Prop :=
  base v < length h ∧
  ∃ s, shape v = [length l] ∧ strides v = [s] ∧
       ∀ i, i < length l → (h !!! base v) !!! (offset v + (i * s + 0)) = l !!! i.

(** What [print] shows of a list of items. *)
Definition abbreviate (l : list scalar) : list scalar :=
  if threshold <? length l
  then take edgeitems l ++ drop (length l - edgeitems) l
  else l.

(** The warning [astype] gives for items without an integer value. *)
Definition cast_warning (l : list scalar) : list event :=
  if forallb cast_valid l then [] else [EvWarn InvalidValueInCast].

Definition add_events (es : list event) (w : world) : world :=
  {| files := files w; heap := heap w; globals := globals w; log := log w ++ es |}.

(** The kinds of step a script goes through, as read off the log;
    warnings and [astype] are not counted as steps of their own. *)
Inductive phase : Type := Opening | Parsing | Slicing | Printing.

Definition phase_of (e : event) : option phase :=
  match e with
  | EvOpen _ => Some Opening
  | EvParse _ => Some Parsing
  | EvSlice => Some Slicing
  | EvPrint _ => Some Printing
  | EvWarn _ | EvAstype => None
  end.

Definition phases (w : world) : list phase := omap phase_of (log w).

(** The steps of a complete run, in order. *)
Definition pattern (s : script_id) : list phase :=
  match s with
  | P41 => [Opening; Parsing; Printing; Slicing; Slicing; Slicing;
            Printing; Printing; Printing]
  | P51 => [Opening; Parsing; Printing; Slicing; Slicing; Slicing; Slicing;
            Slicing; Slicing; Printing; Slicing; Printing; Slicing; Printing;
            Slicing; Printing; Slicing; Printing]
  | P52 => [Opening; Parsing; Printing; Slicing; Printing]
  end.

Definition warnings (es : list event) : Prop := omap phase_of es = [].

(** What holds of a run on any input: the steps taken are a beginning of
    the script's pattern, all of it when the run completes; an exception
    is raised by the load before anything is parsed, or by an index
    expression after the shape was printed. *)
Definition run_spec (s : script_id) (r : world * (exn + unit)) : Prop :=
  phases r.1 `prefix_of` pattern s ∧
  match r.2 with
  | inr _ => phases r.1 = pattern s
  | inl (FileNotFoundError f) => f = input_name s ∧ log r.1 = []
  | inl (ValueError _ _) => log r.1 = [EvOpen (input_name s)]
  | inl IndexError => [Opening; Parsing; Printing] `prefix_of` phases r.1
  | inl (NameError _) => False
  end.

(** [m] keeps [R] when the world it ends in is always [R]-related to the
    world it started from, whether it returns or raises. *)
Definition keeps (R : relation world) {A} (m : M A) : Prop := ∀ w, R w (m w).1.

(** Files are not written and buffers are only added. *)
Definition grows (w w' : world) : Prop :=
  files w' = files w ∧ heap w `prefix_of` heap w'.

(** In addition, the name [data] is not bound anew. *)
Definition grows_around_data (w w' : world) : Prop :=
  grows w w' ∧ globals w' !! "data" = globals w !! "data".

(** Two worlds agree on the file [name] and on everything but the file
    system. *)
Definition agree (name : string) (w1 w2 : world) : Prop :=
  files w1 !! name = files w2 !! name ∧ heap w1 = heap w2
  ∧ globals w1 = globals w2 ∧ log w1 = log w2.

(** [m] reads no file but [name]: from worlds that agree it gives the same
    result and worlds that agree. *)
Definition reads_only (name : string) {A} (m : M A) : Prop :=
  ∀ w1 w2, agree name w1 w2 → agree name (m w1).1 (m w2).1 ∧ (m w1).2 = (m w2).2.

(** The shape of the array a script loads from [n] records. *)
Definition table_shape (s : script_id) (n : nat) : list nat :=
  match s with
  | P41 | P51 => [n; columns_of s]
  | P52 => [n]
  end.

Definition population_sample : string :=
  PyStr.unlines ["Year,PopIndia,PopChina"; "1960,445954579,667070000";
                 "1961,456351876,660330000"; "1962,467024193,665770000"].

Definition decay_sample : string := PyStr.unlines ["1.5"; "2.5"; "3.5"].

(** What each script writes to standard output for a list of records,
    line by line. *)
Definition printed (s : script_id) (recs : list (list string)) : list (list pyobj) :=
  let n := length recs in
  match s with
  | P41 =>
      [ [PTuple [n; 3]];
        [PArray [n] (abbreviate (column 0 recs))];
        [PArray [n] (abbreviate (column 1 recs))];
        [PArray [n] (abbreviate (column 2 recs))] ]
  | P51 =>
      [ [PStr "  Shape of data: "; PTuple [n; 5]];
        [PArray [3 `min` n] (take 3 (cast_int <$> column 0 recs))];
        [PArray [3 `min` n] (take 3 (column 1 recs))];
        [PArray [3 `min` n] (take 3 (column 2 recs))];
        [PArray [3 `min` n] (take 3 (column 3 recs))];
        [PArray [3 `min` n] (take 3 (cast_int <$> column 4 recs))] ]
  | P52 =>
      [ [PTuple [n]];
        [PArray [10 `min` n] (take 10 (column 0 recs))] ]
  end.

Definition population_twelve : string :=
  PyStr.unlines ["Year,PopIndia,PopChina";
                 "1960,445,667"; "1961,456,660"; "1962,467,665"; "1963,478,682";
                 "1964,489,698"; "1965,500,715"; "1966,511,735"; "1967,522,754";
                 "1968,534,774"; "1969,546,796"; "1970,558,818"; "1971,571,841"].

(** The records of a file do not all have as many fields as the first. *)
Definition ragged (s : script_id) (text : string) : Prop :=
  match records (delimiter_of s) (skip_header_of s) text with
  | [] => False
  | r :: recs => ¬ Forall (λ vs, length vs = length r) recs
  end.

Definition population_ragged : string :=
  PyStr.unlines ["Year,PopIndia,PopChina"; "1960,445,667"; "1961,456"].

Definition population_two_columns : string :=
  PyStr.unlines ["Year,PopIndia"; "1960,445"; "1961,456"].

(** Storing [x] at position [pos] of the buffer of [a], as an assignment
    to an item of [a] would. *)
Definition poke (h : list (list scalar)) (a : ndarray) (pos : nat) (x : scalar)
  : list (list scalar) :=
  alter (λ buf, <[offset a + pos := x]> buf) (base a) h.

(** [name] is bound to a view of column [j] of the table [data] with rows
    of [k] items: it lies in the buffer of [data], holds the column's
    items, and an item stored in the table at row [i], column [j] is read
    back as item [i] of the view. *)
Definition view_of_column (w : world) (name : string) (j k : nat)
    (recs : list (list string)) : Prop :=
  ∃ data v,
    globals w !! "data" = Some data ∧ globals w !! name = Some v
    ∧ base v = base data
    ∧ items (heap w) v = column j recs
    ∧ ∀ i x, i < length recs →
        items (poke (heap w) data (i * k + j) x) v !! i = Some x.

(** [name] is bound to an array of integers made from column [j]: it has
    a buffer of its own, and storing into the table does not change it. *)
Definition copy_of_column (w : world) (name : string) (j : nat)
    (recs : list (list string)) : Prop :=
  ∃ data v,
    globals w !! "data" = Some data ∧ globals w !! name = Some v
    ∧ base v ≠ base data
    ∧ items (heap w) v = cast_int <$> column j recs
    ∧ ∀ pos x, items (poke (heap w) data pos x) v = items (heap w) v.

(** The column projections each script takes. *)
Definition projections (s : script_id) (w : world) (recs : list (list string)) : Prop :=
  match s with
  | P41 =>
      view_of_column w "year" 0 3 recs
      ∧ view_of_column w "PopIndia" 1 3 recs
      ∧ view_of_column w "PopChina" 2 3 recs
  | P51 =>
      view_of_column w "P" 1 5 recs
      ∧ view_of_column w "R" 2 5 recs
      ∧ view_of_column w "freq" 3 5 recs
      ∧ copy_of_column w "index" 0 recs
      ∧ copy_of_column w "type" 4 recs
  | P52 => ∀ name, name ≠ "data" → globals w !! name = None
  end.

Definition signal_sample : string :=
  PyStr.unlines ["index,P,R,nu,type"; "0,0.5,1.5,2.5,1"; "1,0.25,1.75,2.25,0";
                 "2,0.125,1.875,2.125,-1"; "3,0.75,1.25,2.75,-1"].

(** The world after at most [k] statements of a script. *)
Definition after (k : nat) (s : script_id) (fs : gmap string string) : world :=
  (exec (take k (program s)) (boot fs)).1.

(** The first statement of every script is the load. *)
Definition load (s : script_id) : stmt :=
  data ← genfromtxt (input_name s) (delimiter_of s) (skip_header_of s);
  assign "data" data.

(** What [astype(int)] makes of a float [x]: its integer part, rounded
    toward zero, when that is an [int64]; the least [int64] otherwise
    (NaN, the infinities, values out of range). *)
Definition truncated (x : PyFloat.float64) (n : Z) : Prop :=
  match PyFloat.fraction x with
  | Some (num, den) =>
      if PyFloat.fits_int64 (num ÷ den) then n = (num ÷ den)%Z
      else n = PyFloat.int64_min
  | None => n = PyFloat.int64_min
  end.

Definition signal_odd : string :=
  PyStr.unlines ["index,P,R,nu,type"; "0,0.5,1.5,2.5,1"; "1.9,0.25,1.75,2.25,signal";
                 "-2.7,0.125,1.875,2.125,nan"; "1e30,0.75,1.25,2.75,-1"].

Fixpoint forall_chars (p : ascii → bool) (s : string) : bool :=
  match s with
  | EmptyString => true
  | String c s' => p c && forall_chars p s'
  end.

(** [sep.join(fields)] *)
Fixpoint join (sep : string) (fields : list string) : string :=
  match fields with
  | [] => EmptyString
  | [f] => f
  | f :: fields' => String.append f (String.append sep (join sep fields'))
  end.

(** The separator between the fields of a record, for each script. *)
Definition separator (s : script_id) : string :=
  match s with
  | P41 | P51 => ","
  | P52 => " "
  end.

(** Neither a carriage return nor a line feed. *)
Definition no_line_end (c : ascii) : bool :=
  negb (Ascii.eqb c PyStr.CR) && negb (Ascii.eqb c PyStr.LF).

(** The characters of a field that the script's loading neither splits
    at nor strips: for the two scripts that pass [delimiter=','] anything
    but a comma, the comment sign, a blank or a line end; for
    DataReader_Problem5.2 anything but white space and the comment sign,
    so a comma is an ordinary character there. *)
Definition plain_char (s : script_id) (c : ascii) : bool :=
  match s with
  | P41 | P51 => negb (PyStr.mem c ",# ") && no_line_end c
  | P52 => negb (PyStr.is_space c) && negb (Ascii.eqb c "#")
  end.

Definition plain (s : script_id) (f : string) : Prop :=
  f ≠ "" ∧ forall_chars (plain_char s) f = true.

(** A file written from rows of fields: the header line where the script
    skips one, then a line per row, its fields joined by the separator. *)
Definition written (s : script_id) (header : string) (rows : list (list string)) : string :=
  PyStr.unlines (replicate (skip_header_of s) header ++ (join (separator s) <$> rows)).

Definition decay_commas : string := PyStr.unlines ["1,2"; "3,4"].

(** *** Further notions: files of any shape, and what a run reads *)

(** The line each script prints for the shape of [data]. *)
Definition shape_line (s : script_id) (sh : list nat) : list pyobj :=
  match s with
  | P41 | P52 => [PTuple sh]
  | P51 => [PStr "  Shape of data: "; PTuple sh]
  end.

(** The shape of the array [np.genfromtxt] returns for records of one
    length: rows by fields without the axes of length one, and (0,) where
    there is no record. *)
Definition loaded_shape (recs : list (list string)) : list nat :=
  match recs with
  | [] => [0]
  | r :: _ => filter (λ n, n ≠ 1) [length recs; length r]
  end.

(** The array itself, in buffer [b]. *)
Definition loaded (b : nat) (recs : list (list string)) : ndarray :=
  match recs with
  | [] => NDArray b 0 [0] [1]
  | r :: _ => squeeze (NDArray b 0 [length recs; length r] [length r; 1])
  end.

(** The warning [np.genfromtxt] gives for these records. *)
Definition load_warning (fname : string) (recs : list (list string)) : list event :=
  match recs with
  | [] => [EvWarn (EmptyInputFile fname)]
  | _ => []
  end.

(** The least number of columns each script indexes. *)
Definition columns_used (s : script_id) : nat :=
  match s with
  | P41 => 3
  | P51 => 5
  | P52 => 0
  end.

(** The records a script runs to its end on: all of one length [k], and
    for the two scripts that take columns at least two records with at
    least as many fields as the last column taken; for
    DataReader_Problem5.2 anything but a single record of a single
    field. *)
Definition accepts (s : script_id) (recs : list (list string)) : Prop :=
  ∃ k, Forall (λ vs, length vs = k) recs ∧
    match s with
    | P41 | P51 => 2 ≤ length recs ∧ columns_used s ≤ k
    | P52 => ¬ (length recs = 1 ∧ k = 1)
    end.

(** The shapes a script can index as it does: a table with as many
    columns as the script takes for the first two, any array with an axis
    for DataReader_Problem5.2. *)
Definition indexable (s : script_id) (sh : list nat) : Prop :=
  match s with
  | P41 | P51 => ∃ n k sh', sh = n :: k :: sh' ∧ columns_used s ≤ k
  | P52 => ∃ n sh', sh = n :: sh'
  end.

(** Sample files: the decay times on one line, a file with nothing but
    its header, one with a single record, one with a fourth column. *)
Definition decay_one_line : string := PyStr.unlines ["1.5 2.5 3.5"].

Definition population_header_only : string :=
  PyStr.unlines ["Year,PopIndia,PopChina"].

Definition population_one_record : string :=
  PyStr.unlines ["Year,PopIndia,PopChina"; "1960,445954579,667070000"].

Definition population_four_columns : string :=
  PyStr.unlines ["Year,PopIndia,PopChina,PopUSA";
                 "1960,445,667,180"; "1961,456,660,183"].

(** The console events of a run on a file without records. *)
Definition empty_run_log (s : script_id) : list event :=
  [EvOpen (input_name s); EvWarn (EmptyInputFile (input_name s));
   EvParse (input_name s); EvPrint (shape_line s [0])]
  ++ match s with
     | P41 | P51 => []
     | P52 => [EvSlice; EvPrint [PArray [0] []]]
     end.


(** Two worlds with the same buffers, bindings and console events; their
    files may differ. *)
Definition same_memory (w1 w2 : world) : Prop :=
  heap w1 = heap w2 ∧ globals w1 = globals w2 ∧ log w1 = log w2.

(** [m] reads no file: from worlds with the same memory it gives the same
    result and worlds with the same memory. *)
Definition blind {A} (m : M A) : Prop :=
  ∀ w1 w2, same_memory w1 w2 → same_memory (m w1).1 (m w2).1 ∧ (m w1).2 = (m w2).2.

(** Two outcomes that differ at most in the lines a [ValueError] lists. *)
Definition same_outcome (o1 o2 : exn + unit) : Prop :=
  match o1, o2 with
  | inl (ValueError k1 _), inl (ValueError k2 _) => k1 = k2
  | _, _ => o1 = o2
  end.

(** [n] blanks. *)
Fixpoint spaces (n : nat) : string :=
  match n with
  | 0 => EmptyString
  | S n' => String " " (spaces n')
  end.

(** A line of an annotated data file: a row of fields or nothing, then
    blanks, then a comment or nothing. *)
Record entry : Type := Entry {
  row : option (list string);
  pad : nat;
  note : option string
}.

(** The body of a line: a row of fields joined by the separator, or
    nothing. *)
Definition body_of (s : script_id) (r : option (list string)) : string :=
  match r with
  | Some r => join (separator s) r
  | None => EmptyString
  end.

Definition trailer (e : entry) : string :=
  String.append (spaces (pad e))
    match note e with
    | None => EmptyString
    | Some t => String "#" t
    end.

Definition entry_line (s : script_id) (e : entry) : string :=
  String.append (body_of s (row e)) (trailer e).

(** The text of an annotated file: the header line where the script
    skips one, then the entries, a line each. *)
Definition annotated (s : script_id) (header : string) (es : list entry) : string :=
  PyStr.unlines (replicate (skip_header_of s) header ++ (entry_line s <$> es)).

(** The fields of a row are plain and the comment stays on its line. *)
Definition well_written (s : script_id) (e : entry) : Prop :=
  match note e with
  | None => True
  | Some t => forall_chars no_line_end t = true
  end
  ∧ match row e with
    | None => True
    | Some r => r ≠ [] ∧ Forall (plain s) r
    end.

(** A text with its line feeds written as carriage return, line feed. *)
Fixpoint crlf (s : string) : string :=
  match s with
  | EmptyString => EmptyString
  | String c s' =>
      if Ascii.eqb c PyStr.LF then String PyStr.CR (String PyStr.LF (crlf s'))
      else String c (crlf s')
  end.

Definition population_annotated : list entry :=
  [Entry None 0 (Some " census figures");
   Entry (Some ["1960"; "445954579"; "667070000"]) 2 (Some " first year");
   Entry None 3 None;
   Entry (Some ["1961"; "456351876"; "660330000"]) 0 None;
   Entry (Some ["1962"; "467024193"; "665770000"]) 1 None].

(** The files a run has opened, in order. *)
Definition opened (w : world) : list string :=
  omap (λ e, match e with EvOpen f => Some f | _ => None end) (log w).

(** From [w] to [w'] no file was written and none opened. *)
Definition quiet (w w' : world) : Prop :=
  files w' = files w ∧ opened w' = opened w.

(** [m] adds at most [n] buffers to the heap. *)
Definition allocates {A} (n : nat) (m : M A) : Prop :=
  ∀ w, length (heap (m w).1) ≤ length (heap w) + n.

(** The buffers a script needs: the table, and in DataReader_Problem5.1
    the two columns of integers. *)
Definition buffers_of (s : script_id) : nat :=
  match s with
  | P41 | P52 => 1
  | P51 => 3
  end.

(** The number a string of decimal digits stands for, and the string
    with its sign. *)
Definition number (digits : string) : Z :=
  PyFloat.digits_value (PyFloat.take_digits digits).1.

Definition signed (neg : bool) (digits : string) : string :=
  if neg then String "-" digits else digits.

(** The lines a [ValueError] of [np.genfromtxt] lists for rows written
    from line [line] of the file on: those whose number of fields is not
    [nbcols], each with its line number and the number of fields it
    has. *)
Fixpoint odd_lines (nbcols line : nat) (rows : list (list string)) : list (nat * nat) :=
  match rows with
  | [] => []
  | r :: rows' =>
      (if (length r =? nbcols)%nat then [] else [(line, length r)])
      ++ odd_lines nbcols (S line) rows'
  end.

Definition population_gaps : list (list string) :=
  [["1960"; "445"; "667"]; ["1961"; "456"]; ["1962"; "467"; "665"];
   ["1963"; "478"; "682"; "7"]].

(** A row written with [n] blanks after each comma: the fields after
    the first begin with the blanks. *)
Definition spaced (n : nat) (r : list string) : list string :=
  match r with
  | [] => []
  | f :: r' => f :: (String.append (spaces n) <$> r')
  end.

(** The file written from rows of fields with a comma and [n] blanks
    between the fields of a row. *)
Definition written_spaced (s : script_id) (n : nat) (header : string)
    (rows : list (list string)) : string :=
  PyStr.unlines (replicate (skip_header_of s) header
                 ++ (join (String "," (spaces n)) <$> rows)).

(** Two tables of fields that read as the same floats. *)
Definition same_cells (recs1 recs2 : list (list string)) : Prop :=
  Forall2 (Forall2 (λ f g, cell f = cell g)) recs1 recs2.

Definition population_rows : list (list string) :=
  [["1960"; "445954579"; "667070000"]; ["1961"; "456351876"; "660330000"];
   ["1962"; "467024193"; "665770000"]].

(** A row of a comma-separated file some of whose fields may be missing:
    at least two fields, each plain or empty. *)
Definition gappy (s : script_id) (r : list string) : Prop :=
  2 ≤ length r ∧ Forall (λ f, forall_chars (plain_char s) f = true) r.

Definition population_missing : list (list string) :=
  [["1960"; "445954579"; "667070000"]; ["1961"; ""; "660330000"];
   [""; "467024193"; ""]].

Definition decay_respelled : string := PyStr.unlines ["1.50"; "25e-1"; "+3.5"].

(** *** Records and their fields *)

(** What [split_line] keeps of a line before it splits it: the text
    before the comment sign, without the blanks and line ends at its two
    ends. *)
Definition body (line : string) : string :=
  PyStr.strip (λ c, PyStr.mem c blanks) (hd "" (PyStr.split comments line)).

(** Fields written one after the other, each but the first after a gap:
    [f g1 f1 ... gn fn]. *)
Fixpoint weave (f : string) (rest : list (string * string)) : string :=
  match rest with
  | [] => f
  | (g, f') :: rest' => String.append f (String.append g (weave f' rest'))
  end.

(** White space only. *)
Definition white (g : string) : Prop := forall_chars PyStr.is_space g = true.

(** [r] is [b] split at its commas: [b] is the fields of [r] with a
    comma between every two, and no field holds a comma. *)
Definition split_at_commas (b : string) (r : list string) : Prop :=
  b = join "," r
  ∧ Forall (λ f, forall_chars (λ c, negb (Ascii.eqb "," c)) f = true) r.

(** [r] is [b] split at its runs of white space: [b] is the fields of
    [r] with white space between every two, and maybe some before the
    first and after the last; a field is not empty and holds no white
    space, whatever else it holds. *)
Definition split_at_white_space (b : string) (r : list string) : Prop :=
  ∃ lead f rest trail,
    r = f :: rest.*2
    ∧ b = String.append lead (String.append (weave f rest) trail)
    ∧ white lead ∧ white trail
    ∧ Forall (λ g, g ≠ "" ∧ white g) rest.*1
    ∧ Forall (λ f, f ≠ "" ∧ forall_chars (λ c, negb (PyStr.is_space c)) f = true) r.

(** How each script splits what is left of a line. *)
Definition split_by (s : script_id) : string → list string → Prop :=
  match s with
  | P41 | P51 => split_at_commas
  | P52 => split_at_white_space
  end.

(** A line without fields: nothing is left of it, or for
    DataReader_Problem5.2 white space only. *)
Definition no_fields (s : script_id) (b : string) : bool :=
  match s with
  | P41 | P51 => match b with EmptyString => true | _ => false end
  | P52 => forall_chars PyStr.is_space b
  end.

(** Two lines of decay times, the values set apart by blanks and a tab,
    with a decimal comma and a comment. *)
Definition decay_two_columns : string :=
  PyStr.unlines
    [String.append "1,5 " (String "009" " 2.5");
     "  0.5   3,5  # second"].

(** A file written from rows of fields without a header line. *)
Definition headerless (s : script_id) (rows : list (list string)) : string :=
  PyStr.unlines (join (separator s) <$> rows).

(** *** The interpreter's environment

    A script is run by an interpreter, on files that hold bytes.  Two
    things are left to the interpreter by the scripts: [np.genfromtxt]
    opens its file in text mode without naming an encoding, so the bytes
    are decoded by the codec of the locale; and a warning is printed or
    raised as an exception by the warning filter ([python -W error]). *)

(** What a file holds. *)
Definition bytes : Type := list Byte.byte.

(** A codec: the text the bytes of a file decode to, or [None] where
    they do not decode.  Text has code points below 256, so a codec is
    taken on the files it decodes to such text. *)
Definition codec : Type := bytes → option string.

(** Every byte read as the code point of its value. *)
Definition text_of (bs : bytes) : string := string_of_list_byte bs.

Definition is_ascii (b : Byte.byte) : bool := Byte.to_nat b <? 128.

(** ISO 8859-1 decodes every file, byte by byte; ASCII refuses a byte
    above 127. *)
Definition latin_1 : codec := λ bs, Some (text_of bs).

Definition ascii_only : codec := λ bs,
  if forallb is_ascii bs then Some (text_of bs) else None.

(** A codec that reads ASCII bytes the way ASCII does, as UTF-8, the
    ISO 8859 family and the Windows code pages do. *)
Definition ascii_compatible (c : codec) : Prop :=
  ∀ bs, forallb is_ascii bs = true → c bs = Some (text_of bs).

(** What a process can consult besides the files: the arguments given
    to the script, the time, the state of the random generators, the
    codec of the locale and the warning filter, [true] where warnings
    are raised.  No statement of the scripts asks for the first three. *)
Record env : Type := Env {
  argv : list string;
  clock : Z;
  seed : Z;
  encoding : codec;
  warnings_raise : bool
}.

(** The same environment with the default warning filter. *)
Definition lenient (E : env) : env :=
  {| argv := argv E; clock := clock E; seed := seed E;
     encoding := encoding E; warnings_raise := false |}.

(** What ends a run before its last statement: an exception of a
    statement, a file that does not decode, or a warning raised as an
    exception. *)
Inductive failure : Type :=
| Raised (e : exn)
| UnicodeDecodeError (fname : string)
| Warned (w : warning).

(** The events before the first warning of a list, and that warning. *)
Fixpoint first_warning (es : list event) : option (list event * warning) :=
  match es with
  | [] => None
  | EvWarn w :: _ => Some ([], w)
  | e :: es' =>
      match first_warning es' with
      | Some (before, w) => Some (e :: before, w)
      | None => None
      end
  end.

(** No warning among the events. *)
Definition warning_free (es : list event) : bool :=
  forallb (λ e, match e with EvWarn _ => false | _ => true end) es.

(** One statement under a warning filter.  Where warnings are raised, a
    statement that gives one stops there: what it logged before stays,
    it binds no name and its buffers are dropped. *)
Definition guarded (raising : bool) (m : stmt) (w : world) : world * (failure + unit) :=
  let '(w', r) := m w in
  match (if raising then first_warning (drop (length (log w)) (log w')) else None) with
  | Some (before, wn) =>
      ({| files := files w; heap := heap w; globals := globals w;
          log := log w ++ before |}, inl (Warned wn))
  | None =>
      (w', match r with inl e => inl (Raised e) | inr x => inr x end)
  end.

(** The statements in turn under a warning filter, up to the first
    that fails. *)
Fixpoint exec_under (raising : bool) (prog : list stmt) (w : world)
  : world * (failure + unit) :=
  match prog with
  | [] => (w, inr ())
  | s :: prog' =>
      match guarded raising s w with
      | (w', inr _) => exec_under raising prog' w'
      | stop => stop
      end
  end.

(** The files of a disk as the text they decode to. *)
Definition texts (E : env) (disk : gmap string bytes) : gmap string string :=
  omap (encoding E) disk.

(** A run of a script by the interpreter.  The script opens one file,
    its input; where the bytes of that file do not decode, the load
    raises [UnicodeDecodeError] once it has opened the file. *)
Definition python (E : env) (s : script_id) (disk : gmap string bytes)
  : world * (failure + unit) :=
  let w := boot (texts E disk) in
  match disk !! input_name s with
  | Some bs =>
      match encoding E bs with
      | Some _ => exec_under (warnings_raise E) (program s) w
      | None =>
          (add_event (EvOpen (input_name s)) w,
           inl (UnicodeDecodeError (input_name s)))
      end
  | None => exec_under (warnings_raise E) (program s) w
  end.

(** A run of the statements as it is, seen as a run under an
    environment. *)
Definition lifted (r : world * (exn + unit)) : world * (failure + unit) :=
  (r.1, match r.2 with inl e => inl (Raised e) | inr x => inr x end).

(** The log only grows. *)
Definition appends (w w' : world) : Prop := log w `prefix_of` log w'.

(** Two environments: ISO 8859-1 with the default warning filter, and
    ASCII with warnings raised, at another time and with another random
    state. *)
Definition default_env : env :=
  {| argv := []; clock := 0; seed := 0;
     encoding := latin_1; warnings_raise := false |}.

Definition strict_env : env :=
  {| argv := ["--plot"]; clock := 1700000000; seed := 42;
     encoding := ascii_only; warnings_raise := true |}.

(** The population file with an accented word in its header, written in
    ISO 8859-1: one byte above 127. *)
Definition population_accented : bytes :=
  list_byte_of_string
    (PyStr.unlines [String.append "Ann" (String "233" "e,PopIndia,PopChina");
                    "1960,445954579,667070000"; "1961,456351876,660330000";
                    "1962,467024193,665770000"]).

(** ** What [np.genfromtxt] returns *)

Lemma filter_all {A} (P : A → Prop) `{!∀ x, Decision (P x)} (l : list A) :
  Forall P l → filter P l = l.
Proof.
  induction 1 as [|x l Hx _ IH]; [done|].
  by rewrite filter_cons_True, IH.
Qed.

Section loading.
Context (delimiter : option string).

Local Arguments Nat.eqb : simpl never.

Abbreviation valued := (filter (λ vs : list string, vs ≠ [])).

Lemma first_valid_None fhd :
  first_valid delimiter fhd = None →
  valued (split_line delimiter <$> fhd) = [].
Proof.
  induction fhd as [|line fhd IH]; simpl; [done|].
  destruct (split_line delimiter line) eqn:E; [|done].
  intros H. rewrite filter_cons_False by (by intros []). auto.
Qed.

Lemma first_valid_Some fhd line vs rest :
  first_valid delimiter fhd = Some (line, vs, rest) →
  vs ≠ [] ∧ split_line delimiter line = vs ∧
  valued (split_line delimiter <$> fhd)
  = vs :: valued (split_line delimiter <$> rest).
Proof.
  induction fhd as [|l fhd IH]; simpl; [done|].
  destruct (split_line delimiter l) eqn:E.
  - intros H. rewrite filter_cons_False by (by intros []). auto.
  - intros [= <- <- <-]. by rewrite filter_cons_True.
Qed.

Lemma parse_lines_rows nbcols skip_header i lines :
  0 < nbcols →
  (parse_lines delimiter nbcols skip_header i lines).1
  = filter (λ vs, length vs = nbcols) (valued (split_line delimiter <$> lines)).
Proof.
  intros Hk. revert i.
  induction lines as [|line lines IH]; intros i; simpl; [done|].
  specialize (IH (S i)).
  destruct (parse_lines delimiter nbcols skip_header (S i) lines) as [rows invalid].
  simpl in IH. subst rows.
  destruct (split_line delimiter line) as [|v vs] eqn:E; simpl.
  - by rewrite filter_cons_False by (by intros []).
  - rewrite filter_cons_True by done.
    destruct (Nat.eqb_spec (S (length vs)) nbcols) as [Hn|Hn]; simpl.
    + by rewrite filter_cons_True.
    + by rewrite filter_cons_False.
Qed.

Lemma parse_lines_invalid nbcols skip_header i lines :
  (parse_lines delimiter nbcols skip_header i lines).2 = [] ↔
  Forall (λ vs, length vs = nbcols) (valued (split_line delimiter <$> lines)).
Proof.
  revert i.
  induction lines as [|line lines IH]; intros i; simpl; [done|].
  specialize (IH (S i)).
  destruct (parse_lines delimiter nbcols skip_header (S i) lines) as [rows invalid].
  simpl in IH.
  destruct (split_line delimiter line) as [|v vs] eqn:E; simpl.
  - by rewrite filter_cons_False by (by intros []).
  - rewrite filter_cons_True by done. rewrite Forall_cons.
    destruct (Nat.eqb_spec (S (length vs)) nbcols) as [Hn|Hn]; simpl;
      [by rewrite IH; intuition | by intuition].
Qed.

Lemma cells_of_rows (rows : list (list string)) :
  F64 <$> concat ((λ row : list string, loose_call <$> row) <$> rows)
  = cell <$> concat rows.
Proof.
  induction rows as [|row rows IH]; csimpl; [done|].
  rewrite !fmap_app, IH. f_equal. by rewrite <- list_fmap_compose.
Qed.

Context (fname : string) (skip_header : nat) (w : world) (text : string).
Hypothesis Hfile : files w !! fname = Some text.

Lemma genfromtxt_uniform r recs :
  records delimiter skip_header text = r :: recs →
  Forall (λ vs, length vs = length r) recs →
  genfromtxt fname delimiter skip_header w
  = (add_event (EvParse fname)
       (add_buffer (cell <$> concat (r :: recs))
          (add_event (EvOpen fname) w)),
     inr (squeeze {| base := length (heap w); offset := 0;
                     shape := [S (length recs); length r];
                     strides := [length r; 1] |})).
Proof.
  unfold records, genfromtxt. intros Hrecs Hall.
  unfold mbind at 1, M_bind at 1, open. rewrite Hfile.
  destruct (first_valid delimiter (drop skip_header (PyStr.readlines text)))
    as [[[line vs] rest]|] eqn:Hfirst.
  - apply first_valid_Some in Hfirst as (Hvs & Hline & Heq).
    rewrite Heq in Hrecs. injection Hrecs as -> Hrest.
    assert (0 < length r) by (destruct r; [done | simpl; lia]).
    unfold mbind at 1, M_bind at 1, mret at 1, M_ret at 1.
    pose proof (parse_lines_rows (length r) skip_header 0 (line :: rest)) as Hrows.
    pose proof (parse_lines_invalid (length r) skip_header 0 (line :: rest)) as Hinv.
    destruct (parse_lines delimiter (length r) skip_header 0 (line :: rest))
      as [rows invalid].
    csimpl in Hrows; csimpl in Hinv. rewrite Hline in Hrows, Hinv.
    destruct r as [|v r']; [done|].
    rewrite filter_cons_True in Hrows, Hinv by done.
    rewrite Hrest in Hrows, Hinv.
    rewrite Hrows by done.
    destruct Hinv as [_ Hinv]. rewrite Hinv by (by constructor).
    rewrite filter_all by (by constructor).
    rewrite <- cells_of_rows.
    unfold np_array, mbind, M_bind, alloc, emit, mret, M_ret. csimpl.
    by rewrite !length_fmap, Nat.mul_1_r.
  - apply first_valid_None in Hfirst. by rewrite Hfirst in Hrecs.
Qed.

(** Records of different lengths: [ValueError], raised after the file
    was opened and before any array exists. *)
Lemma genfromtxt_ragged r recs :
  records delimiter skip_header text = r :: recs →
  ¬ Forall (λ vs, length vs = length r) recs →
  ∃ invalid,
    genfromtxt fname delimiter skip_header w
    = (add_event (EvOpen fname) w, inl (ValueError (length r) invalid)).
Proof.
  unfold records, genfromtxt. intros Hrecs Hall.
  unfold mbind at 1, M_bind at 1, open. rewrite Hfile.
  destruct (first_valid delimiter (drop skip_header (PyStr.readlines text)))
    as [[[line vs] rest]|] eqn:Hfirst.
  - apply first_valid_Some in Hfirst as (Hvs & Hline & Heq).
    rewrite Heq in Hrecs. injection Hrecs as -> Hrest.
    unfold mbind at 1, M_bind at 1, mret at 1, M_ret at 1.
    pose proof (parse_lines_invalid (length r) skip_header 0 (line :: rest)) as Hinv.
    destruct (parse_lines delimiter (length r) skip_header 0 (line :: rest))
      as [rows invalid].
    csimpl in Hinv. rewrite Hline in Hinv.
    rewrite filter_cons_True, Hrest, Forall_cons in Hinv by done.
    destruct invalid as [|bad invalid]; [|by eexists].
    destruct Hall. by apply Hinv.
  - apply first_valid_None in Hfirst. by rewrite Hfirst in Hrecs.
Qed.

(** No record at all: a warning and an empty one-dimensional array. *)
Lemma genfromtxt_empty :
  records delimiter skip_header text = [] →
  genfromtxt fname delimiter skip_header w
  = (add_event (EvParse fname)
       (add_buffer []
          (add_event (EvWarn (EmptyInputFile fname))
             (add_event (EvOpen fname) w))),
     inr {| base := length (heap w); offset := 0; shape := [0]; strides := [1] |}).
Proof.
  unfold records, genfromtxt. intros Hrecs.
  unfold mbind at 1, M_bind at 1, open. rewrite Hfile.
  destruct (first_valid delimiter (drop skip_header (PyStr.readlines text)))
    as [[[line vs] rest]|] eqn:Hfirst.
  - apply first_valid_Some in Hfirst as (Hvs & Hline & Heq).
    by rewrite Heq in Hrecs.
  - done.
Qed.

End loading.

Lemma genfromtxt_missing fname delimiter skip_header w :
  files w !! fname = None →
  genfromtxt fname delimiter skip_header w = (w, inl (FileNotFoundError fname)).
Proof.
  intros Hfile. unfold genfromtxt, mbind, M_bind, open. by rewrite Hfile.
Qed.

(** The one result [np.genfromtxt] can have besides these exceptions: a
    view of a new buffer, with the file left as it was. *)
Lemma genfromtxt_cases fname delimiter skip_header w :
  genfromtxt fname delimiter skip_header w = (w, inl (FileNotFoundError fname))
  ∨ (∃ nbcols invalid,
       genfromtxt fname delimiter skip_header w
       = (add_event (EvOpen fname) w, inl (ValueError nbcols invalid)))
  ∨ (∃ buf a warned,
       genfromtxt fname delimiter skip_header w
       = (add_event (EvParse fname) (add_buffer buf (warned (add_event (EvOpen fname) w))), inr a)
       ∧ base a = length (heap w)
       ∧ (warned = id ∨ warned = add_event (EvWarn (EmptyInputFile fname)))).
Proof.
  destruct (files w !! fname) as [text|] eqn:Hfile;
    [|left; by apply genfromtxt_missing].
  right.
  destruct (records delimiter skip_header text) as [|r recs] eqn:Hrecs.
  - right. do 3 eexists. split; [by eapply genfromtxt_empty|]. auto.
  - destruct (decide (Forall (λ vs, length vs = length r) recs)) as [Hall|Hall].
    + right. exists (cell <$> concat (r :: recs)). eexists. exists id.
      split; [by eapply genfromtxt_uniform|]. auto.
    + left. exists (length r).
      by eapply genfromtxt_ragged.
Qed.

(** ** Reading arrays *)

Section lists.
Context {A : Type} `{!Inhabited A}.

Lemma bind_singleton {B} (g : A → B) (l : list A) :
  (l ≫= λ i, [g i]) = g <$> l.
Proof. induction l as [|x l IH]; csimpl; by f_equal. Qed.

Lemma fmap_lookup_seq (l : list A) (a m : nat) :
  a + m ≤ length l →
  (λ i, l !!! i) <$> seq a m = take m (drop a l).
Proof.
  intros Hlen. apply list_eq. intros i.
  rewrite list_lookup_fmap.
  destruct (decide (i < m)) as [Hi|Hi].
  - rewrite lookup_seq_lt, lookup_take_lt, lookup_drop by done. simpl.
    symmetry. apply list_lookup_lookup_total_lt. lia.
  - rewrite lookup_seq_ge, lookup_take_ge by lia. done.
Qed.

Lemma fmap_lookup_all (l : list A) :
  (λ i, l !!! i) <$> seq 0 (length l) = l.
Proof.
  rewrite fmap_lookup_seq by (simpl; lia).
  by rewrite drop_0, firstn_all.
Qed.

(** Row [i], field [j] of a row-major table with rows of length [k]. *)
Lemma lookup_concat_uniform (rows : list (list A)) (k i j : nat) :
  Forall (λ r, length r = k) rows → j < k →
  concat rows !! (i * k + j) = rows !! i ≫= (.!! j).
Proof.
  intros Hall Hj. revert i.
  induction Hall as [|r rows Hr _ IH]; intros i; [done|].
  destruct i as [|i]; simpl.
  - apply lookup_app_l. lia.
  - rewrite lookup_app_r by lia. rewrite <- IH. f_equal. lia.
Qed.

Lemma length_concat_uniform (rows : list (list A)) (k : nat) :
  Forall (λ r, length r = k) rows → length (concat rows) = length rows * k.
Proof.
  induction 1 as [|r rows Hr _ IH]; [done|].
  simpl. rewrite length_app. lia.
Qed.

End lists.

Lemma offsets_1d sel n s :
  offsets_with sel [n] [s] = (λ i, i * s + 0) <$> sel n.
Proof. unfold offsets_with. apply bind_singleton. Qed.

Lemma seq_blocks k a n :
  (seq a n ≫= λ i, (λ o, i * k + o) <$> seq 0 k) = seq (a * k) (n * k).
Proof.
  revert a. induction n as [|n IH]; intros a; [done|].
  simpl seq. rewrite bind_cons, IH, fmap_add_seq, Nat.add_0_r.
  replace (S a * k) with (a * k + k) by lia.
  replace (S n * k) with (k + n * k) by lia.
  by rewrite seq_app.
Qed.

Lemma offsets_2d n k : offsets [n; k] [k; 1] = seq 0 (n * k).
Proof.
  unfold offsets. cbn [offsets_with].
  change (seq 0 (n * k)) with (seq (0 * k) (n * k)).
  rewrite <- (seq_blocks k 0 n). apply list_bind_ext; [|done].
  intros i. f_equal.
  change (offsets_with (seq 0) [k] [1] = seq 0 k). rewrite offsets_1d.
  rewrite <- (list_fmap_id (seq 0 k)) at 2.
  apply list_fmap_ext. intros ? j _. simpl. lia.
Qed.

Lemma items_at_fmap h a (g : nat → nat) (ns : list nat) :
  items_at h a (g <$> ns) = (λ i, (h !!! base a) !!! (offset a + g i)) <$> ns.
Proof. unfold items_at. by rewrite <- list_fmap_compose. Qed.

Section holds.
Context (h : list (list scalar)) (v : ndarray) (l : list scalar).
Hypothesis Hv : holds h v l.

Lemma holds_items_at (ns : nat → list nat) :
  Forall (λ i, i < length l) (ns (length l)) →
  items_at h v (offsets_with ns (shape v) (strides v))
  = (λ i, l !!! i) <$> ns (length l).
Proof.
  destruct Hv as (_ & s & -> & -> & Hl). intros Hns.
  rewrite offsets_1d, items_at_fmap.
  apply Forall_fmap_ext_1. eapply Forall_impl; [done|]. auto.
Qed.

Lemma holds_items : items h v = l.
Proof.
  unfold items, offsets. rewrite holds_items_at.
  - apply fmap_lookup_all.
  - apply Forall_seq. intros; lia.
Qed.

Lemma holds_shape : shape v = [length l].
Proof. by destruct Hv as (_ & s & -> & _). Qed.

Lemma holds_shown : shown_items h v = abbreviate l.
Proof.
  unfold shown_items, abbreviate, size. rewrite holds_shape. simpl foldr.
  rewrite Nat.mul_1_r.
  destruct (Nat.ltb_spec threshold (length l)) as [Hbig|Hsmall];
    [|apply holds_items].
  unfold threshold, edgeitems in *.
  rewrite <- holds_shape, holds_items_at; unfold leading_trailing, edgeitems.
  - destruct (Nat.ltb_spec (2 * 3) (length l)) as [_|?]; [|lia].
    rewrite fmap_app, !fmap_lookup_seq by lia.
    rewrite drop_0. f_equal. apply take_ge. rewrite length_drop. lia.
  - destruct (Nat.ltb_spec (2 * 3) (length l)) as [_|?]; [|lia].
    rewrite Forall_app, !Forall_seq. split; intros; lia.
Qed.

(** [v[0:m]] holds the first [m] items. *)
Lemma holds_upto (m : nat) (w : world) :
  heap w = h →
  ∃ v', getitem v [Upto m] w = (add_event EvSlice w, inr v')
        ∧ base v' = base v ∧ holds h v' (take m l).
Proof.
  intros Hh. destruct Hv as (Hb & s & Hsh & Hst & Hl).
  unfold getitem. rewrite Hsh, Hst. simpl.
  eexists. split; [done|]. split; [done|].
  split; [done|]. exists s. simpl. rewrite length_take.
  split_and!; [done..|].
  intros i Hi. rewrite Nat.add_0_r, lookup_total_take_lt by lia.
  apply Hl. lia.
Qed.

(** Buffers are only ever added at the end of the heap. *)
Lemma holds_mono (h' : list (list scalar)) : holds (h ++ h') v l.
Proof.
  destruct Hv as (Hb & s & Hsh & Hst & Hl).
  split; [rewrite length_app; lia|]. exists s. split_and!; [done..|].
  intros i Hi. rewrite lookup_total_app_l by done. by apply Hl.
Qed.

End holds.

(** Column [j] of a row-major table is held by the view at offset [j]
    with step [k]. *)
Lemma holds_column h b recs k j :
  h !! b = Some (cell <$> concat recs) →
  Forall (λ vs, length vs = k) recs → j < k →
  holds h {| base := b; offset := 0 + (j * 1 + 0); shape := [length recs];
             strides := [k] |} (column j recs).
Proof.
  intros Hb Hall Hj. split; [by eapply lookup_lt_Some|].
  exists k. unfold column. rewrite length_fmap. split_and!; [done..|].
  intros i Hi. simpl.
  rewrite (list_lookup_total_correct _ _ _ Hb).
  replace (j * 1 + 0 + (i * k + 0)) with (i * k + j) by lia.
  apply list_lookup_total_correct.
  destruct (lookup_lt_is_Some_2 recs i Hi) as [vs Hvs].
  assert (length vs = k) by (eapply Forall_lookup_1 in Hall; eauto).
  destruct (lookup_lt_is_Some_2 vs j) as [x Hx]; [lia|].
  rewrite (list_lookup_total_correct _ i (cell x)).
  - rewrite list_lookup_fmap, (lookup_concat_uniform _ k), Hvs by done.
    simpl. by rewrite Hx.
  - rewrite list_lookup_fmap, Hvs. simpl.
    by rewrite (list_lookup_total_correct _ _ _ Hx).
Qed.

(** A buffer seen from its start with step one. *)
Lemma holds_buffer h b xs s :
  h !! b = Some xs → s = 1 →
  holds h {| base := b; offset := 0; shape := [length xs]; strides := [s] |} xs.
Proof.
  intros Hb ->. split; [by eapply lookup_lt_Some|].
  exists 1. split_and!; [done..|].
  intros i Hi. simpl. rewrite (list_lookup_total_correct _ _ _ Hb).
  f_equal. lia.
Qed.

(** ** Running the scripts on a well-formed file *)

Lemma squeeze_table b n k :
  n ≠ 1 → k ≠ 1 →
  squeeze (NDArray b 0 [n; k] [k; 1]) = NDArray b 0 [n; k] [k; 1].
Proof.
  intros Hn Hk. unfold squeeze. simpl zip.
  by rewrite !filter_cons_True by done.
Qed.

Lemma squeeze_column b n :
  n ≠ 1 →
  squeeze (NDArray b 0 [n; 1] [1; 1]) = NDArray b 0 [n] [1].
Proof.
  intros Hn. unfold squeeze. simpl zip.
  rewrite filter_cons_True by done.
  by rewrite filter_cons_False by (simpl; intros []; done).
Qed.

Lemma well_formed_records s text :
  well_formed s text →
  ∃ r recs,
    records (delimiter_of s) (skip_header_of s) text = r :: recs
    ∧ length r = columns_of s
    ∧ Forall (λ vs, length vs = length r) recs
    ∧ 1 ≤ length recs.
Proof.
  unfold well_formed. intros [Hn Hall].
  destruct (records _ _ text) as [|r recs]; [simpl in Hn; lia|].
  apply Forall_cons in Hall as [Hr Hall].
  exists r, recs. rewrite Hr. simpl in Hn. split_and!; [done..|lia].
Qed.

Lemma exec_cons (s : stmt) (prog : list stmt) (w : world) :
  exec (s :: prog) w
  = match s w with
    | (w', inr _) => exec prog w'
    | (w', inl e) => (w', inl e)
    end.
Proof. done. Qed.

Lemma bind_inr {A B} (m : M A) (f : A → M B) (w w1 : world) (x : A) r :
  m w = (w1, inr x) → f x w1 = r → (m ≫= f) w = r.
Proof. unfold mbind, M_bind. by intros -> <-. Qed.

Lemma bind_inl {A B} (m : M A) (f : A → M B) (w w1 : world) (e : exn) :
  m w = (w1, inl e) → (m ≫= f) w = (w1, inl e).
Proof. unfold mbind, M_bind. by intros ->. Qed.

Lemma var_bound name a w : globals w !! name = Some a → var name w = (w, inr a).
Proof. unfold var. by intros ->. Qed.

Lemma display_holds v l w :
  holds (heap w) v l → display v w = (w, inr (PArray [length l] (abbreviate l))).
Proof.
  intros Hv. unfold display.
  by rewrite (holds_shape _ _ _ Hv), (holds_shown _ _ _ Hv).
Qed.

Lemma abbreviate_small l : length l ≤ threshold → abbreviate l = l.
Proof.
  intros Hl. unfold abbreviate.
  by destruct (Nat.ltb_spec threshold (length l)); [lia|].
Qed.

(** The sample [v[0:m]] of a one-dimensional array. *)
Lemma holds_take h v l m n :
  holds h v l → n = length l →
  holds h (NDArray (base v) (offset v + 0) [m `min` n] (strides v)) (take m l).
Proof.
  intros (Hb & s & Hsh & Hst & Hl) ->. split; [done|].
  exists s. simpl. rewrite length_take. split_and!; [done..|].
  intros i Hi. rewrite Nat.add_0_r, lookup_total_take_lt by lia.
  apply Hl. lia.
Qed.

Lemma getitem_upto v n s m w :
  shape v = [n] → strides v = [s] →
  getitem v [Upto m] w
  = (add_event EvSlice w, inr (NDArray (base v) (offset v + 0) [m `min` n] [s])).
Proof. unfold getitem. by intros -> ->. Qed.

Lemma world_eq w fs h g l :
  files w = fs → heap w = h → globals w = g → log w = l →
  w = {| files := fs; heap := h; globals := g; log := l |}.
Proof. destruct w. simpl. by intros -> -> -> ->. Qed.

Lemma log_add_event e w : log (add_event e w) = log w ++ [e].
Proof. done. Qed.

Lemma log_add_events es w : log (add_events es w) = log w ++ es.
Proof. done. Qed.

Lemma log_add_buffer buf w : log (add_buffer buf w) = log w.
Proof. done. Qed.

Lemma log_bind_name x a w : log (bind_name x a w) = log w.
Proof. done. Qed.

Lemma astype_holds v l w :
  holds (heap w) v l →
  astype_int v w
  = (add_event EvAstype (add_buffer (cast_int <$> l) (add_events (cast_warning l) w)),
     inr (NDArray (length (heap w)) 0 [length l] [1])).
Proof.
  intros Hv. unfold astype_int.
  eapply bind_inr; [reflexivity|]. cbv beta.
  rewrite (holds_items _ _ _ Hv), (holds_shape _ _ _ Hv).
  unfold cast_warning.
  destruct (forallb cast_valid l); eapply bind_inr; try reflexivity;
    cbv beta; unfold add_events; destruct w; simpl; by rewrite ?app_nil_r.
Qed.

(** Proof steps for a statement [var x ≫= ...]: look the name up, then
    go on with the rest of the statement. *)
Ltac look_up := apply var_bound; simpl; by simplify_map_eq.
Ltac bound_var := eapply bind_inr; [look_up | cbv beta].
Ltac next_stmt := eapply bind_inr; [| cbv beta].

Lemma run_P41 fs text :
  fs !! Problem41.fname = Some text →
  well_formed P41 text →
  let recs := records (Some ",") 1 text in
  let n := length recs in
  run Problem41.script fs
  = ({| files := fs;
        heap := [cell <$> concat recs];
        globals :=
          <["PopChina" := NDArray 0 2 [n] [3]]>
            (<["PopIndia" := NDArray 0 1 [n] [3]]>
               (<["year" := NDArray 0 0 [n] [3]]>
                  (<["data" := NDArray 0 0 [n; 3] [3; 1]]> ∅)));
        log :=
          [EvOpen Problem41.fname; EvParse Problem41.fname;
           EvPrint [PTuple [n; 3]];
           EvSlice; EvSlice; EvSlice;
           EvPrint [PArray [n] (abbreviate (column 0 recs))];
           EvPrint [PArray [n] (abbreviate (column 1 recs))];
           EvPrint [PArray [n] (abbreviate (column 2 recs))]] |},
     inr ()).
Proof.
  intros Hfile Hwf recs n.
  destruct (well_formed_records _ _ Hwf) as (r & recs' & Hrecs & Hr & Hall & Hn).
  simpl in Hrecs, Hr.
  assert (Hcols : Forall (λ vs, length vs = 3) recs).
  { unfold recs. rewrite Hrecs. constructor; [done|]. by rewrite <- Hr. }
  assert (Hlen : n = S (length recs')) by (unfold n, recs; by rewrite Hrecs).
  unfold run, Problem41.script.
  rewrite exec_cons. unfold mbind at 1, M_bind at 1.
  rewrite (genfromtxt_uniform (Some ",") Problem41.fname 1 (boot fs) text Hfile
             r recs' Hrecs Hall).
  rewrite Hr, squeeze_table by lia. rewrite <- Hrecs, <- Hlen. fold recs.
  unfold assign at 1. clearbody recs. subst n. clear Hrecs Hall Hfile Hwf.
  assert (Hbuf : ∀ j, j < 3 →
            holds [cell <$> concat recs] (NDArray 0 (0 + (j * 1 + 0)) [length recs] [3])
              (column j recs)).
  { intros j Hj. by apply holds_column. }
  assert (Hcol : ∀ j, length (column j recs) = length recs).
  { intros j. unfold column. by rewrite length_fmap. }
  simpl exec.
  next_stmt. { bound_var. reflexivity. }
  next_stmt. { bound_var. next_stmt; reflexivity. }
  next_stmt. { bound_var. next_stmt; reflexivity. }
  next_stmt. { bound_var. next_stmt; reflexivity. }
  next_stmt.
  { bound_var. next_stmt; [apply display_holds, (Hbuf 0); lia | reflexivity]. }
  next_stmt.
  { bound_var. next_stmt; [apply display_holds, (Hbuf 1); lia | reflexivity]. }
  next_stmt.
  { bound_var. next_stmt; [apply display_holds, (Hbuf 2); lia | reflexivity]. }
  rewrite !Hcol. done.
Qed.

Lemma run_P52 fs text :
  fs !! Problem52.fname = Some text →
  well_formed P52 text →
  let recs := records None 0 text in
  let n := length recs in
  run Problem52.script fs
  = ({| files := fs;
        heap := [cell <$> concat recs];
        globals := <["data" := NDArray 0 0 [n] [1]]> ∅;
        log :=
          [EvOpen Problem52.fname; EvParse Problem52.fname;
           EvPrint [PTuple [n]];
           EvSlice;
           EvPrint [PArray [10 `min` n] (take 10 (column 0 recs))]] |},
     inr ()).
Proof.
  intros Hfile Hwf recs n.
  destruct (well_formed_records _ _ Hwf) as (r & recs' & Hrecs & Hr & Hall & Hn).
  simpl in Hrecs, Hr.
  assert (Hcols : Forall (λ vs, length vs = 1) recs).
  { unfold recs. rewrite Hrecs. constructor; [done|]. by rewrite <- Hr. }
  assert (Hlen : n = S (length recs')) by (unfold n, recs; by rewrite Hrecs).
  unfold run, Problem52.script.
  rewrite exec_cons. unfold mbind at 1, M_bind at 1.
  rewrite (genfromtxt_uniform None Problem52.fname 0 (boot fs) text Hfile
             r recs' Hrecs Hall).
  rewrite Hr, squeeze_column by lia. rewrite <- Hrecs, <- Hlen. fold recs.
  unfold assign at 1. clearbody recs. subst n. clear Hrecs Hall Hfile Hwf.
  assert (Hbuf : holds [cell <$> concat recs] (NDArray 0 0 [length recs] [1])
                   (column 0 recs)).
  { apply (holds_column _ 0 recs 1 0); [done..|lia]. }
  assert (Hcol : length (column 0 recs) = length recs).
  { unfold column. by rewrite length_fmap. }
  simpl exec.
  next_stmt. { bound_var. reflexivity. }
  next_stmt.
  { bound_var. next_stmt; [by apply getitem_upto|].
    next_stmt; [|reflexivity].
    apply display_holds. simpl heap. by apply (holds_take _ _ _ 10 _ Hbuf). }
  rewrite abbreviate_small by (rewrite length_take; unfold threshold; lia).
  rewrite length_take, Hcol. done.
Qed.

Lemma run_P51 fs text :
  fs !! Problem51.fname = Some text →
  well_formed P51 text →
  let recs := records (Some ",") 1 text in
  let n := length recs in
  let index := cast_int <$> column 0 recs in
  let type := cast_int <$> column 4 recs in
  run Problem51.script fs
  = ({| files := fs;
        heap := [cell <$> concat recs; index; type];
        globals :=
          <["type" := NDArray 2 0 [n] [1]]>
            (<["freq" := NDArray 0 3 [n] [5]]>
               (<["R" := NDArray 0 2 [n] [5]]>
                  (<["P" := NDArray 0 1 [n] [5]]>
                     (<["index" := NDArray 1 0 [n] [1]]>
                        (<["data" := NDArray 0 0 [n; 5] [5; 1]]> ∅)))));
        log :=
          [EvOpen Problem51.fname; EvParse Problem51.fname;
           EvPrint [PStr "  Shape of data: "; PTuple [n; 5]];
           EvSlice]
          ++ cast_warning (column 0 recs)
          ++ [EvAstype; EvSlice; EvSlice; EvSlice; EvSlice]
          ++ cast_warning (column 4 recs)
          ++ [EvAstype;
              EvSlice; EvPrint [PArray [3 `min` n] (take 3 index)];
              EvSlice; EvPrint [PArray [3 `min` n] (take 3 (column 1 recs))];
              EvSlice; EvPrint [PArray [3 `min` n] (take 3 (column 2 recs))];
              EvSlice; EvPrint [PArray [3 `min` n] (take 3 (column 3 recs))];
              EvSlice; EvPrint [PArray [3 `min` n] (take 3 type)]] |},
     inr ()).
Proof.
  intros Hfile Hwf recs n index type.
  destruct (well_formed_records _ _ Hwf) as (r & recs' & Hrecs & Hr & Hall & Hn).
  simpl in Hrecs, Hr.
  assert (Hcols : Forall (λ vs, length vs = 5) recs).
  { unfold recs. rewrite Hrecs. constructor; [done|]. by rewrite <- Hr. }
  assert (Hlen : n = S (length recs')) by (unfold n, recs; by rewrite Hrecs).
  unfold run, Problem51.script.
  rewrite exec_cons. unfold mbind at 1, M_bind at 1.
  rewrite (genfromtxt_uniform (Some ",") Problem51.fname 1 (boot fs) text Hfile
             r recs' Hrecs Hall).
  rewrite Hr, squeeze_table by lia. rewrite <- Hrecs, <- Hlen. fold recs.
  unfold assign at 1. subst index type. clearbody recs. subst n.
  clear Hrecs Hall Hfile Hwf.
  assert (Hcol : ∀ j, length (column j recs) = length recs).
  { intros j. unfold column. by rewrite length_fmap. }
  assert (Hbuf : ∀ j h', j < 5 →
            holds ([cell <$> concat recs] ++ h')
              (NDArray 0 (0 + (j * 1 + 0)) [length recs] [5]) (column j recs)).
  { intros j h' Hj. by apply holds_mono, holds_column. }
  assert (Hindex : ∀ h',
            holds ([cell <$> concat recs; cast_int <$> column 0 recs] ++ h')
              (NDArray 1 0 [length recs] [1]) (cast_int <$> column 0 recs)).
  { intros h'. apply holds_mono. rewrite <- (Hcol 0), <- (length_fmap cast_int).
    by apply holds_buffer. }
  assert (Htype : ∀ ints,
            holds [cell <$> concat recs; ints; cast_int <$> column 4 recs]
              (NDArray 2 0 [length recs] [1]) (cast_int <$> column 4 recs)).
  { intros h'. rewrite <- (Hcol 4), <- (length_fmap cast_int).
    by apply holds_buffer. }
  simpl exec.
  next_stmt. { bound_var. reflexivity. }
  next_stmt.
  { bound_var. next_stmt; [reflexivity|].
    next_stmt; [apply astype_holds, (Hbuf 0 []); lia | reflexivity]. }
  next_stmt. { bound_var. next_stmt; reflexivity. }
  next_stmt. { bound_var. next_stmt; reflexivity. }
  next_stmt. { bound_var. next_stmt; reflexivity. }
  next_stmt.
  { bound_var. next_stmt; [reflexivity|].
    next_stmt; [apply astype_holds, (Hbuf 4 [_]); lia | reflexivity]. }
  next_stmt.
  { bound_var. next_stmt; [by apply getitem_upto|].
    next_stmt; [|reflexivity].
    apply display_holds, (holds_take _ _ _ 3 _ (Hindex [_])).
    by rewrite length_fmap. }
  next_stmt.
  { bound_var. next_stmt; [by apply getitem_upto|].
    next_stmt; [|reflexivity].
    by apply display_holds, (holds_take _ _ _ 3 _ (Hbuf 1 [_; _] ltac:(lia))). }
  next_stmt.
  { bound_var. next_stmt; [by apply getitem_upto|].
    next_stmt; [|reflexivity].
    by apply display_holds, (holds_take _ _ _ 3 _ (Hbuf 2 [_; _] ltac:(lia))). }
  next_stmt.
  { bound_var. next_stmt; [by apply getitem_upto|].
    next_stmt; [|reflexivity].
    by apply display_holds, (holds_take _ _ _ 3 _ (Hbuf 3 [_; _] ltac:(lia))). }
  next_stmt.
  { bound_var. next_stmt; [by apply getitem_upto|].
    next_stmt; [|reflexivity].
    apply display_holds, (holds_take _ _ _ 3 _ (Htype _)).
    by rewrite length_fmap. }
  rewrite !abbreviate_small by (rewrite length_take; unfold threshold; lia).
  rewrite !length_take, !length_fmap, !Hcol.
  unfold mret, M_ret. f_equal. apply world_eq; [reflexivity..|].
  repeat first [ rewrite log_add_event | rewrite log_bind_name
               | rewrite log_add_buffer | rewrite log_add_events ].
  rewrite <- !(assoc_L (++)). reflexivity.
Qed.

(** ** Running the scripts on any file system *)

Lemma phases_add_event e w :
  phases (add_event e w) = phases w ++ from_option (λ p, [p]) [] (phase_of e).
Proof.
  unfold phases. simpl. rewrite omap_app. simpl. by destruct (phase_of e).
Qed.

Lemma phases_add_events es w : warnings es → phases (add_events es w) = phases w.
Proof.
  unfold phases, warnings. simpl. intros Hes.
  by rewrite omap_app, Hes, app_nil_r.
Qed.

Lemma phases_add_buffer buf w : phases (add_buffer buf w) = phases w.
Proof. done. Qed.

Lemma phases_bind_name x a w : phases (bind_name x a w) = phases w.
Proof. done. Qed.

Lemma exec_step (s : stmt) prog w w1 :
  s w = (w1, inr ()) → exec (s :: prog) w = exec prog w1.
Proof. intros E. by rewrite exec_cons, E. Qed.

Lemma exec_stop (s : stmt) prog w w1 e :
  s w = (w1, inl e) → exec (s :: prog) w = (w1, inl e).
Proof. intros E. by rewrite exec_cons, E. Qed.

(** The outcomes of [np.genfromtxt], with the warning of an empty input
    kept as a list of events. *)
Lemma genfromtxt_outcomes fname delimiter skip_header w :
  genfromtxt fname delimiter skip_header w = (w, inl (FileNotFoundError fname))
  ∨ (∃ nbcols invalid,
       genfromtxt fname delimiter skip_header w
       = (add_event (EvOpen fname) w, inl (ValueError nbcols invalid)))
  ∨ (∃ buf a ws,
       genfromtxt fname delimiter skip_header w
       = (add_event (EvParse fname)
            (add_buffer buf (add_events ws (add_event (EvOpen fname) w))), inr a)
       ∧ base a = length (heap w) ∧ warnings ws).
Proof.
  destruct (genfromtxt_cases fname delimiter skip_header w)
    as [E|[E|(buf & a & warned & E & Hb & [->| ->])]]; [by left|by right; left|..].
  - right; right. exists buf, a, []. rewrite E. split_and!; [|done..].
    do 3 f_equal. unfold add_events. destruct w; simpl. by rewrite app_nil_r.
  - right; right. exists buf, a, [EvWarn (EmptyInputFile fname)].
    by rewrite E.
Qed.

Lemma getitem_cases a idx w :
  getitem a idx w = (w, inl IndexError)
  ∨ ∃ v, getitem a idx w = (add_event EvSlice w, inr v) ∧ base v = base a.
Proof.
  unfold getitem.
  destruct (index_axes idx (shape a) (strides a)) as [[[off sh] st]|];
    [right|by left].
  by eexists.
Qed.

(** A column taken from an array has at least one axis left. *)
Lemma getitem_column_axes a j w w1 v :
  getitem a [Full; At j] w = (w1, inr v) →
  ∃ n sh s st, shape v = n :: sh ∧ strides v = s :: st.
Proof.
  unfold getitem.
  destruct (shape a) as [|n [|k sh]], (strides a) as [|s [|t st]]; try done;
    simpl; try (by destruct (_ <? _)).
  destruct (j <? k); [|done]. simpl. intros [= _ <-]. simpl.
  by eexists _, _, _, _.
Qed.

Lemma getitem_upto_ok v m w n sh s st :
  shape v = n :: sh → strides v = s :: st →
  ∃ v', getitem v [Upto m] w = (add_event EvSlice w, inr v').
Proof. unfold getitem. intros -> ->. by eexists. Qed.

Lemma astype_cases v w :
  ∃ buf ws,
    astype_int v w
    = (add_event EvAstype (add_buffer buf (add_events ws w)),
       inr (NDArray (length (heap w)) 0 (shape v) (c_strides (shape v))))
    ∧ warnings ws.
Proof.
  unfold astype_int. exists (cast_int <$> items (heap w) v).
  exists (cast_warning (items (heap w) v)).
  split; [|unfold cast_warning; by destruct (forallb _ _)].
  eapply bind_inr; [reflexivity|]. cbv beta. unfold cast_warning.
  destruct (forallb cast_valid _); eapply bind_inr; try reflexivity;
    cbv beta; unfold add_events; destruct w; simpl; by rewrite ?app_nil_r.
Qed.

(** Proof steps: run the next statement, which completes or raises. *)
Ltac completes tac := erewrite exec_step; [|tac].
Ltac raises tac := erewrite exec_stop; [|tac].
Ltac phases_done :=
  unfold exec, mret, M_ret; cbn [fst snd];
  repeat first [ rewrite phases_add_event | rewrite phases_bind_name
               | rewrite phases_add_buffer
               | rewrite phases_add_events by assumption ];
  simpl; repeat split; try done; try (by eexists).

Lemma run_any_P52 fs : run_spec P52 (run Problem52.script fs).
Proof.
  unfold run, Problem52.script, run_spec.
  destruct (genfromtxt_outcomes Problem52.fname None 0 (boot fs))
    as [E|[(k & inv & E)|(buf & a & ws & E & Hb & Hws)]].
  { raises ltac:(apply bind_inl; exact E). by split; [eexists|]. }
  { raises ltac:(apply bind_inl; exact E). by split; [eexists|]. }
  completes ltac:(eapply bind_inr; [exact E | reflexivity]).
  completes ltac:(bound_var; reflexivity).
  match goal with |- context [exec _ ?w] =>
    destruct (getitem_cases a [Upto 10] w) as [E1|(v & E1 & _)] end.
  { raises ltac:(bound_var; apply bind_inl; exact E1). phases_done. }
  completes ltac:(bound_var; eapply bind_inr; [exact E1|];
                  eapply bind_inr; reflexivity).
  phases_done.
Qed.

(** A statement [name = data[:, j]] either raises [IndexError] or binds
    the name to a view. *)
Ltac column_stmt a j E v :=
  match goal with |- context [exec _ ?w] =>
    destruct (getitem_cases a [Full; At j] w) as [E|(v & E & _)] end;
  [ raises ltac:(bound_var; apply bind_inl; exact E); phases_done | ].

Lemma run_any_P41 fs : run_spec P41 (run Problem41.script fs).
Proof.
  unfold run, Problem41.script, run_spec.
  destruct (genfromtxt_outcomes Problem41.fname (Some ",") 1 (boot fs))
    as [E|[(k & inv & E)|(buf & a & ws & E & Hb & Hws)]].
  { raises ltac:(apply bind_inl; exact E). by split; [eexists|]. }
  { raises ltac:(apply bind_inl; exact E). by split; [eexists|]. }
  completes ltac:(eapply bind_inr; [exact E | reflexivity]).
  completes ltac:(bound_var; reflexivity).
  column_stmt a 0 E0 year.
  completes ltac:(bound_var; eapply bind_inr; [exact E0 | reflexivity]).
  column_stmt a 1 E1 PopIndia.
  completes ltac:(bound_var; eapply bind_inr; [exact E1 | reflexivity]).
  column_stmt a 2 E2 PopChina.
  completes ltac:(bound_var; eapply bind_inr; [exact E2 | reflexivity]).
  completes ltac:(bound_var; eapply bind_inr; reflexivity).
  completes ltac:(bound_var; eapply bind_inr; reflexivity).
  completes ltac:(bound_var; eapply bind_inr; reflexivity).
  phases_done.
Qed.

(** A statement [print(name[0:m])] for an array with an axis. *)
Lemma sample_stmt_ok name m v w n sh s st :
  globals w !! name = Some v → shape v = n :: sh → strides v = s :: st →
  (x ← var name; head ← getitem x [Upto m]; out ← display head; print [out]) w
  = (add_event
       (EvPrint [PArray (m `min` n :: sh)
                   (shown_items (heap w)
                      (NDArray (base v) (offset v + 0) (m `min` n :: sh) (s :: st)))])
       (add_event EvSlice w), inr ()).
Proof.
  intros Hv Hsh Hst.
  eapply bind_inr; [by apply var_bound|]. cbv beta.
  eapply bind_inr; [unfold getitem; rewrite Hsh, Hst; reflexivity|]. cbv beta.
  eapply bind_inr; reflexivity.
Qed.

Ltac sample_stmt name Hsh Hst :=
  completes ltac:(eapply (sample_stmt_ok name 3);
                  [ simpl; by simplify_map_eq
                  | simpl; rewrite ?Hsh; reflexivity
                  | simpl; rewrite ?Hsh, ?Hst; reflexivity ]).

Lemma run_any_P51 fs : run_spec P51 (run Problem51.script fs).
Proof.
  unfold run, Problem51.script, run_spec.
  destruct (genfromtxt_outcomes Problem51.fname (Some ",") 1 (boot fs))
    as [E|[(k & inv & E)|(buf & a & ws & E & Hb & Hws)]].
  { raises ltac:(apply bind_inl; exact E). by split; [eexists|]. }
  { raises ltac:(apply bind_inl; exact E). by split; [eexists|]. }
  completes ltac:(eapply bind_inr; [exact E | reflexivity]).
  completes ltac:(bound_var; reflexivity).
  column_stmt a 0 E0 col0.
  match goal with |- context [exec _ ?w] =>
    destruct (astype_cases col0 (add_event EvSlice w)) as (buf0 & ws0 & A0 & Hws0) end.
  destruct (getitem_column_axes _ _ _ _ _ E0) as (n0 & sh0 & s0 & st0 & Hsh0 & Hst0).
  completes ltac:(bound_var; eapply bind_inr; [exact E0|];
                  eapply bind_inr; [exact A0 | reflexivity]).
  column_stmt a 1 E1 P.
  destruct (getitem_column_axes _ _ _ _ _ E1) as (n1 & sh1 & s1 & st1 & Hsh1 & Hst1).
  completes ltac:(bound_var; eapply bind_inr; [exact E1 | reflexivity]).
  column_stmt a 2 E2 R.
  destruct (getitem_column_axes _ _ _ _ _ E2) as (n2 & sh2 & s2 & st2 & Hsh2 & Hst2).
  completes ltac:(bound_var; eapply bind_inr; [exact E2 | reflexivity]).
  column_stmt a 3 E3 freq.
  destruct (getitem_column_axes _ _ _ _ _ E3) as (n3 & sh3 & s3 & st3 & Hsh3 & Hst3).
  completes ltac:(bound_var; eapply bind_inr; [exact E3 | reflexivity]).
  column_stmt a 4 E4 col4.
  match goal with |- context [exec _ ?w] =>
    destruct (astype_cases col4 (add_event EvSlice w)) as (buf4 & ws4 & A4 & Hws4) end.
  destruct (getitem_column_axes _ _ _ _ _ E4) as (n4 & sh4 & s4 & st4 & Hsh4 & Hst4).
  completes ltac:(bound_var; eapply bind_inr; [exact E4|];
                  eapply bind_inr; [exact A4 | reflexivity]).
  sample_stmt "index" Hsh0 Hst0.
  sample_stmt "P" Hsh1 Hst1.
  sample_stmt "R" Hsh2 Hst2.
  sample_stmt "freq" Hsh3 Hst3.
  sample_stmt "type" Hsh4 Hst4.
  phases_done.
Qed.

(** ** What a statement leaves alone *)

#[global] Instance grows_preorder : PreOrder grows.
Proof.
  split.
  - by intros w.
  - intros w1 w2 w3 [Hf1 Hh1] [Hf2 Hh2]. split; [congruence | by etrans].
Qed.

#[global] Instance grows_around_data_preorder : PreOrder grows_around_data.
Proof.
  split.
  - by intros w.
  - intros w1 w2 w3 [H1 Hd1] [H2 Hd2]. split; [by etrans | congruence].
Qed.

Create HintDb keeps discriminated.

Section keeps.
Context (R : relation world) `{!PreOrder R}.

Lemma keeps_ret {A} (x : A) : keeps R (mret x).
Proof. by intros w. Qed.

Lemma keeps_raise {A} (e : exn) : keeps R (raise (A := A) e).
Proof. by intros w. Qed.

Lemma keeps_bind {A B} (m : M A) (f : A → M B) :
  keeps R m → (∀ x, keeps R (f x)) → keeps R (m ≫= f).
Proof.
  intros Hm Hf w. unfold mbind, M_bind.
  specialize (Hm w). destruct (m w) as [w1 [e|x]]; [done|].
  etrans; [exact Hm | apply Hf].
Qed.

Lemma keeps_var name : keeps R (var name).
Proof. intros w. unfold var. by destruct (globals w !! name). Qed.

Lemma keeps_read a : keeps R (read a).
Proof. by intros w. Qed.

Lemma keeps_display a : keeps R (display a).
Proof. by intros w. Qed.

Lemma keeps_exec (prog : list stmt) : Forall (keeps R) prog → keeps R (exec prog).
Proof.
  induction 1 as [|s prog Hs _ IH]; [apply keeps_ret|].
  apply keeps_bind; auto.
Qed.

End keeps.

Lemma grows_emit e : keeps grows_around_data (emit e).
Proof. by intros w. Qed.

Lemma grows_alloc buf : keeps grows_around_data (alloc buf).
Proof. intros w. repeat split. by apply prefix_app_r. Qed.

Lemma grows_assign name a : name ≠ "data" → keeps grows_around_data (assign name a).
Proof.
  intros Hne w. split; [by split|].
  unfold assign. cbn [fst bind_name globals]. by rewrite lookup_insert_ne.
Qed.

Lemma grows_getitem a idx : keeps grows_around_data (getitem a idx).
Proof.
  unfold getitem. destruct (index_axes _ _ _) as [[[off sh] st]|];
    [|apply keeps_raise, _].
  apply keeps_bind; [apply _|apply grows_emit|intros; apply keeps_ret, _].
Qed.

Lemma grows_astype a : keeps grows_around_data (astype_int a).
Proof.
  unfold astype_int.
  apply keeps_bind; [apply _|apply keeps_read, _|intros xs].
  apply keeps_bind; [apply _| |intros _].
  { destruct (forallb cast_valid xs); [apply keeps_ret, _|apply grows_emit]. }
  apply keeps_bind; [apply _|apply grows_alloc|intros l].
  apply keeps_bind; [apply _|apply grows_emit|intros; apply keeps_ret, _].
Qed.

#[global] Hint Resolve keeps_ret keeps_raise keeps_var keeps_read keeps_display
  grows_emit grows_alloc grows_getitem grows_astype
  grows_around_data_preorder : keeps.

(** Every statement after the first keeps the files, the buffers and the
    binding of [data]. *)
Ltac keeps_stmt :=
  repeat first
    [ solve [eauto with keeps]
    | apply grows_assign; done
    | unfold print; apply grows_emit
    | apply keeps_bind; [apply _| |intros ?] ].

Lemma statements_keep_data s : Forall (keeps grows_around_data) (tail (program s)).
Proof.
  destruct s; simpl; repeat first [apply Forall_nil_2 | apply Forall_cons_2];
    keeps_stmt.
Qed.

(** ** What a run depends on *)

Create HintDb reads discriminated.

Section reads_only.
Context (name : string).

Ltac same_step :=
  intros w1 w2 (Hf & Hh & Hg & Hl); unfold agree; simpl;
  rewrite ?Hh, ?Hg, ?Hl; repeat split; try done.

Lemma reads_ret {A} (x : A) : reads_only name (mret x).
Proof. by intros w1 w2 H. Qed.

Lemma reads_raise {A} (e : exn) : reads_only name (raise (A := A) e).
Proof. by intros w1 w2 H. Qed.

Lemma reads_bind {A B} (m : M A) (f : A → M B) :
  reads_only name m → (∀ x, reads_only name (f x)) → reads_only name (m ≫= f).
Proof.
  intros Hm Hf w1 w2 Hw. unfold mbind, M_bind.
  destruct (Hm w1 w2 Hw) as [Hw' Hr].
  destruct (m w1) as [w1' [e|x]], (m w2) as [w2' r2]; simpl in Hr; subst r2;
    [done|]. by apply Hf.
Qed.

Lemma reads_emit e : reads_only name (emit e).
Proof. same_step. Qed.

Lemma reads_alloc buf : reads_only name (alloc buf).
Proof. same_step. Qed.

Lemma reads_assign x a : reads_only name (assign x a).
Proof. same_step. Qed.

Lemma reads_var x : reads_only name (var x).
Proof.
  intros w1 w2 (Hf & Hh & Hg & Hl). unfold var. rewrite Hg.
  by destruct (globals w2 !! x).
Qed.

Lemma reads_read a : reads_only name (read a).
Proof. same_step. Qed.

Lemma reads_display a : reads_only name (display a).
Proof. same_step. Qed.

Lemma reads_open : reads_only name (open name).
Proof.
  intros w1 w2 (Hf & Hh & Hg & Hl). unfold open. rewrite Hf.
  destruct (files w2 !! name) eqn:E2; unfold agree; simpl;
    rewrite ?Hh, ?Hg, ?Hl; repeat split; congruence.
Qed.

Lemma reads_getitem a idx : reads_only name (getitem a idx).
Proof.
  unfold getitem. destruct (index_axes _ _ _) as [[[off sh] st]|];
    [|apply reads_raise].
  apply reads_bind; [apply reads_emit|intros; apply reads_ret].
Qed.

Lemma reads_astype a : reads_only name (astype_int a).
Proof.
  unfold astype_int.
  apply reads_bind; [apply reads_read|intros xs].
  apply reads_bind; [|intros _].
  { destruct (forallb cast_valid xs); [apply reads_ret|apply reads_emit]. }
  apply reads_bind; [apply reads_alloc|intros l].
  apply reads_bind; [apply reads_emit|intros; apply reads_ret].
Qed.

Lemma reads_genfromtxt delimiter skip_header :
  reads_only name (genfromtxt name delimiter skip_header).
Proof.
  unfold genfromtxt.
  apply reads_bind; [apply reads_open|intros text].
  apply reads_bind; [|intros [[first_line first_values] fhd']].
  { destruct (first_valid _ _); [apply reads_ret|].
    apply reads_bind; [apply reads_emit|intros; apply reads_ret]. }
  destruct (parse_lines _ _ _ _ _) as [rows [|bad invalid]];
    [|apply reads_raise].
  unfold np_array.
  apply reads_bind; [|intros output].
  { apply reads_bind; [apply reads_alloc|intros; apply reads_ret]. }
  apply reads_bind; [apply reads_emit|intros; apply reads_ret].
Qed.

Lemma reads_exec (prog : list stmt) :
  Forall (reads_only name) prog → reads_only name (exec prog).
Proof.
  induction 1 as [|s prog Hs _ IH]; [apply reads_ret|].
  apply reads_bind; auto.
Qed.

End reads_only.

#[global] Hint Resolve reads_ret reads_raise reads_emit reads_alloc reads_assign
  reads_var reads_read reads_display reads_getitem reads_astype
  reads_genfromtxt : reads.

Ltac reads_stmt :=
  repeat first
    [ solve [eauto with reads]
    | unfold print; apply reads_emit
    | apply reads_bind; [|intros ?] ].

Lemma statements_read_input s : Forall (reads_only (input_name s)) (program s).
Proof.
  destruct s; simpl; repeat first [apply Forall_nil_2 | apply Forall_cons_2];
    reads_stmt.
Qed.

(** ** The claims *)

(** The items of a row-major table without gaps are its buffer. *)
Lemma items_table h b n k buf :
  h !! b = Some buf → length buf = n * k →
  items h (NDArray b 0 [n; k] [k; 1]) = buf.
Proof.
  intros Hb Hlen. unfold items. simpl shape. simpl strides.
  rewrite offsets_2d, <- (list_fmap_id (seq 0 (n * k))), items_at_fmap.
  simpl. rewrite (list_lookup_total_correct _ _ _ Hb).
  rewrite fmap_lookup_seq by lia. by rewrite drop_0, <- Hlen, firstn_all.
Qed.

Lemma length_cells recs k :
  Forall (λ vs : list string, length vs = k) recs →
  length (cell <$> concat recs) = length recs * k.
Proof. intros. rewrite length_fmap. by apply length_concat_uniform. Qed.

(** C1 (as amended).  For a well-formed file, [data] is an array of
    floats holding the fields of the records in row-major order.  In
    DataReader_Problem4.1 it has shape (n, 3) and in DataReader_Problem5.1
    shape (n, 5); in DataReader_Problem5.2, whose file has one value per
    line, it is one-dimensional, of shape (n,). *)
Theorem loaded_array_shape (s : script_id) (fs : gmap string string) (text : string) :
  fs !! input_name s = Some text →
  well_formed s text →
  ∃ a, globals (final s fs) !! "data" = Some a
     ∧ shape a = table_shape s (length (records (delimiter_of s) (skip_header_of s) text))
     ∧ items (heap (final s fs)) a
       = cell <$> concat (records (delimiter_of s) (skip_header_of s) text).
Proof.
  intros Hfile Hwf. unfold final.
  pose proof Hwf as [Hn Hcols].
  destruct s; simpl in *.
  - rewrite (run_P41 fs text Hfile Hwf). eexists. cbn [fst globals heap].
    split; [by simplify_map_eq|]. split; [done|].
    apply items_table; [done|]. by apply length_cells.
  - rewrite (run_P51 fs text Hfile Hwf). eexists. cbn [fst globals heap].
    split; [by simplify_map_eq|]. split; [done|].
    apply items_table; [done|]. by apply length_cells.
  - rewrite (run_P52 fs text Hfile Hwf). eexists. cbn [fst globals heap].
    split; [by simplify_map_eq|]. split; [done|].
    rewrite (holds_items _ _ (column 0 (records None 0 text))).
    + unfold column. clear Hn Hwf.
      induction Hcols as [|vs recs Hvs _ IH]; [done|].
      destruct vs as [|v [|? ?]]; try done. csimpl. by rewrite IH.
    + apply (holds_column _ 0 _ 1 0); [done..|lia].
Qed.

Lemma loaded_array_shape_witness :
  ({[ Problem41.fname := population_sample ]} : gmap string string) !! input_name P41
  = Some population_sample
  ∧ well_formed P41 population_sample
  ∧ ∃ a, globals (final P41 {[ Problem41.fname := population_sample ]}) !! "data" = Some a
       ∧ shape a = table_shape P41 (length (records (delimiter_of P41)
                                              (skip_header_of P41) population_sample))
       ∧ items (heap (final P41 {[ Problem41.fname := population_sample ]})) a
         = cell <$> concat (records (delimiter_of P41) (skip_header_of P41)
                              population_sample).
Proof.
  assert (Hfile : ({[ Problem41.fname := population_sample ]} : gmap string string)
                  !! input_name P41 = Some population_sample) by reflexivity.
  assert (Hwf : well_formed P41 population_sample).
  { split; vm_compute; [lia | repeat constructor]. }
  split; [exact Hfile|]. split; [exact Hwf|].
  exact (loaded_array_shape P41 _ _ Hfile Hwf).
Defined.

(** C1 fails as stated for DataReader_Problem5.2: from a file of three
    decay times, one per line, the script gets a one-dimensional array of
    shape (3,), not a two-dimensional table. *)
Lemma decay_times_are_one_dimensional :
  well_formed P52 decay_sample
  ∧ ∃ a, globals (final P52 {[ Problem52.fname := decay_sample ]}) !! "data" = Some a
       ∧ shape a = [3] ∧ ndim a ≠ 2.
Proof.
  split; [split; vm_compute; [lia | repeat constructor]|].
  eexists. split; [vm_compute; reflexivity|]. split; [reflexivity|].
  vm_compute. lia.
Qed.

Lemma stdout_cast_warning l :
  omap (λ e, match e with EvPrint args => Some args | _ => None end) (cast_warning l)
  = [].
Proof. unfold cast_warning. by destruct (forallb cast_valid l). Qed.

(** C2 (as amended).  For a well-formed file every script prints the
    shape of [data] and then the columns, whose items are the floats of
    the corresponding fields of the file's records:
    DataReader_Problem5.1 prints the first three rows of each of its five
    columns and DataReader_Problem5.2 the first ten entries, but
    DataReader_Problem4.1 prints its three columns whole (NumPy shows an
    array of more than 1000 items through its first and last three). *)
Theorem printed_output (s : script_id) (fs : gmap string string) (text : string) :
  fs !! input_name s = Some text →
  well_formed s text →
  stdout (final s fs) = printed s (records (delimiter_of s) (skip_header_of s) text).
Proof.
  intros Hfile Hwf. unfold final, stdout.
  destruct s; simpl in Hfile; cbn [program delimiter_of skip_header_of].
  - by rewrite (run_P41 fs text Hfile Hwf).
  - rewrite (run_P51 fs text Hfile Hwf). cbn [fst log].
    by rewrite !omap_app, !stdout_cast_warning.
  - by rewrite (run_P52 fs text Hfile Hwf).
Qed.

Lemma printed_output_witness :
  ({[ Problem52.fname := decay_sample ]} : gmap string string) !! input_name P52
  = Some decay_sample
  ∧ well_formed P52 decay_sample
  ∧ stdout (final P52 {[ Problem52.fname := decay_sample ]})
    = printed P52 (records (delimiter_of P52) (skip_header_of P52) decay_sample).
Proof.
  assert (Hfile : ({[ Problem52.fname := decay_sample ]} : gmap string string)
                  !! input_name P52 = Some decay_sample) by reflexivity.
  assert (Hwf : well_formed P52 decay_sample).
  { split; vm_compute; [lia | repeat constructor]. }
  split; [exact Hfile|]. split; [exact Hwf|].
  exact (printed_output P52 _ _ Hfile Hwf).
Defined.

(** C2 fails as stated for DataReader_Problem4.1: from a file of twelve
    records it prints all twelve years, the whole column, where the other
    two scripts print three or ten rows. *)
Lemma whole_columns_are_printed :
  length (records (delimiter_of P41) (skip_header_of P41) population_twelve) = 12
  ∧ stdout (final P41 {[ Problem41.fname := population_twelve ]}) !! 1
    = Some [PArray [12]
              (column 0 (records (delimiter_of P41) (skip_header_of P41)
                           population_twelve))]
  ∧ length (column 0 (records (delimiter_of P41) (skip_header_of P41)
                        population_twelve)) = 12.
Proof. split_and!; by vm_compute. Qed.




Lemma items_lookup_1d h b o n s i :
  i < n →
  items h (NDArray b o [n] [s]) !! i = Some ((h !!! b) !!! (o + (i * s + 0))).
Proof.
  intros Hi. unfold items, offsets. simpl shape. simpl strides.
  rewrite offsets_1d, items_at_fmap, list_lookup_fmap, lookup_seq_lt by done.
  done.
Qed.

Lemma items_poke_other h a v pos x :
  base v ≠ base a → items (poke h a pos x) v = items h v.
Proof.
  intros Hne. unfold items, items_at, poke.
  by rewrite list_lookup_total_alter_ne.
Qed.

Lemma view_of_column_intro w name j k recs h' :
  globals w !! "data" = Some (NDArray 0 0 [length recs; k] [k; 1]) →
  globals w !! name = Some (NDArray 0 j [length recs] [k]) →
  heap w = (cell <$> concat recs) :: h' →
  Forall (λ vs, length vs = k) recs → j < k →
  view_of_column w name j k recs.
Proof.
  intros Hdata Hname Hheap Hcols Hj.
  exists (NDArray 0 0 [length recs; k] [k; 1]), (NDArray 0 j [length recs] [k]).
  split_and!; [done..| |].
  - rewrite Hheap. apply (holds_items _ _ (column j recs)).
    replace j with (0 + (j * 1 + 0)) at 1 by lia.
    by apply (holds_mono [_]), holds_column.
  - intros i x Hi. rewrite Hheap, items_lookup_1d by done.
    unfold poke. simpl. f_equal.
    replace (j + (i * k + 0)) with (i * k + j) by lia.
    apply list_lookup_total_insert_eq.
    rewrite (length_cells _ k) by done.
    apply Nat.lt_le_trans with (S i * k); [lia|].
    apply Nat.mul_le_mono_r. lia.
Qed.

Lemma copy_of_column_intro w name j k recs b l :
  globals w !! "data" = Some (NDArray 0 0 [length recs; k] [k; 1]) →
  globals w !! name = Some (NDArray b 0 [length recs] [1]) →
  heap w !! b = Some l → l = cast_int <$> column j recs → b ≠ 0 →
  copy_of_column w name j recs.
Proof.
  intros Hdata Hname Hheap -> Hb.
  exists (NDArray 0 0 [length recs; k] [k; 1]), (NDArray b 0 [length recs] [1]).
  split_and!; [done..| |].
  - apply holds_items.
    replace (length recs) with (length (cast_int <$> column j recs))
      by (unfold column; by rewrite !length_fmap).
    by apply holds_buffer.
  - intros pos x. by apply items_poke_other.
Qed.

Lemma projections_hold (s : script_id) (fs : gmap string string) (text : string) :
  fs !! input_name s = Some text →
  well_formed s text →
  projections s (final s fs) (records (delimiter_of s) (skip_header_of s) text).
Proof.
  intros Hfile Hwf. unfold final.
  pose proof Hwf as [Hn Hcols].
  destruct s; simpl in Hfile, Hcols; cbn [program delimiter_of skip_header_of].
  - rewrite (run_P41 fs text Hfile Hwf). cbn [fst projections].
    split_and!; eapply view_of_column_intro; try done;
      cbn [globals]; try (by simplify_map_eq); lia.
  - rewrite (run_P51 fs text Hfile Hwf). cbn [fst projections].
    split_and!;
      [ eapply view_of_column_intro; try done;
        cbn [globals]; try (by simplify_map_eq); lia ..
      | eapply (copy_of_column_intro _ _ _ 5 _ 1); try done;
        cbn [globals]; by simplify_map_eq
      | eapply (copy_of_column_intro _ _ _ 5 _ 2); try done;
        cbn [globals]; by simplify_map_eq ].
  - rewrite (run_P52 fs text Hfile Hwf). cbn [fst projections globals].
    intros name Hname. by simplify_map_eq.
Qed.

(** C5 (as amended).  For a well-formed file, [year], [PopIndia] and
    [PopChina] (DataReader_Problem4.1) and [P], [R] and [freq]
    (DataReader_Problem5.1) are views into the storage of [data]: their
    items are the table's items in that column, and a store into the table
    shows through them.  [index] and [type] are not views: [astype(int)]
    gives each a buffer of its own.  DataReader_Problem5.2 takes no column
    projection. *)
Theorem column_projections (s : script_id) (fs : gmap string string) (text : string) :
  fs !! input_name s = Some text →
  well_formed s text →
  projections s (final s fs) (records (delimiter_of s) (skip_header_of s) text).
Proof. apply projections_hold. Qed.

Lemma column_projections_witness :
  ({[ Problem51.fname := signal_sample ]} : gmap string string) !! input_name P51
  = Some signal_sample
  ∧ well_formed P51 signal_sample
  ∧ projections P51 (final P51 {[ Problem51.fname := signal_sample ]})
      (records (delimiter_of P51) (skip_header_of P51) signal_sample).
Proof.
  assert (Hfile : ({[ Problem51.fname := signal_sample ]} : gmap string string)
                  !! input_name P51 = Some signal_sample) by reflexivity.
  assert (Hwf : well_formed P51 signal_sample).
  { split; vm_compute; [lia | repeat constructor]. }
  split; [exact Hfile|]. split; [exact Hwf|].
  exact (column_projections P51 _ _ Hfile Hwf).
Defined.

(** C5 fails as stated for [index] (and [type]) in DataReader_Problem5.1:
    [index] is an array of integers in a buffer of its own, and storing a
    new entry number into the table leaves it as it was. *)
Lemma index_is_not_a_view :
  ∃ data index,
    globals (final P51 {[ Problem51.fname := signal_sample ]}) !! "data" = Some data
    ∧ globals (final P51 {[ Problem51.fname := signal_sample ]}) !! "index" = Some index
    ∧ base index ≠ base data
    ∧ items (poke (heap (final P51 {[ Problem51.fname := signal_sample ]})) data 0
               (F64 (loose_call "7"))) index
      = [I64 0; I64 1; I64 2; I64 3].
Proof.
  do 2 eexists. split_and!; [by vm_compute..| |by vm_compute].
  vm_compute. lia.
Qed.

Lemma run_any (s : script_id) (fs : gmap string string) :
  run_spec s (run (program s) fs).
Proof.
  destruct s; [apply run_any_P41 | apply run_any_P51 | apply run_any_P52].
Qed.

Lemma well_formed_completes s fs text :
  fs !! input_name s = Some text → well_formed s text → outcome s fs = inr ().
Proof.
  intros Hfile Hwf. unfold outcome.
  destruct s; simpl in Hfile; cbn [program].
  - by rewrite (run_P41 fs text Hfile Hwf).
  - by rewrite (run_P51 fs text Hfile Hwf).
  - by rewrite (run_P52 fs text Hfile Hwf).
Qed.

(** C6 (as amended).  Every script runs as one sequence: open the file,
    parse it into the array, print the shape, take the named column
    slices (none in DataReader_Problem5.2), print; in
    DataReader_Problem5.1 and DataReader_Problem5.2 the printed samples
    are sliced as they are printed.  On any input the steps taken are a
    beginning of this sequence, and all of it when the script completes,
    which it does on a well-formed file. *)
Theorem steps_in_order (s : script_id) (fs : gmap string string) :
  phases (final s fs) `prefix_of` pattern s
  ∧ (outcome s fs = inr () → phases (final s fs) = pattern s)
  ∧ (∀ text, fs !! input_name s = Some text → well_formed s text →
       outcome s fs = inr ()).
Proof.
  destruct (run_any s fs) as [Hprefix Hout].
  split; [exact Hprefix|]. split; [|apply well_formed_completes].
  unfold outcome, final. intros E. by rewrite E in Hout.
Qed.

(** C6 fails as stated: DataReader_Problem4.1 prints the shape of [data],
    its third step, before it takes the first column slice, its fourth. *)
Lemma shape_is_printed_before_slicing :
  well_formed P41 population_sample
  ∧ phases (final P41 {[ Problem41.fname := population_sample ]}) !! 2 = Some Printing
  ∧ phases (final P41 {[ Problem41.fname := population_sample ]}) !! 3 = Some Slicing.
Proof.
  split_and!; [|by vm_compute..].
  split; vm_compute; [lia | repeat constructor].
Qed.

Lemma after_all s fs : after (length (program s)) s fs = final s fs.
Proof. unfold after, final, run. by rewrite firstn_all. Qed.

Lemma program_load s : program s = load s :: tail (program s).
Proof. by destruct s. Qed.

Lemma load_cases s w :
  (∃ e, load s w = (w, inl e) ∨ load s w = (add_event (EvOpen (input_name s)) w, inl e))
  ∨ ∃ buf a ws,
      load s w
      = (bind_name "data" a
           (add_event (EvParse (input_name s))
              (add_buffer buf (add_events ws (add_event (EvOpen (input_name s)) w)))),
         inr ())
      ∧ base a = length (heap w).
Proof.
  unfold load.
  destruct (genfromtxt_outcomes (input_name s) (delimiter_of s) (skip_header_of s) w)
    as [E|[(k & inv & E)|(buf & a & ws & E & Hb & Hws)]].
  - left. eexists. left. by apply bind_inl.
  - left. eexists. right. by apply bind_inl.
  - right. exists buf, a, ws. split; [|done].
    eapply bind_inr; [exact E|done].
Qed.

Lemma items_same_buffer h h' a buf :
  h !! base a = Some buf → h' !! base a = Some buf → items h a = items h' a.
Proof.
  intros H H'. unfold items, items_at.
  by rewrite (list_lookup_total_correct _ _ _ H), (list_lookup_total_correct _ _ _ H').
Qed.

(** C7.  Once [np.genfromtxt] has returned and [data] is bound, no
    statement changes the table: after any number of further statements,
    and so when the script stops, [data] is bound to the same array, its
    buffer holds the same items, and the file system is the one the script
    started with. *)
Theorem table_is_never_mutated (s : script_id) (fs : gmap string string)
    (k : nat) (a : ndarray) :
  1 ≤ k →
  globals (after 1 s fs) !! "data" = Some a →
  ∃ buf,
    heap (after 1 s fs) !! base a = Some buf
    ∧ heap (after k s fs) !! base a = Some buf
    ∧ globals (after k s fs) !! "data" = Some a
    ∧ items (heap (after k s fs)) a = items (heap (after 1 s fs)) a
    ∧ files (after k s fs) = fs.
Proof.
  intros Hk. unfold after. rewrite (program_load s).
  destruct k as [|k]; [lia|]. cbn [take]. rewrite take_0.
  destruct (load_cases s (boot fs)) as [[e [E|E]]|(buf & a' & ws & E & Hb)].
  - rewrite (exec_stop _ _ _ _ _ E). by cbn.
  - rewrite (exec_stop _ _ _ _ _ E). by cbn.
  - rewrite !(exec_step _ _ _ _ E).
    set (w1 := bind_name "data" a' _).
    cbn [exec mret M_ret fst]. unfold mret, M_ret. cbn [fst].
    assert (Hdata : globals w1 !! "data" = Some a').
    { unfold w1. cbn [globals bind_name]. by rewrite lookup_insert_eq. }
    rewrite Hdata. intros [= <-].
    assert (Hbuf : heap w1 !! base a' = Some buf) by by rewrite Hb.
    destruct (keeps_exec grows_around_data (take k (tail (program s)))
                (Forall_take _ _ _ (statements_keep_data s)) w1)
      as [[Hfiles Hheap] Hglobals].
    exists buf.
    assert (Hbuf' : heap (exec (take k (tail (program s))) w1).1 !! base a' = Some buf)
      by by eapply prefix_lookup_Some.
    split_and!; [done..| | |done].
    + by rewrite Hglobals.
    + by eapply items_same_buffer.
Qed.

Lemma table_is_never_mutated_witness :
  1 ≤ 8
  ∧ globals (after 1 P41 {[ Problem41.fname := population_sample ]}) !! "data"
    = Some (NDArray 0 0 [3; 3] [3; 1])
  ∧ ∃ buf,
      heap (after 1 P41 {[ Problem41.fname := population_sample ]})
      !! base (NDArray 0 0 [3; 3] [3; 1]) = Some buf
      ∧ heap (after 8 P41 {[ Problem41.fname := population_sample ]})
        !! base (NDArray 0 0 [3; 3] [3; 1]) = Some buf
      ∧ globals (after 8 P41 {[ Problem41.fname := population_sample ]}) !! "data"
        = Some (NDArray 0 0 [3; 3] [3; 1])
      ∧ items (heap (after 8 P41 {[ Problem41.fname := population_sample ]}))
          (NDArray 0 0 [3; 3] [3; 1])
        = items (heap (after 1 P41 {[ Problem41.fname := population_sample ]}))
            (NDArray 0 0 [3; 3] [3; 1])
      ∧ files (after 8 P41 {[ Problem41.fname := population_sample ]})
        = {[ Problem41.fname := population_sample ]}.
Proof.
  assert (Hk : 1 ≤ 8) by lia.
  assert (Hdata : globals (after 1 P41 {[ Problem41.fname := population_sample ]})
                  !! "data" = Some (NDArray 0 0 [3; 3] [3; 1])) by (by vm_compute).
  split; [exact Hk|]. split; [exact Hdata|].
  exact (table_is_never_mutated P41 _ 8 _ Hk Hdata).
Defined.

(** ** Runs under an environment *)

#[global] Instance appends_preorder : PreOrder appends.
Proof.
  split.
  - intros w. unfold appends. done.
  - intros w1 w2 w3 H1 H2. unfold appends in *. by etrans.
Qed.

Lemma appends_emit e : keeps appends (emit e).
Proof. intros w. unfold appends. simpl. by apply prefix_app_r. Qed.

Lemma appends_alloc buf : keeps appends (alloc buf).
Proof. intros w. by unfold appends. Qed.

Lemma appends_assign name a : keeps appends (assign name a).
Proof. intros w. by unfold appends. Qed.

Lemma appends_open fname : keeps appends (open fname).
Proof.
  intros w. unfold open, appends. destruct (files w !! fname); [|done].
  simpl. by apply prefix_app_r.
Qed.

Lemma appends_getitem a idx : keeps appends (getitem a idx).
Proof.
  unfold getitem. destruct (index_axes _ _ _) as [[[off sh] st]|];
    [|apply keeps_raise, _].
  apply keeps_bind; [apply _|apply appends_emit|intros; apply keeps_ret, _].
Qed.

Lemma appends_astype a : keeps appends (astype_int a).
Proof.
  unfold astype_int.
  apply keeps_bind; [apply _|apply keeps_read, _|intros xs].
  apply keeps_bind; [apply _| |intros _].
  { destruct (forallb cast_valid xs); [apply keeps_ret, _|apply appends_emit]. }
  apply keeps_bind; [apply _|apply appends_alloc|intros l].
  apply keeps_bind; [apply _|apply appends_emit|intros; apply keeps_ret, _].
Qed.

Lemma appends_genfromtxt fname delimiter skip_header :
  keeps appends (genfromtxt fname delimiter skip_header).
Proof.
  unfold genfromtxt.
  apply keeps_bind; [apply _|apply appends_open|intros text].
  apply keeps_bind; [apply _| |intros [[first_line first_values] fhd']].
  { destruct (first_valid _ _); [apply keeps_ret, _|].
    apply keeps_bind; [apply _|apply appends_emit|intros; apply keeps_ret, _]. }
  destruct (parse_lines _ _ _ _ _) as [rows [|bad invalid]];
    [|apply keeps_raise, _].
  unfold np_array.
  apply keeps_bind; [apply _| |intros output].
  { apply keeps_bind; [apply _|apply appends_alloc|intros; apply keeps_ret, _]. }
  apply keeps_bind; [apply _|apply appends_emit|intros; apply keeps_ret, _].
Qed.

Lemma appends_print args : keeps appends (print args).
Proof. apply appends_emit. Qed.

Ltac appends_stmt :=
  repeat first
    [ apply appends_assign | apply appends_getitem | apply appends_astype
    | apply appends_print | apply appends_genfromtxt
    | apply keeps_var, _ | apply keeps_display, _
    | apply keeps_bind; [apply _| |intros ?] ].

Lemma statements_append s : Forall (keeps appends) (program s).
Proof.
  destruct s; simpl; repeat first [apply Forall_nil_2 | apply Forall_cons_2];
    appends_stmt.
Qed.

Lemma warning_free_first es : warning_free es = true → first_warning es = None.
Proof.
  induction es as [|e es IH]; [done|]. simpl.
  destruct e; try done; intros H; by rewrite IH.
Qed.

Lemma warning_free_app es1 es2 :
  warning_free (es1 ++ es2) = warning_free es1 && warning_free es2.
Proof. apply forallb_app. Qed.

(** Under the default filter the statements run as they are. *)
Lemma exec_under_default prog w : exec_under false prog w = lifted (exec prog w).
Proof.
  revert w. induction prog as [|s prog IH]; intros w; [done|].
  rewrite exec_cons. cbn [exec_under]. unfold guarded.
  destruct (s w) as [w' [e|[]]]; [done|]. apply IH.
Qed.

(** A run that gives no warning is the same under both filters. *)
Lemma exec_under_warning_free prog w :
  Forall (keeps appends) prog →
  warning_free (drop (length (log w)) (log (exec prog w).1)) = true →
  exec_under true prog w = lifted (exec prog w).
Proof.
  intros Hprog. revert w.
  induction Hprog as [|s prog Hs Hprog IH]; intros w Hfree; [done|].
  rewrite exec_cons in Hfree |- *. cbn [exec_under]. unfold guarded.
  pose proof (Hs w) as [k Hk].
  destruct (s w) as [w' [e|[]]] eqn:Es; cbn [fst] in Hk.
  - cbn [fst] in Hfree. rewrite Hk, drop_app_length in Hfree |- *.
    by rewrite (warning_free_first k Hfree).
  - pose proof (keeps_exec appends prog Hprog w') as [k' Hk'].
    rewrite Hk', Hk, <- app_assoc, drop_app_length, warning_free_app in Hfree.
    apply andb_true_iff in Hfree as [Hfree Hfree'].
    rewrite Hk, drop_app_length, (warning_free_first k Hfree).
    apply IH. by rewrite Hk', drop_app_length.
Qed.

(** A run under an environment reads no file but the script's input. *)
Lemma guarded_agree name raising (m : stmt) w1 w2 :
  reads_only name m → agree name w1 w2 →
  agree name (guarded raising m w1).1 (guarded raising m w2).1
  ∧ (guarded raising m w1).2 = (guarded raising m w2).2.
Proof.
  intros Hm Hw. destruct (Hm w1 w2 Hw) as [Hw' Hr].
  pose proof Hw as (Hf & Hh & Hg & Hl).
  pose proof Hw' as (Hf' & Hh' & Hg' & Hl').
  unfold guarded.
  destruct (m w1) as [w1' r1], (m w2) as [w2' r2]. cbn [fst snd] in *.
  rewrite <- Hl, <- Hl', <- Hr.
  destruct (if raising then _ else _) as [[before wn]|]; cbn [fst snd].
  - split; [|done]. unfold agree. cbn [files heap globals log].
    by rewrite Hh, Hg, Hl.
  - done.
Qed.

Lemma exec_under_agree name raising prog :
  Forall (reads_only name) prog →
  ∀ w1 w2, agree name w1 w2 →
    agree name (exec_under raising prog w1).1 (exec_under raising prog w2).1
    ∧ (exec_under raising prog w1).2 = (exec_under raising prog w2).2.
Proof.
  induction 1 as [|s prog Hs _ IH]; intros w1 w2 Hw; [done|].
  cbn [exec_under].
  destruct (guarded_agree name raising s w1 w2 Hs Hw) as [Hw' Hr].
  destruct (guarded raising s w1) as [w1' [f1|[]]],
           (guarded raising s w2) as [w2' [f2|[]]]; cbn [fst snd] in *; try done.
  by apply IH.
Qed.

(** Without warnings the filter does not matter. *)
Lemma exec_under_any raising s w :
  log w = [] →
  warning_free (log (exec (program s) w).1) = true →
  exec_under raising (program s) w = exec_under false (program s) w.
Proof.
  intros Hlog Hfree. destruct raising; [|done].
  rewrite exec_under_default. apply exec_under_warning_free.
  - apply statements_append.
  - by rewrite Hlog.
Qed.

Lemma runs_agree_under s b1 b2 w1 w2 :
  agree (input_name s) w1 w2 → log w1 = [] →
  b1 = b2 ∨ warning_free (log (exec_under false (program s) w1).1) = true →
  log (exec_under b1 (program s) w1).1 = log (exec_under b2 (program s) w2).1
  ∧ (exec_under b1 (program s) w1).2 = (exec_under b2 (program s) w2).2.
Proof.
  intros Hw Hlog Hfilter.
  assert (Hsame : ∀ b,
            log (exec_under b (program s) w1).1 = log (exec_under b (program s) w2).1
            ∧ (exec_under b (program s) w1).2 = (exec_under b (program s) w2).2).
  { intros b.
    destruct (exec_under_agree (input_name s) b (program s)
                (statements_read_input s) w1 w2 Hw) as [(_ & _ & _ & Hl) Hr].
    done. }
  destruct Hfilter as [<-|Hfree]; [apply Hsame|].
  rewrite exec_under_default in Hfree. cbn [lifted fst] in Hfree.
  assert (Hfree' : warning_free (log (exec (program s) w2).1) = true).
  { destruct (reads_exec (input_name s) (program s) (statements_read_input s)
                w1 w2 Hw) as [(_ & _ & _ & Hl) _].
    by rewrite <- Hl. }
  pose proof Hw as (_ & _ & _ & Hlog'). rewrite Hlog in Hlog'.
  rewrite (exec_under_any b1 s w1), (exec_under_any b2 s w2) by done.
  apply Hsame.
Qed.

Lemma python_agree s E1 E2 (disk1 disk2 : gmap string bytes) :
  disk1 !! input_name s = disk2 !! input_name s →
  (∀ bs, disk1 !! input_name s = Some bs → encoding E1 bs = encoding E2 bs) →
  (warnings_raise E1 = warnings_raise E2
   ∨ warning_free (log (python (lenient E1) s disk1).1) = true) →
  log (python E1 s disk1).1 = log (python E2 s disk2).1
  ∧ (python E1 s disk1).2 = (python E2 s disk2).2.
Proof.
  intros Hdisk Hcodec Hfilter.
  assert (Hw : agree (input_name s) (boot (texts E1 disk1)) (boot (texts E2 disk2))).
  { split; [|done]. cbn [boot files]. unfold texts.
    rewrite !lookup_omap, <- Hdisk.
    destruct (disk1 !! input_name s) as [bs|] eqn:Hbs; [|done].
    cbn. by apply Hcodec. }
  unfold python in *. rewrite <- Hdisk.
  change (encoding (lenient E1)) with (encoding E1) in Hfilter.
  change (warnings_raise (lenient E1)) with false in Hfilter.
  change (texts (lenient E1) disk1) with (texts E1 disk1) in Hfilter.
  destruct (disk1 !! input_name s) as [bs|] eqn:Hbs.
  - rewrite <- (Hcodec bs eq_refl).
    destruct (encoding E1 bs) as [text|]; [|done].
    by apply runs_agree_under.
  - by apply runs_agree_under.
Qed.

(** Under the default filter, on a file that decodes or is missing, the
    interpreter runs the statements on the decoded files. *)
Lemma python_default E s (disk : gmap string bytes) :
  warnings_raise E = false →
  (∀ bs, disk !! input_name s = Some bs → is_Some (encoding E bs)) →
  python E s disk = lifted (run (program s) (texts E disk)).
Proof.
  intros Hfilter Hdec. unfold python, run. rewrite Hfilter.
  destruct (disk !! input_name s) as [bs|] eqn:Hbs; [|apply exec_under_default].
  destruct (Hdec bs eq_refl) as [text ->]. apply exec_under_default.
Qed.

Lemma ascii_codecs_agree (c1 c2 : codec) (bs : bytes) :
  ascii_compatible c1 → ascii_compatible c2 → forallb is_ascii bs = true →
  c1 bs = c2 bs.
Proof. intros H1 H2 Hbs. by rewrite H1, H2. Qed.




(** ** Conversion to integers *)

(** [trunc] rounds toward zero: it is the truncated quotient of the
    fraction the float stands for. *)
Lemma trunc_toward_zero (x : PyFloat.float64) (num den : Z) :
  PyFloat.fraction x = Some (num, den) → PyFloat.trunc x = Some (num ÷ den)%Z.
Proof.
  destruct x as [s|s| |s m e]; simpl; try done.
  - by intros [= <- <-].
  - destruct (Z.leb_spec 0 e) as [He|He]; intros [= <- <-]; f_equal.
    + rewrite Z.quot_1_r, Z.shiftl_mul_pow2 by done.
      destruct s; [|done]. by rewrite <- Z.mul_opp_l.
    + assert (Hden : (0 < 2 ^ (- e))%Z) by (apply Z.pow_pos_nonneg; lia).
      rewrite Z.shiftr_div_pow2 by lia.
      destruct s.
      * change (Z.neg m) with (- Z.pos m)%Z.
        rewrite Z.quot_opp_l by lia. f_equal.
        symmetry. apply Z.quot_div_nonneg; lia.
      * symmetry. apply Z.quot_div_nonneg; lia.
Qed.

Lemma to_int64_truncated x : truncated x (PyFloat.to_int64 x).
Proof.
  unfold truncated, PyFloat.to_int64.
  destruct (PyFloat.fraction x) as [[num den]|] eqn:E.
  - rewrite (trunc_toward_zero _ _ _ E). by destruct (PyFloat.fits_int64 _).
  - destruct x; try done; simpl in E; by destruct (_ <=? _)%Z.
Qed.

(** The integer at row [r] of an integer copy of column [j] is the
    truncation of the float in the table. *)
Lemma cast_column_lookup recs j r vs :
  recs !! r = Some vs →
  ∃ n, (cast_int <$> column j recs) !! r = Some (I64 n)
       ∧ column j recs !! r = Some (F64 (loose_call (vs !!! j)))
       ∧ truncated (loose_call (vs !!! j)) n.
Proof.
  intros Hr. exists (PyFloat.to_int64 (loose_call (vs !!! j))).
  unfold column. rewrite !list_lookup_fmap, Hr. simpl.
  split_and!; [done..|]. apply to_int64_truncated.
Qed.



(** On that file: 1.9 and -2.7 lose their fractions, and 1e30, the text
    [signal] and [nan] have no integer value in range. *)
Example signal_odd_integers :
  stdout (final P51 {[ Problem51.fname := signal_odd ]}) !! 1
  = Some [PArray [3] [I64 0; I64 1; I64 (-2)]]
  ∧ stdout (final P51 {[ Problem51.fname := signal_odd ]}) !! 5
    = Some [PArray [3] [I64 1; I64 PyFloat.int64_min; I64 PyFloat.int64_min]]
  ∧ heap (final P51 {[ Problem51.fname := signal_odd ]}) !! 1
    = Some [I64 0; I64 1; I64 (-2); I64 PyFloat.int64_min].
Proof. split_and!; by vm_compute. Qed.

(** ** Fields and separators *)

Section strings.
Local Open Scope string_scope.
Implicit Types (s t : string) (c : ascii) (p : ascii → bool).

Local Arguments String.append !_ _ / : simpl nomatch.

Lemma append_nil_r s : s ++ "" = s.
Proof. induction s; simpl; by f_equal. Qed.

Lemma append_assoc s t u : (s ++ t) ++ u = s ++ (t ++ u).
Proof. induction s; simpl; by f_equal. Qed.

Lemma forall_chars_app p s t :
  forall_chars p (s ++ t) = forall_chars p s && forall_chars p t.
Proof. induction s as [|c s IH]; simpl; [done|]. by rewrite IH, andb_assoc. Qed.

Lemma forall_chars_impl p q s :
  (∀ c, p c = true → q c = true) →
  forall_chars p s = true → forall_chars q s = true.
Proof.
  intros Hpq. induction s as [|c s IH]; simpl; [done|].
  rewrite !andb_true_iff. intros [Hc Hs]. auto.
Qed.

Lemma forall_chars_join p sep (fields : list string) :
  forall_chars p sep = true →
  Forall (λ f, forall_chars p f = true) fields →
  forall_chars p (join sep fields) = true.
Proof.
  intros Hsep. induction 1 as [|f fields Hf Hfields IH]; [done|].
  destruct fields as [|g fields]; [done|].
  change (join sep (f :: g :: fields)) with (f ++ sep ++ join sep (g :: fields)).
  by rewrite !forall_chars_app, Hf, Hsep, IH.
Qed.

(** *** Lines *)

Lemma universal_newlines_id s :
  forall_chars (λ c, negb (Ascii.eqb c PyStr.CR)) s = true →
  PyStr.universal_newlines s = s.
Proof.
  induction s as [|c s IH]; simpl; [done|].
  rewrite andb_true_iff, negb_true_iff. intros [-> Hs]. by rewrite IH.
Qed.

Lemma lines_of_app s rest :
  forall_chars (λ c, negb (Ascii.eqb c PyStr.LF)) s = true →
  PyStr.lines_of (s ++ String PyStr.LF rest)
  = (s ++ String PyStr.LF "") :: PyStr.lines_of rest.
Proof.
  induction s as [|c s IH]; simpl.
  - done.
  - rewrite andb_true_iff, negb_true_iff. intros [-> Hs]. by rewrite IH.
Qed.

Lemma readlines_unlines (ls : list string) :
  Forall (λ l, forall_chars no_line_end l = true) ls →
  PyStr.readlines (PyStr.unlines ls) = (λ l, l ++ String PyStr.LF "") <$> ls.
Proof.
  intros Hls. unfold PyStr.readlines.
  rewrite universal_newlines_id.
  - induction Hls as [|l ls Hl _ IH]; [done|]. simpl.
    rewrite lines_of_app, IH; [done|].
    eapply forall_chars_impl; [|exact Hl].
    unfold no_line_end. intros c. rewrite andb_true_iff. tauto.
  - induction Hls as [|l ls Hl _ IH]; [done|]. simpl.
    rewrite forall_chars_app. simpl. rewrite IH, andb_true_r.
    eapply forall_chars_impl; [|exact Hl].
    unfold no_line_end. intros c. rewrite andb_true_iff. tauto.
Qed.

(** *** Splitting at a character *)

Lemma prefix_char c d s :
  String.prefix (String c "") (String d s) = Ascii.eqb c d.
Proof.
  simpl. destruct (ascii_dec c d) as [->|Hne].
  - rewrite Ascii.eqb_refl. by destruct s.
  - symmetry. by apply Ascii.eqb_neq.
Qed.

Lemma split_none c s :
  forall_chars (λ d, negb (Ascii.eqb c d)) s = true →
  PyStr.split (String c "") s = [s].
Proof.
  unfold PyStr.split. induction s as [|d s IH]; [done|].
  cbn [forall_chars PyStr.split_at]. rewrite prefix_char.
  rewrite andb_true_iff, negb_true_iff. intros [-> Hs].
  by rewrite IH.
Qed.

Lemma split_app c s rest :
  forall_chars (λ d, negb (Ascii.eqb c d)) s = true →
  PyStr.split (String c "") (s ++ String c rest)
  = s :: PyStr.split (String c "") rest.
Proof.
  unfold PyStr.split. induction s as [|d s IH].
  - intros _. cbn [String.append PyStr.split_at].
    by rewrite prefix_char, Ascii.eqb_refl.
  - cbn [forall_chars String.append PyStr.split_at]. rewrite prefix_char.
    rewrite andb_true_iff, negb_true_iff. intros [-> Hs].
    by rewrite IH.
Qed.

Lemma split_join c (fields : list string) :
  fields ≠ [] →
  Forall (λ f, forall_chars (λ d, negb (Ascii.eqb c d)) f = true) fields →
  PyStr.split (String c "") (join (String c "") fields) = fields.
Proof.
  intros Hne Hfields. induction Hfields as [|f fields Hf Hfields IH]; [done|].
  destruct fields as [|g fields]; [by apply split_none|].
  change (join (String c "") (f :: g :: fields))
    with (f ++ String c (join (String c "") (g :: fields))).
  rewrite split_app by done. f_equal. by apply IH.
Qed.

(** *** Stripping *)

Lemma rstrip_fixed p s :
  forall_chars (λ c, negb (p c)) s = true → PyStr.rstrip p s = s.
Proof.
  induction s as [|c s IH]; [done|]. cbn [forall_chars PyStr.rstrip].
  rewrite andb_true_iff, negb_true_iff. intros [Hc Hs].
  rewrite IH by done. destruct s; [by rewrite Hc|done].
Qed.

Lemma rstrip_app p s t :
  t ≠ "" → PyStr.rstrip p t = t → PyStr.rstrip p (s ++ t) = s ++ t.
Proof.
  intros Hne Ht. induction s as [|c s IH]; [done|].
  cbn [String.append PyStr.rstrip]. rewrite IH.
  destruct (s ++ t) eqn:E; [|done].
  destruct s; [by destruct t|done].
Qed.

Lemma rstrip_app_blank p s b :
  p b = true → PyStr.rstrip p (s ++ String b "") = PyStr.rstrip p s.
Proof.
  intros Hb. induction s as [|c s IH]; cbn [String.append PyStr.rstrip].
  - by rewrite Hb.
  - by rewrite IH.
Qed.

Lemma rstrip_join p sep (fields : list string) :
  Forall (λ f, f ≠ "" ∧ forall_chars (λ c, negb (p c)) f = true) fields →
  PyStr.rstrip p (join sep fields) = join sep fields.
Proof.
  induction 1 as [|f fields [Hne Hf] Hfields IH]; [done|].
  destruct fields as [|g fields]; [by apply rstrip_fixed|].
  change (join sep (f :: g :: fields)) with (f ++ sep ++ join sep (g :: fields)).
  rewrite <- append_assoc. apply rstrip_app; [|done].
  apply Forall_cons in Hfields as [[Hg _] _].
  destruct fields; simpl; [done|]. by destruct g.
Qed.

Lemma join_head sep f (fields : list string) :
  f ≠ "" → ∃ c rest, f = String c rest ∧ join sep (f :: fields) = String c (rest ++ match fields with [] => "" | _ => sep ++ join sep fields end).
Proof.
  intros Hne. destruct f as [|c rest]; [done|]. exists c, rest. split; [done|].
  destruct fields; simpl; [by rewrite append_nil_r|done].
Qed.

(** A line written from plain fields comes back from [strip]. *)
Lemma strip_line p sep (fields : list string) :
  p PyStr.LF = true → fields ≠ [] →
  Forall (λ f, f ≠ "" ∧ forall_chars (λ c, negb (p c)) f = true) fields →
  PyStr.strip p (join sep fields ++ String PyStr.LF "") = join sep fields.
Proof.
  intros Hlf Hne Hfields. unfold PyStr.strip.
  destruct fields as [|f fields]; [done|].
  pose proof Hfields as [[Hf Hchars] _]%Forall_cons.
  destruct (join_head sep f fields Hf) as (c & rest & -> & E).
  rewrite E. cbn [String.append PyStr.lstrip].
  simpl in Hchars. apply andb_true_iff in Hchars as [Hc _].
  apply negb_true_iff in Hc. rewrite Hc.
  change (String c ((rest ++ _) ++ String PyStr.LF ""))
    with (String c (rest ++ match fields with [] => "" | _ => sep ++ join sep fields end)
          ++ String PyStr.LF "").
  rewrite rstrip_app_blank, <- E by done. by apply rstrip_join.
Qed.

(** *** Splitting at white space *)

Lemma split_ws_word f rest :
  f ≠ "" → forall_chars (λ c, negb (PyStr.is_space c)) f = true →
  (rest = "" ∨ ∃ b rest', rest = String b rest' ∧ PyStr.is_space b = true) →
  PyStr.split_ws (f ++ rest) = f :: PyStr.split_ws rest.
Proof.
  intros Hne Hf Hrest. induction f as [|c f IH]; [done|].
  cbn [forall_chars] in Hf. apply andb_true_iff in Hf as [Hc Hf].
  apply negb_true_iff in Hc.
  cbn [String.append PyStr.split_ws]. rewrite Hc.
  destruct f as [|c' f].
  - cbn [String.append].
    destruct Hrest as [->|(b & rest' & -> & Hb)]; [done|]. by rewrite Hb.
  - cbn [String.append]. cbn [forall_chars] in Hf.
    pose proof Hf as [Hc' _]%andb_true_iff. apply negb_true_iff in Hc'.
    rewrite Hc'.
    change (String c' (f ++ rest)) with (String c' f ++ rest).
    by rewrite IH.
Qed.

Lemma split_ws_join (fields : list string) :
  Forall (λ f, f ≠ "" ∧ forall_chars (λ c, negb (PyStr.is_space c)) f = true) fields →
  PyStr.split_ws (join " " fields) = fields.
Proof.
  induction 1 as [|f fields [Hne Hf] Hfields IH]; [done|].
  destruct fields as [|g fields].
  - simpl. rewrite <- (append_nil_r f) at 1.
    rewrite split_ws_word; auto.
  - change (join " " (f :: g :: fields))
      with (f ++ String " " (join " " (g :: fields))).
    rewrite split_ws_word; [|done..|right; by eexists _, _].
    f_equal. rewrite <- IH at 2. reflexivity.
Qed.

End strings.

Lemma plain_char_spec s c :
  plain_char s c = true →
  negb (PyStr.mem c blanks) = true
  ∧ negb (Ascii.eqb "#" c) = true
  ∧ no_line_end c = true
  ∧ match s with
    | P41 | P51 => negb (Ascii.eqb "," c) = true
    | P52 => negb (PyStr.is_space c) = true
    end.
Proof.
  assert (Hcsv : negb (PyStr.mem c ",# ") && no_line_end c = true →
                 negb (PyStr.mem c blanks) = true ∧ negb (Ascii.eqb "#" c) = true
                 ∧ no_line_end c = true ∧ negb (Ascii.eqb "," c) = true).
  { unfold no_line_end, blanks. cbn [PyStr.mem].
    rewrite !(Ascii.eqb_sym _ c), !andb_true_iff, !negb_true_iff, !orb_false_iff.
    intros [(Hcomma & Hhash & Hsp & _) [Hcr Hlf]].
    by rewrite Hcomma, Hhash, Hsp, Hcr, Hlf. }
  destruct s; [exact Hcsv..|].
  unfold plain_char, no_line_end, blanks. cbn [PyStr.mem].
  rewrite !(Ascii.eqb_sym _ c), !andb_true_iff, !negb_true_iff, !orb_false_iff.
  intros [Hsp Hhash].
  assert (Hne : ∀ d, PyStr.is_space d = true → Ascii.eqb c d = false).
  { intros d Hd. apply Ascii.eqb_neq. intros ->. congruence. }
  split_and!; try done; apply Hne; by vm_compute.
Qed.

Lemma separator_chars s (p : ascii → bool) :
  p (match s with P41 | P51 => "," | P52 => " " end)%char = true →
  forall_chars p (separator s) = true.
Proof. destruct s; simpl; by intros ->. Qed.

Lemma plain_fields_chars s (r : list string) (p : ascii → bool) :
  (∀ c, plain_char s c = true → p c = true) →
  Forall (plain s) r → Forall (λ f, forall_chars p f = true) r.
Proof.
  intros Hp Hr. eapply Forall_impl; [exact Hr|]. intros f [_ Hf].
  by eapply forall_chars_impl.
Qed.

Lemma plain_fields_nonempty s (r : list string) (p : ascii → bool) :
  (∀ c, plain_char s c = true → negb (p c) = true) →
  Forall (plain s) r →
  Forall (λ f, f ≠ EmptyString ∧ forall_chars (λ c, negb (p c)) f = true) r.
Proof.
  intros Hp Hr. eapply Forall_impl; [exact Hr|].
  intros f [Hne Hf]. split; [done|]. by eapply forall_chars_impl.
Qed.

Lemma join_nonempty s (r : list string) :
  r ≠ [] → Forall (plain s) r → join (separator s) r ≠ EmptyString.
Proof.
  intros Hne Hr. destruct r as [|f r]; [done|].
  apply Forall_cons in Hr as [[Hf _] _].
  destruct (join_head (separator s) f r Hf) as (c & rest & _ & ->). done.
Qed.

(** The fields of a written line are the ones it was written from. *)
Lemma split_line_written s (r : list string) :
  r ≠ [] → Forall (plain s) r →
  split_line (delimiter_of s) (String.append (join (separator s) r) (String PyStr.LF ""))
  = r.
Proof.
  intros Hne Hr. unfold split_line, comments.
  rewrite split_none; cycle 1.
  { rewrite forall_chars_app. apply andb_true_iff. split; [|done].
    apply forall_chars_join; [by destruct s|].
    eapply plain_fields_chars; [|done]. intros c Hc.
    by destruct (plain_char_spec s c Hc) as (_ & ? & _). }
  cbn [hd]. rewrite strip_line; [|done..|]; cycle 1.
  { eapply plain_fields_nonempty; [|done]. intros c Hc.
    by destruct (plain_char_spec s c Hc) as (? & _). }
  pose proof (join_nonempty s r Hne Hr) as Hline.
  destruct (join (separator s) r) as [|c line] eqn:E; [done|]. rewrite <- E.
  destruct s; cbn [delimiter_of separator] in *.
  - apply split_join; [done|]. eapply plain_fields_chars; [|done].
    intros d Hd. by destruct (plain_char_spec P41 d Hd) as (_ & _ & _ & ?).
  - apply split_join; [done|]. eapply plain_fields_chars; [|done].
    intros d Hd. by destruct (plain_char_spec P51 d Hd) as (_ & _ & _ & ?).
  - apply split_ws_join. eapply plain_fields_nonempty; [|done].
    intros d Hd. by destruct (plain_char_spec P52 d Hd) as (_ & _ & _ & ?).
Qed.

(** The records of a written file are the rows it was written from. *)
Lemma records_written s header (rows : list (list string)) :
  forall_chars no_line_end header = true →
  Forall (λ r, r ≠ [] ∧ Forall (plain s) r) rows →
  records (delimiter_of s) (skip_header_of s) (written s header rows) = rows.
Proof.
  intros Hheader Hrows. unfold records, written.
  rewrite readlines_unlines; cycle 1.
  { apply Forall_app. split.
    - apply Forall_replicate. done.
    - apply Forall_fmap. eapply Forall_impl; [exact Hrows|].
      intros r [_ Hr]. simpl. apply forall_chars_join.
      + apply separator_chars. by destruct s.
      + eapply plain_fields_chars; [|done]. intros c Hc.
        by destruct (plain_char_spec s c Hc) as (_ & _ & ? & _). }
  rewrite fmap_app, drop_app_length'
    by (by rewrite length_fmap, length_replicate).
  rewrite <- !list_fmap_compose.
  induction Hrows as [|r rows [Hne Hr] _ IH]; [done|].
  csimpl. rewrite split_line_written by done.
  rewrite filter_cons_True by done. by rewrite IH.
Qed.

(** ** Further properties of the scripts *)

Lemma loaded_base b recs : base (loaded b recs) = b.
Proof. by destruct recs. Qed.

Lemma loaded_offset b recs : offset (loaded b recs) = 0.
Proof. by destruct recs. Qed.

Lemma loaded_shape_eq b recs : shape (loaded b recs) = loaded_shape recs.
Proof.
  destruct recs as [|r recs]; [done|]. unfold loaded, loaded_shape, squeeze.
  cbn [shape strides zip zip_with].
  generalize (length (r :: recs)) (length r). intros n k.
  destruct (decide (n = 1)) as [->|Hn], (decide (k = 1)) as [->|Hk];
    repeat first [ rewrite filter_cons_True by done
                 | rewrite filter_cons_False by (simpl; intros []; done) ];
    done.
Qed.

(** [np.genfromtxt] on a file whose records have one length. *)
Lemma genfromtxt_loaded delimiter fname skip_header w text k :
  files w !! fname = Some text →
  Forall (λ vs, length vs = k) (records delimiter skip_header text) →
  genfromtxt fname delimiter skip_header w
  = (add_event (EvParse fname)
       (add_buffer (cell <$> concat (records delimiter skip_header text))
          (add_events (load_warning fname (records delimiter skip_header text))
             (add_event (EvOpen fname) w))),
     inr (loaded (length (heap w)) (records delimiter skip_header text))).
Proof.
  intros Hfile Hall.
  destruct (records delimiter skip_header text) as [|r recs] eqn:Hrecs.
  - by rewrite (genfromtxt_empty delimiter fname skip_header w text Hfile Hrecs).
  - apply Forall_cons in Hall as [Hr Hall].
    rewrite (genfromtxt_uniform delimiter fname skip_header w text Hfile r recs Hrecs)
      by by rewrite Hr.
    unfold loaded, load_warning. cbn [length]. do 3 f_equal.
    unfold add_events. destruct w; simpl. by rewrite app_nil_r.
Qed.

(** ** Arrays without their axes of length one *)

Lemma offsets_squeezed sh st :
  offsets (filter (λ ax : nat * nat, ax.1 ≠ 1) (zip sh st)).*1
          (filter (λ ax : nat * nat, ax.1 ≠ 1) (zip sh st)).*2
  = offsets sh st.
Proof.
  unfold offsets. revert st.
  induction sh as [|n sh IH]; intros [|s st]; try done.
  cbn [zip zip_with].
  destruct (decide (n = 1)) as [->|Hn].
  - rewrite filter_cons_False by (simpl; intros []; done).
    rewrite IH. cbn [offsets_with seq]. rewrite bind_cons. cbn [mbind list_bind]. rewrite app_nil_r.
    rewrite <- (list_fmap_id (offsets_with (seq 0) sh st)) at 1.
    apply list_fmap_ext. intros ? o _. simpl. lia.
  - rewrite filter_cons_True by done. cbn [fmap list_fmap offsets_with fst snd].
    apply list_bind_ext; [|done]. intros i. f_equal. apply IH.
Qed.

Lemma squeeze_items h a : items h (squeeze a) = items h a.
Proof. unfold items, items_at, squeeze. simpl. by rewrite offsets_squeezed. Qed.

Lemma squeeze_axes a : length (strides (squeeze a)) = length (shape (squeeze a)).
Proof. unfold squeeze. simpl. by rewrite !length_fmap. Qed.

Lemma loaded_axes b recs :
  length (strides (loaded b recs)) = length (shape (loaded b recs)).
Proof. destruct recs; [done|apply squeeze_axes]. Qed.

Lemma loaded_items h b recs k :
  h !! b = Some (cell <$> concat recs) →
  Forall (λ vs, length vs = k) recs →
  items h (loaded b recs) = cell <$> concat recs.
Proof.
  intros Hb Hall. destruct recs as [|r recs]; [done|].
  unfold loaded. rewrite squeeze_items.
  apply items_table; [done|].
  rewrite (length_cells _ k) by done.
  apply Forall_cons in Hall as [-> _]. done.
Qed.

(** ** A run after the load *)

Lemma load_fails s fs w e :
  genfromtxt (input_name s) (delimiter_of s) (skip_header_of s) (boot fs) = (w, inl e) →
  run (program s) fs = (w, inl e).
Proof.
  intros E. unfold run. rewrite (program_load s).
  apply exec_stop. unfold load. by apply bind_inl.
Qed.

Lemma load_binds s fs w a :
  genfromtxt (input_name s) (delimiter_of s) (skip_header_of s) (boot fs) = (w, inr a) →
  run (program s) fs = exec (tail (program s)) (bind_name "data" a w).
Proof.
  intros E. unfold run. rewrite (program_load s) at 1.
  apply exec_step. unfold load. by eapply bind_inr.
Qed.

Lemma stdout_add_event e w :
  stdout (add_event e w)
  = stdout w ++ match e with EvPrint args => [args] | _ => [] end.
Proof. unfold stdout. simpl. rewrite omap_app. simpl. by destruct e. Qed.

Lemma stdout_add_buffer buf w : stdout (add_buffer buf w) = stdout w.
Proof. done. Qed.

Lemma stdout_bind_name x a w : stdout (bind_name x a w) = stdout w.
Proof. done. Qed.

Lemma stdout_add_events es w :
  warnings es → stdout (add_events es w) = stdout w.
Proof.
  intros Hes. unfold stdout. simpl. rewrite omap_app.
  replace (omap _ es) with (@nil (list pyobj)); [by rewrite app_nil_r|].
  symmetry. unfold warnings in Hes.
  induction es as [|e es IH]; [done|].
  destruct e; simpl in *; try done; by apply IH.
Qed.

Lemma load_warning_warnings fname recs : warnings (load_warning fname recs).
Proof. by destruct recs. Qed.

Lemma getitem_column_fails a j w w1 :
  length (strides a) = length (shape a) →
  getitem a [Full; At j] w = (w1, inl IndexError) →
  ∀ n k sh, shape a = n :: k :: sh → ¬ j < k.
Proof.
  unfold getitem. intros Hlen E n k sh Hsh Hj. rewrite Hsh in E, Hlen.
  destruct (strides a) as [|s [|t st]]; try done. simpl in E.
  destruct (Nat.ltb_spec j k); [done|lia].
Qed.

Lemma getitem_column_inv a j w w1 v :
  getitem a [Full; At j] w = (w1, inr v) →
  ∃ n k sh, shape a = n :: k :: sh ∧ j < k.
Proof.
  unfold getitem.
  destruct (shape a) as [|n [|k sh]], (strides a) as [|s [|t st]]; try done;
    simpl; try (by destruct (_ <? _)).
  destruct (Nat.ltb_spec j k); [|done]. intros _. by eexists _, _, _.
Qed.

Lemma getitem_upto_fails a m w w1 :
  length (strides a) = length (shape a) →
  getitem a [Upto m] w = (w1, inl IndexError) → shape a = [].
Proof.
  unfold getitem. intros Hlen.
  destruct (shape a) as [|n sh], (strides a) as [|s st]; done.
Qed.

Lemma getitem_upto_inv a m w w1 v :
  getitem a [Upto m] w = (w1, inr v) → ∃ n sh, shape a = n :: sh.
Proof.
  unfold getitem.
  destruct (shape a) as [|n sh], (strides a) as [|s st]; try done.
  intros _. by eexists _, _.
Qed.

(** The stdout of a world built step by step. *)
Ltac stdout_done :=
  cbn [fst snd];
  repeat first [ rewrite stdout_add_event | rewrite stdout_bind_name
               | rewrite stdout_add_buffer
               | rewrite stdout_add_events by assumption ];
  simpl; try done.

(** A column statement on [a]: either it raises, and the run is over with
    the shape line as its only output, or the column is bound. *)
Ltac column_or_stop a j E v Hlen Hout :=
  match goal with |- context [exec _ ?w] =>
    destruct (getitem_cases a [Full; At j] w) as [E|(v & E & _)] end;
  [ raises ltac:(bound_var; apply bind_inl; exact E);
    cbn [fst snd]; split; [simpl; by simplify_map_eq|];
    left; split; [done|]; split;
    [ stdout_done; by rewrite Hout
    | intros (n & k & sh & Hsh & Hk);
      eapply (getitem_column_fails _ _ _ _ Hlen E); [exact Hsh|simpl in Hk; lia] ]
  | ].

Lemma run_loaded_P41 fs w1 a :
  genfromtxt Problem41.fname (Some ",") 1 (boot fs) = (w1, inr a) →
  length (strides a) = length (shape a) → stdout w1 = [] →
  globals (run Problem41.script fs).1 !! "data" = Some a
  ∧ (((run Problem41.script fs).2 = inl IndexError
      ∧ stdout (run Problem41.script fs).1 = [shape_line P41 (shape a)]
      ∧ ¬ indexable P41 (shape a))
     ∨ ((run Problem41.script fs).2 = inr () ∧ indexable P41 (shape a))).
Proof.
  intros E Hlen Hout. unfold run, Problem41.script.
  completes ltac:(eapply bind_inr; [exact E | reflexivity]).
  completes ltac:(bound_var; reflexivity).
  column_or_stop a 0 E0 year Hlen Hout.
  completes ltac:(bound_var; eapply bind_inr; [exact E0 | reflexivity]).
  column_or_stop a 1 E1 PopIndia Hlen Hout.
  completes ltac:(bound_var; eapply bind_inr; [exact E1 | reflexivity]).
  column_or_stop a 2 E2 PopChina Hlen Hout.
  completes ltac:(bound_var; eapply bind_inr; [exact E2 | reflexivity]).
  completes ltac:(bound_var; eapply bind_inr; reflexivity).
  completes ltac:(bound_var; eapply bind_inr; reflexivity).
  completes ltac:(bound_var; eapply bind_inr; reflexivity).
  cbn [exec]. unfold mret, M_ret. cbn [fst snd].
  split; [simpl; by simplify_map_eq|]. right. split; [done|].
  destruct (getitem_column_inv _ _ _ _ _ E2) as (n & k & sh & Hsh & Hk).
  exists n, k, sh. split; [done|simpl; lia].
Qed.

Lemma run_loaded_P51 fs w1 a :
  genfromtxt Problem51.fname (Some ",") 1 (boot fs) = (w1, inr a) →
  length (strides a) = length (shape a) → stdout w1 = [] →
  globals (run Problem51.script fs).1 !! "data" = Some a
  ∧ (((run Problem51.script fs).2 = inl IndexError
      ∧ stdout (run Problem51.script fs).1 = [shape_line P51 (shape a)]
      ∧ ¬ indexable P51 (shape a))
     ∨ ((run Problem51.script fs).2 = inr () ∧ indexable P51 (shape a))).
Proof.
  intros E Hlen Hout. unfold run, Problem51.script.
  completes ltac:(eapply bind_inr; [exact E | reflexivity]).
  completes ltac:(bound_var; reflexivity).
  column_or_stop a 0 E0 col0 Hlen Hout.
  match goal with |- context [exec _ ?w] =>
    destruct (astype_cases col0 (add_event EvSlice w)) as (buf0 & ws0 & A0 & Hws0) end.
  destruct (getitem_column_axes _ _ _ _ _ E0) as (n0 & sh0 & s0 & st0 & Hsh0 & Hst0).
  completes ltac:(bound_var; eapply bind_inr; [exact E0|];
                  eapply bind_inr; [exact A0 | reflexivity]).
  column_or_stop a 1 E1 P Hlen Hout.
  destruct (getitem_column_axes _ _ _ _ _ E1) as (n1 & sh1 & s1 & st1 & Hsh1 & Hst1).
  completes ltac:(bound_var; eapply bind_inr; [exact E1 | reflexivity]).
  column_or_stop a 2 E2 R Hlen Hout.
  destruct (getitem_column_axes _ _ _ _ _ E2) as (n2 & sh2 & s2 & st2 & Hsh2 & Hst2).
  completes ltac:(bound_var; eapply bind_inr; [exact E2 | reflexivity]).
  column_or_stop a 3 E3 freq Hlen Hout.
  destruct (getitem_column_axes _ _ _ _ _ E3) as (n3 & sh3 & s3 & st3 & Hsh3 & Hst3).
  completes ltac:(bound_var; eapply bind_inr; [exact E3 | reflexivity]).
  column_or_stop a 4 E4 col4 Hlen Hout.
  match goal with |- context [exec _ ?w] =>
    destruct (astype_cases col4 (add_event EvSlice w)) as (buf4 & ws4 & A4 & Hws4) end.
  destruct (getitem_column_axes _ _ _ _ _ E4) as (n4 & sh4 & s4 & st4 & Hsh4 & Hst4).
  completes ltac:(bound_var; eapply bind_inr; [exact E4|];
                  eapply bind_inr; [exact A4 | reflexivity]).
  sample_stmt "index" Hsh0 Hst0.
  sample_stmt "P" Hsh1 Hst1.
  sample_stmt "R" Hsh2 Hst2.
  sample_stmt "freq" Hsh3 Hst3.
  sample_stmt "type" Hsh4 Hst4.
  cbn [exec]. unfold mret, M_ret. cbn [fst snd].
  split; [simpl; by simplify_map_eq|]. right. split; [done|].
  destruct (getitem_column_inv _ _ _ _ _ E4) as (n & k & sh & Hsh & Hk).
  exists n, k, sh. split; [done|simpl; lia].
Qed.

Lemma run_loaded_P52 fs w1 a :
  genfromtxt Problem52.fname None 0 (boot fs) = (w1, inr a) →
  length (strides a) = length (shape a) → stdout w1 = [] →
  globals (run Problem52.script fs).1 !! "data" = Some a
  ∧ (((run Problem52.script fs).2 = inl IndexError
      ∧ stdout (run Problem52.script fs).1 = [shape_line P52 (shape a)]
      ∧ ¬ indexable P52 (shape a))
     ∨ ((run Problem52.script fs).2 = inr () ∧ indexable P52 (shape a))).
Proof.
  intros E Hlen Hout. unfold run, Problem52.script.
  completes ltac:(eapply bind_inr; [exact E | reflexivity]).
  completes ltac:(bound_var; reflexivity).
  match goal with |- context [exec _ ?w] =>
    destruct (getitem_cases a [Upto 10] w) as [E1|(v & E1 & _)] end.
  - raises ltac:(bound_var; apply bind_inl; exact E1).
    cbn [fst snd]. split; [simpl; by simplify_map_eq|].
    left. split; [done|]. split; [stdout_done; by rewrite Hout|].
    intros (n & sh & Hsh).
    by rewrite (getitem_upto_fails _ _ _ _ Hlen E1) in Hsh.
  - completes ltac:(bound_var; eapply bind_inr; [exact E1|];
                    eapply bind_inr; reflexivity).
    cbn [exec]. unfold mret, M_ret. cbn [fst snd].
    split; [simpl; by simplify_map_eq|]. right. split; [done|].
    by apply (getitem_upto_inv _ _ _ _ _ E1).
Qed.

(** A script on an array it has loaded: it stops with [IndexError] right
    after the shape line, or completes, by the shape of the array. *)
Lemma run_loaded s fs w1 a :
  genfromtxt (input_name s) (delimiter_of s) (skip_header_of s) (boot fs) = (w1, inr a) →
  length (strides a) = length (shape a) → stdout w1 = [] →
  globals (final s fs) !! "data" = Some a
  ∧ ((outcome s fs = inl IndexError
      ∧ stdout (final s fs) = [shape_line s (shape a)]
      ∧ ¬ indexable s (shape a))
     ∨ (outcome s fs = inr () ∧ indexable s (shape a))).
Proof.
  unfold final, outcome.
  destruct s; [apply run_loaded_P41 | apply run_loaded_P51 | apply run_loaded_P52].
Qed.

(** Which loaded shapes can be indexed, in terms of the records. *)
Lemma indexable_loaded s recs k :
  Forall (λ vs, length vs = k) recs →
  indexable s (loaded_shape recs) ↔
  match s with
  | P41 | P51 => 2 ≤ length recs ∧ columns_used s ≤ k
  | P52 => ¬ (length recs = 1 ∧ k = 1)
  end.
Proof.
  intros Hall. destruct recs as [|r recs].
  { destruct s; simpl; split; try (intros (? & ? & ? & [=] & _)); try lia.
    by eexists _, _. }
  apply Forall_cons in Hall as [Hr _]. unfold loaded_shape. rewrite Hr.
  cbn [length]. generalize (length recs). intros m.
  destruct (decide (S m = 1)) as [Hm|Hm], (decide (k = 1)) as [Hk|Hk];
    try rewrite Hm; try rewrite Hk;
    repeat first [ rewrite filter_cons_True by done
                 | rewrite filter_cons_False by (simpl; intros []; done) ];
    rewrite filter_nil;
    destruct s; simpl; split;
    try (intros (? & ? & ? & [=] & ?)); try (intros (? & ? & [=]));
    try (intros [? ?]); try lia; subst;
    try (by eexists _, _); try (by eexists _, _, _); try (intros []; lia).
Qed.

(** The condition of [accepts] for records of length [k]. *)
Lemma accepts_intro s recs k :
  Forall (λ vs, length vs = k) recs →
  match s with
  | P41 | P51 => 2 ≤ length recs ∧ columns_used s ≤ k
  | P52 => ¬ (length recs = 1 ∧ k = 1)
  end →
  accepts s recs.
Proof. intros Hall Hk. by exists k. Qed.

Lemma accepts_elim s recs k :
  Forall (λ vs, length vs = k) recs → accepts s recs →
  match s with
  | P41 | P51 => 2 ≤ length recs ∧ columns_used s ≤ k
  | P52 => ¬ (length recs = 1 ∧ k = 1)
  end.
Proof.
  intros Hall (k' & Hall' & Hk').
  destruct recs as [|r recs].
  - destruct s; simpl in *; lia.
  - apply Forall_cons in Hall as [<- _]. apply Forall_cons in Hall' as [<- _].
    done.
Qed.

(** What is left of the load when the script stops: the files as they
    were, and every buffer where it was. *)
Lemma after_load s fs w1 a :
  genfromtxt (input_name s) (delimiter_of s) (skip_header_of s) (boot fs) = (w1, inr a) →
  files (final s fs) = files w1 ∧ heap w1 `prefix_of` heap (final s fs).
Proof.
  intros E. unfold final. rewrite (load_binds s fs w1 a E).
  destruct (keeps_exec grows_around_data (tail (program s))
              (statements_keep_data s) (bind_name "data" a w1)) as [[Hfiles Hheap] _].
  done.
Qed.

(** A script on a file whose records have one length [k]. *)
Lemma run_table s fs text k :
  fs !! input_name s = Some text →
  Forall (λ vs, length vs = k) (records (delimiter_of s) (skip_header_of s) text) →
  globals (final s fs) !! "data"
  = Some (loaded 0 (records (delimiter_of s) (skip_header_of s) text))
  ∧ heap (final s fs) !! 0
    = Some (cell <$> concat (records (delimiter_of s) (skip_header_of s) text))
  ∧ ((outcome s fs = inl IndexError
      ∧ stdout (final s fs)
        = [shape_line s (loaded_shape (records (delimiter_of s) (skip_header_of s) text))]
      ∧ ¬ accepts s (records (delimiter_of s) (skip_header_of s) text))
     ∨ (outcome s fs = inr ()
        ∧ accepts s (records (delimiter_of s) (skip_header_of s) text))).
Proof.
  intros Hfile Hall.
  pose proof (genfromtxt_loaded (delimiter_of s) (input_name s) (skip_header_of s)
                (boot fs) text k Hfile Hall) as E.
  set (recs := records (delimiter_of s) (skip_header_of s) text) in *.
  destruct (run_loaded s fs _ _ E) as [Hdata Hrun].
  { apply loaded_axes. }
  { rewrite stdout_add_event, stdout_add_buffer,
      stdout_add_events, stdout_add_event by apply load_warning_warnings.
    done. }
  destruct (after_load s fs _ _ E) as [_ Hheap].
  split; [exact Hdata|]. split; [by eapply prefix_lookup_Some; [|exact Hheap]|].
  rewrite loaded_shape_eq in Hrun.
  pose proof (indexable_loaded s recs k Hall) as Hiff.
  destruct Hrun as [(Hout & Hprint & Hno)|[Hout Hyes]]; [left|right].
  - split_and!; [done..|]. intros Hacc. apply Hno, Hiff.
    by apply accepts_elim.
  - split; [done|]. eapply accepts_intro; [done|]. by apply Hiff.
Qed.

(** The records of a file are of one length, or the file is ragged. *)
Lemma uniform_or_ragged s text :
  (∃ k, Forall (λ vs, length vs = k) (records (delimiter_of s) (skip_header_of s) text))
  ∨ ragged s text.
Proof.
  unfold ragged.
  destruct (records (delimiter_of s) (skip_header_of s) text) as [|r recs];
    [left; by exists 0|].
  destruct (decide (Forall (λ vs, length vs = length r) recs)) as [Hall|Hall];
    [left|by right].
  exists (length r). by constructor.
Qed.

Lemma ragged_fails s fs text :
  fs !! input_name s = Some text → ragged s text →
  ∃ nbcols invalid,
    run (program s) fs
    = (add_event (EvOpen (input_name s)) (boot fs), inl (ValueError nbcols invalid)).
Proof.
  intros Hfile Hragged. unfold ragged in Hragged.
  destruct (records _ _ text) as [|r recs] eqn:Hrecs; [done|].
  destruct (genfromtxt_ragged (delimiter_of s) (input_name s) (skip_header_of s)
              (boot fs) text Hfile r recs Hrecs Hragged) as (invalid & E).
  exists (length r), invalid. by apply load_fails.
Qed.

Lemma complete_iff s fs :
  outcome s fs = inr () ↔
  ∃ text, fs !! input_name s = Some text
          ∧ accepts s (records (delimiter_of s) (skip_header_of s) text).
Proof.
  split.
  - intros Hout. destruct (fs !! input_name s) as [text|] eqn:Hfile.
    + exists text. split; [done|].
      destruct (uniform_or_ragged s text) as [[k Hall]|Hragged].
      * destruct (run_table s fs text k Hfile Hall)
          as (_ & _ & [(Hout' & _)|[_ Hacc]]); [congruence|done].
      * destruct (ragged_fails s fs text Hfile Hragged) as (nb & inv & E).
        unfold outcome in Hout. by rewrite E in Hout.
    + unfold outcome in Hout.
      rewrite (load_fails s fs (boot fs) (FileNotFoundError (input_name s))) in Hout;
        [done|by apply genfromtxt_missing].
  - intros (text & Hfile & Hacc).
    pose proof Hacc as (k & Hall & _).
    by destruct (run_table s fs text k Hfile Hall)
      as (_ & _ & [(_ & _ & Hno)|[Hout _]]).
Qed.

(** ** How a record is split *)

Section splitting.
Local Open Scope string_scope.

Local Arguments String.append !_ _ / : simpl nomatch.

Lemma join_cons_head sep c f (fields : list string) :
  join sep (String c f :: fields) = String c (join sep (f :: fields)).
Proof. by destruct fields. Qed.

Lemma split_commas b :
  PyStr.split "," b ≠ [] ∧ split_at_commas b (PyStr.split "," b).
Proof.
  unfold split_at_commas, PyStr.split.
  induction b as [|d b (Hne & Hjoin & Hfields)]; [by repeat constructor|].
  cbn [PyStr.split_at]. rewrite prefix_char.
  change (String.length "," - 1) with 0.
  destruct (PyStr.split_at "," 0 b) as [|f fs] eqn:E; [done|].
  destruct (Ascii.eqb "," d) eqn:Hd.
  - apply Ascii.eqb_eq in Hd as <-. split_and!; [done| |by constructor].
    change (join "," ("" :: f :: fs)) with (String "," (join "," (f :: fs))).
    by rewrite <- Hjoin.
  - cbn [PyStr.cons_head]. split_and!; [done| |].
    + by rewrite join_cons_head, <- Hjoin.
    + apply Forall_cons in Hfields as [Hf Hfs]. constructor; [|done].
      cbn [forall_chars]. by rewrite Hd, Hf.
Qed.

Lemma weave_cons_head c f rest :
  weave (String c f) rest = String c (weave f rest).
Proof. by destruct rest as [|[g f'] rest]. Qed.

Lemma split_white_space b :
  match PyStr.split_ws b with
  | [] => white b
  | r => split_at_white_space b r
  end.
Proof.
  unfold split_at_white_space, white.
  induction b as [|c b IH]; [done|].
  cbn [PyStr.split_ws].
  destruct (PyStr.is_space c) eqn:Hc.
  - destruct (PyStr.split_ws b) as [|f fs].
    + cbn [forall_chars]. by rewrite Hc, IH.
    + destruct IH as (lead & f' & rest & trail & Hr & Hb & Hlead & Htrail & Hgaps & Hwords).
      exists (String c lead), f', rest, trail. split_and!; try done.
      * by rewrite Hb.
      * cbn [forall_chars]. by rewrite Hc, Hlead.
  - destruct b as [|c' b'].
    + exists "", (String c ""), [], "". split_and!; try done.
      repeat constructor; [done|]. cbn [forall_chars]. by rewrite Hc.
    + destruct (PyStr.is_space c') eqn:Hc'.
      * destruct (PyStr.split_ws (String c' b')) as [|f fs].
        -- exists "", (String c ""), [], (String c' b'). split_and!; try done.
           repeat constructor; [done|]. cbn [forall_chars]. by rewrite Hc.
        -- destruct IH as (lead & f' & rest & trail & Hr & Hb & Hlead & Htrail & Hgaps & Hwords).
           exists "", (String c ""), ((lead, f') :: rest), trail.
           split_and!; try done.
           ++ cbn [fmap list_fmap snd]. by rewrite Hr.
           ++ cbn [weave String.append]. rewrite Hb.
              by rewrite !append_assoc.
           ++ cbn [fmap list_fmap fst]. constructor; [|done]. split; [|done].
              intros ->. cbn [String.append] in Hb.
              rewrite Hr in Hwords. apply Forall_cons in Hwords as [[Hne Hf'] _].
              destruct f' as [|x f']; [done|].
              rewrite weave_cons_head in Hb. cbn [String.append] in Hb.
              injection Hb as <- _. cbn [forall_chars] in Hf'.
              by rewrite Hc' in Hf'.
           ++ constructor; [|done]. split; [done|].
              cbn [forall_chars]. by rewrite Hc.
      * destruct (PyStr.split_ws (String c' b')) as [|f fs].
        { cbn [forall_chars] in IH. by rewrite Hc' in IH. }
        destruct IH as (lead & f' & rest & trail & Hr & Hb & Hlead & Htrail & Hgaps & Hwords).
        assert (lead = "") as ->.
        { destruct lead as [|x lead]; [done|]. cbn [String.append] in Hb.
          injection Hb as <- _. cbn [forall_chars] in Hlead. by rewrite Hc' in Hlead. }
        cbn [PyStr.cons_head].
        exists "", (String c f'), rest, trail. split_and!; try done.
        -- injection Hr as -> ->. done.
        -- rewrite weave_cons_head. cbn [String.append] in *. by rewrite Hb.
        -- injection Hr as -> ->.
           apply Forall_cons in Hwords as [[Hne Hf'] Hfs].
           constructor; [|done]. split; [done|].
           cbn [forall_chars]. by rewrite Hc, Hf'.
Qed.

Lemma split_line_body delimiter line :
  split_line delimiter line
  = match body line with
    | "" => []
    | b => match delimiter with
           | Some (String _ _ as d) => PyStr.split d b
           | _ => PyStr.split_ws b
           end
    end.
Proof. unfold split_line, body. by destruct (PyStr.strip _ _). Qed.

(** A line has no fields, or its fields are its body split at the
    separator. *)
Lemma split_line_spec s line :
  match split_line (delimiter_of s) line with
  | [] => no_fields s (body line) = true
  | r => no_fields s (body line) = false ∧ split_by s (body line) r
  end.
Proof.
  rewrite split_line_body.
  destruct (body line) as [|c b] eqn:Hb; [by destruct s|].
  destruct s; cbn [delimiter_of split_by no_fields].
  - destruct (split_commas (String c b)) as [Hne Hs].
    by destruct (PyStr.split "," (String c b)).
  - destruct (split_commas (String c b)) as [Hne Hs].
    by destruct (PyStr.split "," (String c b)).
  - pose proof (split_white_space (String c b)) as Hs.
    destruct (PyStr.split_ws (String c b)) as [|f fs]; [done|].
    split; [|done].
    destruct Hs as (lead & f' & rest & trail & Hr & Hbody & Hlead & _ & _ & Hwords).
    apply Forall_cons in Hwords as [[Hne Hf] _].
    apply not_true_is_false. intros Hwhite.
    rewrite Hbody in Hwhite. injection Hr as <- _.
    rewrite !forall_chars_app in Hwhite.
    apply andb_true_iff in Hwhite as [_ Hwhite].
    apply andb_true_iff in Hwhite as [Hwhite _].
    destruct f as [|x f]; [done|]. rewrite weave_cons_head in Hwhite.
    cbn [forall_chars] in Hwhite, Hf.
    apply andb_true_iff in Hwhite as [Hx _].
    apply andb_true_iff in Hf as [Hx' _]. by rewrite Hx in Hx'.
Qed.

End splitting.

(** The records of a text are, in order, the bodies of its lines that
    have fields, each split at the separator. *)
Lemma records_split s text :
  Forall2 (λ line r, split_by s (body line) r)
    (filter (λ line, no_fields s (body line) = false)
       (drop (skip_header_of s) (PyStr.readlines text)))
    (records (delimiter_of s) (skip_header_of s) text).
Proof.
  unfold records.
  induction (drop (skip_header_of s) (PyStr.readlines text)) as [|line lines IH];
    [constructor|].
  rewrite fmap_cons. pose proof (split_line_spec s line) as Hline.
  destruct (split_line (delimiter_of s) line) as [|f fs].
  - rewrite filter_cons_False by (by rewrite Hline).
    by rewrite filter_cons_False by (by intros []).
  - destruct Hline as [Hno Hsplit].
    rewrite !filter_cons_True by done. by constructor.
Qed.

(** C4 (as amended).  DataReader_Problem4.1 and DataReader_Problem5.1
    pass [delimiter=','] and split every record at its commas.
    DataReader_Problem5.2 passes no delimiter: its records are split at
    runs of white space, and a comma is an ordinary character of a field.
    On every file, the records are, in order, the lines after the header
    that have fields, and the fields of each are what is left of its
    line, the text before a comment sign without the blanks at its ends,
    split in this way.  Where the records have one length, the array
    that is loaded holds the floats of these fields. *)
Theorem fields_are_split_at_the_separator (s : script_id) (text : string)
    (fs : gmap string string) :
  fs !! input_name s = Some text →
  Forall2 (λ line r, split_by s (body line) r)
    (filter (λ line, no_fields s (body line) = false)
       (drop (skip_header_of s) (PyStr.readlines text)))
    (records (delimiter_of s) (skip_header_of s) text)
  ∧ ∀ k, Forall (λ r, length r = k) (records (delimiter_of s) (skip_header_of s) text) →
      ∃ a, globals (final s fs) !! "data" = Some a
         ∧ items (heap (final s fs)) a
           = cell <$> concat (records (delimiter_of s) (skip_header_of s) text).
Proof.
  intros Hfile. split; [apply records_split|].
  intros k Hall.
  destruct (run_table s fs text k Hfile Hall) as (Hdata & Hheap & _).
  eexists. split; [exact Hdata|]. by eapply loaded_items.
Qed.

Lemma fields_are_split_at_the_separator_witness :
  ({[ Problem52.fname := decay_two_columns ]} : gmap string string) !! input_name P52
  = Some decay_two_columns
  ∧ (Forall2 (λ line r, split_by P52 (body line) r)
       (filter (λ line, no_fields P52 (body line) = false)
          (drop (skip_header_of P52) (PyStr.readlines decay_two_columns)))
       (records (delimiter_of P52) (skip_header_of P52) decay_two_columns)
     ∧ ∀ k, Forall (λ r, length r = k)
              (records (delimiter_of P52) (skip_header_of P52) decay_two_columns) →
         ∃ a, globals (final P52 {[ Problem52.fname := decay_two_columns ]}) !! "data"
              = Some a
            ∧ items (heap (final P52 {[ Problem52.fname := decay_two_columns ]})) a
              = cell <$> concat (records (delimiter_of P52) (skip_header_of P52)
                                   decay_two_columns)).
Proof.
  assert (Hfile : ({[ Problem52.fname := decay_two_columns ]} : gmap string string)
                  !! input_name P52 = Some decay_two_columns) by reflexivity.
  split; [exact Hfile|].
  exact (fields_are_split_at_the_separator P52 _ _ Hfile).
Defined.

(** The file of the witness: two records of two fields each, split at
    the blanks and the tab; the commas stay in their fields, which are
    no numbers then. *)
Example decay_two_columns_records :
  body (String.append "  0.5   3,5  # second" (String PyStr.LF "")) = "0.5   3,5"
  ∧ records (delimiter_of P52) (skip_header_of P52) decay_two_columns
    = [["1,5"; "2.5"]; ["0.5"; "3,5"]]
  ∧ cell "1,5" = F64 PyFloat.nan
  ∧ stdout (final P52 {[ Problem52.fname := decay_two_columns ]})
    = [[PTuple [2; 2]];
       [PArray [2; 2] [F64 PyFloat.nan; cell "2.5"; cell "0.5"; F64 PyFloat.nan]]].
Proof. split_and!; by vm_compute. Qed.

(** C4 fails as stated for DataReader_Problem5.2: it does not split at
    commas.  A file of two lines [1,2] and [3,4], two by two values when
    read as comma-separated text, is loaded as two fields, neither of
    them a number. *)
Lemma decay_times_are_not_split_at_commas :
  records (Some ",") 0 decay_commas = [["1"; "2"]; ["3"; "4"]]
  ∧ records (delimiter_of P52) (skip_header_of P52) decay_commas = [["1,2"]; ["3,4"]]
  ∧ ∃ a, globals (final P52 {[ Problem52.fname := decay_commas ]}) !! "data" = Some a
       ∧ shape a = [2]
       ∧ items (heap (final P52 {[ Problem52.fname := decay_commas ]})) a
         = [F64 PyFloat.nan; F64 PyFloat.nan].
Proof.
  split_and!; [by vm_compute..|].
  eexists. split_and!; by vm_compute.
Qed.

(** ** Files of any shape *)


(** X2.  A file that is loaded but not accepted: the script prints the
    shape of the array it got, nothing else, and stops with [IndexError]
    at its first index expression that does not fit; [data] stays bound
    to the array. *)
Theorem rejected_after_the_shape_line (s : script_id) (fs : gmap string string)
    (text : string) (k : nat) :
  fs !! input_name s = Some text →
  Forall (λ vs, length vs = k) (records (delimiter_of s) (skip_header_of s) text) →
  ¬ accepts s (records (delimiter_of s) (skip_header_of s) text) →
  outcome s fs = inl IndexError
  ∧ stdout (final s fs)
    = [shape_line s (loaded_shape (records (delimiter_of s) (skip_header_of s) text))]
  ∧ ∃ a, globals (final s fs) !! "data" = Some a
       ∧ shape a = loaded_shape (records (delimiter_of s) (skip_header_of s) text).
Proof.
  intros Hfile Hall Hno.
  destruct (run_table s fs text k Hfile Hall)
    as (Hdata & _ & [(Hout & Hprint & _)|[_ Hacc]]); [|done].
  split_and!; [done..|]. eexists. split; [done|]. apply loaded_shape_eq.
Qed.

Lemma rejected_after_the_shape_line_witness :
  ({[ Problem41.fname := population_two_columns ]} : gmap string string) !! input_name P41
  = Some population_two_columns
  ∧ Forall (λ vs, length vs = 2)
      (records (delimiter_of P41) (skip_header_of P41) population_two_columns)
  ∧ ¬ accepts P41 (records (delimiter_of P41) (skip_header_of P41) population_two_columns)
  ∧ outcome P41 {[ Problem41.fname := population_two_columns ]} = inl IndexError
  ∧ stdout (final P41 {[ Problem41.fname := population_two_columns ]})
    = [shape_line P41 (loaded_shape (records (delimiter_of P41) (skip_header_of P41)
                                       population_two_columns))]
  ∧ ∃ a, globals (final P41 {[ Problem41.fname := population_two_columns ]}) !! "data"
         = Some a
       ∧ shape a = loaded_shape (records (delimiter_of P41) (skip_header_of P41)
                                   population_two_columns).
Proof.
  assert (Hfile : ({[ Problem41.fname := population_two_columns ]} : gmap string string)
                  !! input_name P41 = Some population_two_columns) by reflexivity.
  assert (Hall : Forall (λ vs, length vs = 2)
                   (records (delimiter_of P41) (skip_header_of P41)
                      population_two_columns)).
  { vm_compute. repeat constructor. }
  assert (Hno : ¬ accepts P41 (records (delimiter_of P41) (skip_header_of P41)
                                 population_two_columns)).
  { intros Hacc. apply (accepts_elim _ _ 2 Hall) in Hacc as [_ Hk]. simpl in Hk. lia. }
  split; [exact Hfile|]. split; [exact Hall|]. split; [exact Hno|].
  exact (rejected_after_the_shape_line P41 _ _ 2 Hfile Hall Hno).
Defined.

(** X3.  Whatever the number of records and of fields, as long as the
    records have one length, [data] is bound to an array of the fields'
    floats in row-major order, and still is when the script stops; its
    shape is rows by fields without the axes of length one.  So one
    record of several fields and several records of one field both give
    a one-dimensional array, one record of one field an array without
    axes, and no record the shape (0,). *)
Theorem loaded_array_of_any_table (s : script_id) (fs : gmap string string)
    (text : string) (k : nat) :
  fs !! input_name s = Some text →
  Forall (λ vs, length vs = k) (records (delimiter_of s) (skip_header_of s) text) →
  ∃ a, globals (final s fs) !! "data" = Some a
     ∧ shape a = loaded_shape (records (delimiter_of s) (skip_header_of s) text)
     ∧ items (heap (final s fs)) a
       = cell <$> concat (records (delimiter_of s) (skip_header_of s) text).
Proof.
  intros Hfile Hall.
  destruct (run_table s fs text k Hfile Hall) as (Hdata & Hheap & _).
  eexists. split; [exact Hdata|]. split; [apply loaded_shape_eq|].
  by eapply loaded_items.
Qed.

Lemma loaded_array_of_any_table_witness :
  ({[ Problem52.fname := decay_one_line ]} : gmap string string) !! input_name P52
  = Some decay_one_line
  ∧ Forall (λ vs, length vs = 3)
      (records (delimiter_of P52) (skip_header_of P52) decay_one_line)
  ∧ ∃ a, globals (final P52 {[ Problem52.fname := decay_one_line ]}) !! "data" = Some a
       ∧ shape a = loaded_shape (records (delimiter_of P52) (skip_header_of P52)
                                   decay_one_line)
       ∧ items (heap (final P52 {[ Problem52.fname := decay_one_line ]})) a
         = cell <$> concat (records (delimiter_of P52) (skip_header_of P52)
                              decay_one_line).
Proof.
  assert (Hfile : ({[ Problem52.fname := decay_one_line ]} : gmap string string)
                  !! input_name P52 = Some decay_one_line) by reflexivity.
  assert (Hall : Forall (λ vs, length vs = 3)
                   (records (delimiter_of P52) (skip_header_of P52) decay_one_line)).
  { vm_compute. repeat constructor. }
  split; [exact Hfile|]. split; [exact Hall|].
  exact (loaded_array_of_any_table P52 _ _ 3 Hfile Hall).
Defined.

(** X4.  A file without records (empty, or nothing but the header and
    blank or comment lines): [np.genfromtxt] warns of an empty input and
    returns an array of shape (0,).  DataReader_Problem4.1 and
    DataReader_Problem5.1 print that shape and stop with [IndexError] at
    their first column slice; DataReader_Problem5.2 prints the shape and
    an empty sample, and completes. *)
Theorem run_on_a_file_without_records (s : script_id) (fs : gmap string string)
    (text : string) :
  fs !! input_name s = Some text →
  records (delimiter_of s) (skip_header_of s) text = [] →
  log (final s fs) = empty_run_log s
  ∧ outcome s fs = match s with P41 | P51 => inl IndexError | P52 => inr () end
  ∧ globals (final s fs) = {[ "data" := NDArray 0 0 [0] [1] ]}
  ∧ heap (final s fs) = [[]].
Proof.
  intros Hfile Hrecs. unfold final, outcome, run.
  pose proof (genfromtxt_empty (delimiter_of s) (input_name s) (skip_header_of s)
                (boot fs) text Hfile Hrecs) as E.
  destruct s; simpl in E; unfold program, Problem41.script, Problem51.script,
    Problem52.script.
  - completes ltac:(eapply bind_inr; [exact E | reflexivity]).
    completes ltac:(bound_var; reflexivity).
    raises ltac:(bound_var; apply bind_inl; reflexivity).
    done.
  - completes ltac:(eapply bind_inr; [exact E | reflexivity]).
    completes ltac:(bound_var; reflexivity).
    raises ltac:(bound_var; apply bind_inl; reflexivity).
    done.
  - completes ltac:(eapply bind_inr; [exact E | reflexivity]).
    completes ltac:(bound_var; reflexivity).
    completes ltac:(bound_var; eapply bind_inr; [reflexivity|];
                    eapply bind_inr; reflexivity).
    done.
Qed.

Lemma run_on_a_file_without_records_witness :
  ({[ Problem41.fname := population_header_only ]} : gmap string string) !! input_name P41
  = Some population_header_only
  ∧ records (delimiter_of P41) (skip_header_of P41) population_header_only = []
  ∧ log (final P41 {[ Problem41.fname := population_header_only ]}) = empty_run_log P41
  ∧ outcome P41 {[ Problem41.fname := population_header_only ]} = inl IndexError
  ∧ globals (final P41 {[ Problem41.fname := population_header_only ]})
    = {[ "data" := NDArray 0 0 [0] [1] ]}
  ∧ heap (final P41 {[ Problem41.fname := population_header_only ]}) = [[]].
Proof.
  assert (Hfile : ({[ Problem41.fname := population_header_only ]} : gmap string string)
                  !! input_name P41 = Some population_header_only) by reflexivity.
  assert (Hrecs : records (delimiter_of P41) (skip_header_of P41) population_header_only
                  = []) by (by vm_compute).
  split; [exact Hfile|]. split; [exact Hrecs|].
  exact (run_on_a_file_without_records P41 _ _ Hfile Hrecs).
Defined.

(** X5.  A file with a single record: the row axis is dropped, so
    DataReader_Problem4.1 and DataReader_Problem5.1 get a one-dimensional
    array of the record's fields (none, for a single field), print its
    shape and stop with [IndexError] at the first column slice, however
    many fields the record has. *)
Theorem single_record_is_rejected (s : script_id) (fs : gmap string string)
    (text : string) (r : list string) :
  s ≠ P52 →
  fs !! input_name s = Some text →
  records (delimiter_of s) (skip_header_of s) text = [r] →
  outcome s fs = inl IndexError
  ∧ stdout (final s fs) = [shape_line s (filter (λ n, n ≠ 1) [length r])]
  ∧ ∃ a, globals (final s fs) !! "data" = Some a
       ∧ shape a = filter (λ n, n ≠ 1) [length r]
       ∧ items (heap (final s fs)) a = cell <$> r.
Proof.
  intros Hs Hfile Hrecs.
  assert (Hall : Forall (λ vs, length vs = length r)
                   (records (delimiter_of s) (skip_header_of s) text)).
  { rewrite Hrecs. by repeat constructor. }
  assert (Hsh : loaded_shape [r] = filter (λ n, n ≠ 1) [length r]).
  { unfold loaded_shape. by rewrite filter_cons_False by (simpl; intros []; done). }
  destruct (run_table s fs text _ Hfile Hall) as (Hdata & Hheap & Hrun).
  rewrite Hrecs, ?Hsh in *.
  destruct Hrun as [(Hout & Hprint & _)|[_ Hacc]].
  - split_and!; [done..|]. eexists. split; [exact Hdata|].
    split; [by rewrite loaded_shape_eq|].
    rewrite (loaded_items _ _ _ (length r)); [|done..].
    simpl. by rewrite app_nil_r.
  - apply (accepts_elim _ _ (length r)) in Hacc; [|done].
    destruct s; simpl in Hacc; try done; lia.
Qed.

Lemma single_record_is_rejected_witness :
  P41 ≠ P52
  ∧ ({[ Problem41.fname := population_one_record ]} : gmap string string) !! input_name P41
    = Some population_one_record
  ∧ records (delimiter_of P41) (skip_header_of P41) population_one_record
    = [["1960"; "445954579"; "667070000"]]
  ∧ outcome P41 {[ Problem41.fname := population_one_record ]} = inl IndexError
  ∧ stdout (final P41 {[ Problem41.fname := population_one_record ]})
    = [shape_line P41 (filter (λ n, n ≠ 1) [length ["1960"; "445954579"; "667070000"]])]
  ∧ ∃ a, globals (final P41 {[ Problem41.fname := population_one_record ]}) !! "data"
         = Some a
       ∧ shape a = filter (λ n, n ≠ 1) [length ["1960"; "445954579"; "667070000"]]
       ∧ items (heap (final P41 {[ Problem41.fname := population_one_record ]})) a
         = cell <$> ["1960"; "445954579"; "667070000"].
Proof.
  assert (Hs : P41 ≠ P52) by done.
  assert (Hfile : ({[ Problem41.fname := population_one_record ]} : gmap string string)
                  !! input_name P41 = Some population_one_record) by reflexivity.
  assert (Hrecs : records (delimiter_of P41) (skip_header_of P41) population_one_record
                  = [["1960"; "445954579"; "667070000"]]) by (by vm_compute).
  split; [exact Hs|]. split; [exact Hfile|]. split; [exact Hrecs|].
  exact (single_record_is_rejected P41 _ _ _ Hs Hfile Hrecs).
Defined.

(** ** Tables with more columns than a script takes *)

Lemma loaded_table b recs k :
  2 ≤ length recs → Forall (λ vs, length vs = k) recs → k ≠ 1 →
  loaded b recs = NDArray b 0 [length recs; k] [k; 1].
Proof.
  intros Hn Hall Hk. destruct recs as [|r recs]; [simpl in Hn; lia|].
  apply Forall_cons in Hall as [Hr _]. unfold loaded. rewrite Hr.
  apply squeeze_table; [simpl in *; lia|done].
Qed.

Lemma load_warning_nil fname recs : 1 ≤ length recs → load_warning fname recs = [].
Proof. destruct recs; [simpl; lia|done]. Qed.

Lemma run_wide_P41 fs text k :
  fs !! Problem41.fname = Some text →
  let recs := records (Some ",") 1 text in
  let n := length recs in
  2 ≤ n → Forall (λ vs, length vs = k) recs → 3 ≤ k →
  run Problem41.script fs
  = ({| files := fs;
        heap := [cell <$> concat recs];
        globals :=
          <["PopChina" := NDArray 0 2 [n] [k]]>
            (<["PopIndia" := NDArray 0 1 [n] [k]]>
               (<["year" := NDArray 0 0 [n] [k]]>
                  (<["data" := NDArray 0 0 [n; k] [k; 1]]> ∅)));
        log :=
          [EvOpen Problem41.fname; EvParse Problem41.fname;
           EvPrint [PTuple [n; k]];
           EvSlice; EvSlice; EvSlice;
           EvPrint [PArray [n] (abbreviate (column 0 recs))];
           EvPrint [PArray [n] (abbreviate (column 1 recs))];
           EvPrint [PArray [n] (abbreviate (column 2 recs))]] |},
     inr ()).
Proof.
  intros Hfile recs n Hn Hall Hk.
  unfold run, Problem41.script.
  rewrite exec_cons. unfold mbind at 1, M_bind at 1.
  rewrite (genfromtxt_loaded (Some ",") Problem41.fname 1 (boot fs) text k Hfile Hall).
  fold recs. rewrite (loaded_table _ recs k), load_warning_nil by (done || lia).
  fold n. unfold assign at 1. clearbody recs. subst n. clear Hfile.
  assert (Hbuf : ∀ j, j < k →
            holds [cell <$> concat recs] (NDArray 0 (0 + (j * 1 + 0)) [length recs] [k])
              (column j recs)).
  { intros j Hj. by apply holds_column. }
  assert (Hcol : ∀ j, length (column j recs) = length recs).
  { intros j. unfold column. by rewrite length_fmap. }
  assert (Hlt : ∀ j, j < 3 → (j <? k) = true).
  { intros j Hj. apply Nat.ltb_lt. lia. }
  simpl exec.
  next_stmt. { bound_var. reflexivity. }
  next_stmt.
  { bound_var. next_stmt; [|reflexivity].
    unfold getitem. simpl. rewrite (Hlt 0) by lia. reflexivity. }
  next_stmt.
  { bound_var. next_stmt; [|reflexivity].
    unfold getitem. simpl. rewrite (Hlt 1) by lia. reflexivity. }
  next_stmt.
  { bound_var. next_stmt; [|reflexivity].
    unfold getitem. simpl. rewrite (Hlt 2) by lia. reflexivity. }
  next_stmt.
  { bound_var. next_stmt; [apply display_holds, (Hbuf 0); lia | reflexivity]. }
  next_stmt.
  { bound_var. next_stmt; [apply display_holds, (Hbuf 1); lia | reflexivity]. }
  next_stmt.
  { bound_var. next_stmt; [apply display_holds, (Hbuf 2); lia | reflexivity]. }
  rewrite !Hcol. done.
Qed.

Lemma run_wide_P51 fs text k :
  fs !! Problem51.fname = Some text →
  let recs := records (Some ",") 1 text in
  let n := length recs in
  let index := cast_int <$> column 0 recs in
  let type := cast_int <$> column 4 recs in
  2 ≤ n → Forall (λ vs, length vs = k) recs → 5 ≤ k →
  run Problem51.script fs
  = ({| files := fs;
        heap := [cell <$> concat recs; index; type];
        globals :=
          <["type" := NDArray 2 0 [n] [1]]>
            (<["freq" := NDArray 0 3 [n] [k]]>
               (<["R" := NDArray 0 2 [n] [k]]>
                  (<["P" := NDArray 0 1 [n] [k]]>
                     (<["index" := NDArray 1 0 [n] [1]]>
                        (<["data" := NDArray 0 0 [n; k] [k; 1]]> ∅)))));
        log :=
          [EvOpen Problem51.fname; EvParse Problem51.fname;
           EvPrint [PStr "  Shape of data: "; PTuple [n; k]];
           EvSlice]
          ++ cast_warning (column 0 recs)
          ++ [EvAstype; EvSlice; EvSlice; EvSlice; EvSlice]
          ++ cast_warning (column 4 recs)
          ++ [EvAstype;
              EvSlice; EvPrint [PArray [3 `min` n] (take 3 index)];
              EvSlice; EvPrint [PArray [3 `min` n] (take 3 (column 1 recs))];
              EvSlice; EvPrint [PArray [3 `min` n] (take 3 (column 2 recs))];
              EvSlice; EvPrint [PArray [3 `min` n] (take 3 (column 3 recs))];
              EvSlice; EvPrint [PArray [3 `min` n] (take 3 type)]] |},
     inr ()).
Proof.
  intros Hfile recs n index type Hn Hall Hk.
  unfold run, Problem51.script.
  rewrite exec_cons. unfold mbind at 1, M_bind at 1.
  rewrite (genfromtxt_loaded (Some ",") Problem51.fname 1 (boot fs) text k Hfile Hall).
  fold recs. rewrite (loaded_table _ recs k), load_warning_nil by (done || lia).
  fold n. unfold assign at 1. subst index type. clearbody recs. subst n. clear Hfile.
  assert (Hcol : ∀ j, length (column j recs) = length recs).
  { intros j. unfold column. by rewrite length_fmap. }
  assert (Hbuf : ∀ j h', j < k →
            holds ([cell <$> concat recs] ++ h')
              (NDArray 0 (0 + (j * 1 + 0)) [length recs] [k]) (column j recs)).
  { intros j h' Hj. by apply holds_mono, holds_column. }
  assert (Hindex : ∀ h',
            holds ([cell <$> concat recs; cast_int <$> column 0 recs] ++ h')
              (NDArray 1 0 [length recs] [1]) (cast_int <$> column 0 recs)).
  { intros h'. apply holds_mono. rewrite <- (Hcol 0), <- (length_fmap cast_int).
    by apply holds_buffer. }
  assert (Htype : ∀ ints,
            holds [cell <$> concat recs; ints; cast_int <$> column 4 recs]
              (NDArray 2 0 [length recs] [1]) (cast_int <$> column 4 recs)).
  { intros h'. rewrite <- (Hcol 4), <- (length_fmap cast_int).
    by apply holds_buffer. }
  assert (Hlt : ∀ j, j < 5 → (j <? k) = true).
  { intros j Hj. apply Nat.ltb_lt. lia. }
  assert (Hget : ∀ j w, j < 5 →
            getitem (NDArray 0 0 [length recs; k] [k; 1]) [Full; At j] w
            = (add_event EvSlice w,
               inr (NDArray 0 (0 + (j * 1 + 0)) [length recs] [k]))).
  { intros j w Hj. unfold getitem. simpl. by rewrite (Hlt j). }
  simpl exec.
  next_stmt. { bound_var. reflexivity. }
  next_stmt.
  { bound_var. next_stmt; [apply (Hget 0); lia|].
    next_stmt; [apply astype_holds, (Hbuf 0 []); lia | reflexivity]. }
  next_stmt. { bound_var. next_stmt; [apply (Hget 1); lia|reflexivity]. }
  next_stmt. { bound_var. next_stmt; [apply (Hget 2); lia|reflexivity]. }
  next_stmt. { bound_var. next_stmt; [apply (Hget 3); lia|reflexivity]. }
  next_stmt.
  { bound_var. next_stmt; [apply (Hget 4); lia|].
    next_stmt; [apply astype_holds, (Hbuf 4 [_]); lia | reflexivity]. }
  next_stmt.
  { bound_var. next_stmt; [by apply getitem_upto|].
    next_stmt; [|reflexivity].
    apply display_holds, (holds_take _ _ _ 3 _ (Hindex [_])).
    by rewrite length_fmap. }
  next_stmt.
  { bound_var. next_stmt; [by apply getitem_upto|].
    next_stmt; [|reflexivity].
    by apply display_holds, (holds_take _ _ _ 3 _ (Hbuf 1 [_; _] ltac:(lia))). }
  next_stmt.
  { bound_var. next_stmt; [by apply getitem_upto|].
    next_stmt; [|reflexivity].
    by apply display_holds, (holds_take _ _ _ 3 _ (Hbuf 2 [_; _] ltac:(lia))). }
  next_stmt.
  { bound_var. next_stmt; [by apply getitem_upto|].
    next_stmt; [|reflexivity].
    by apply display_holds, (holds_take _ _ _ 3 _ (Hbuf 3 [_; _] ltac:(lia))). }
  next_stmt.
  { bound_var. next_stmt; [by apply getitem_upto|].
    next_stmt; [|reflexivity].
    apply display_holds, (holds_take _ _ _ 3 _ (Htype _)).
    by rewrite length_fmap. }
  rewrite !abbreviate_small by (rewrite length_take; unfold threshold; lia).
  rewrite !length_take, !length_fmap, !Hcol.
  unfold mret, M_ret. f_equal. apply world_eq; [reflexivity..|].
  repeat first [ rewrite log_add_event | rewrite log_bind_name
               | rewrite log_add_buffer | rewrite log_add_events ].
  rewrite <- !(assoc_L (++)). reflexivity.
Qed.

(** X6.  A table with more columns than a script takes is accepted, and
    the further columns are ignored: the shape line shows all [k]
    columns, the lines after it are those of the columns the script
    names. *)
Theorem extra_columns_are_ignored (s : script_id) (fs : gmap string string)
    (text : string) (k : nat) :
  s ≠ P52 →
  fs !! input_name s = Some text →
  2 ≤ length (records (delimiter_of s) (skip_header_of s) text) →
  Forall (λ vs, length vs = k) (records (delimiter_of s) (skip_header_of s) text) →
  columns_used s ≤ k →
  outcome s fs = inr ()
  ∧ stdout (final s fs)
    = shape_line s [length (records (delimiter_of s) (skip_header_of s) text); k]
      :: tail (printed s (records (delimiter_of s) (skip_header_of s) text)).
Proof.
  intros Hs Hfile Hn Hall Hk. unfold outcome, final, stdout.
  destruct s; [| |done]; simpl in Hfile, Hn, Hall, Hk;
    cbn [program delimiter_of skip_header_of].
  - by rewrite (run_wide_P41 fs text k Hfile Hn Hall Hk).
  - rewrite (run_wide_P51 fs text k Hfile Hn Hall Hk). cbn [fst snd log].
    by rewrite !omap_app, !stdout_cast_warning.
Qed.

Lemma extra_columns_are_ignored_witness :
  P41 ≠ P52
  ∧ ({[ Problem41.fname := population_four_columns ]} : gmap string string)
    !! input_name P41 = Some population_four_columns
  ∧ 2 ≤ length (records (delimiter_of P41) (skip_header_of P41) population_four_columns)
  ∧ Forall (λ vs, length vs = 4)
      (records (delimiter_of P41) (skip_header_of P41) population_four_columns)
  ∧ columns_used P41 ≤ 4
  ∧ outcome P41 {[ Problem41.fname := population_four_columns ]} = inr ()
  ∧ stdout (final P41 {[ Problem41.fname := population_four_columns ]})
    = shape_line P41
        [length (records (delimiter_of P41) (skip_header_of P41)
                   population_four_columns); 4]
      :: tail (printed P41 (records (delimiter_of P41) (skip_header_of P41)
                              population_four_columns)).
Proof.
  assert (Hs : P41 ≠ P52) by done.
  assert (Hfile : ({[ Problem41.fname := population_four_columns ]} : gmap string string)
                  !! input_name P41 = Some population_four_columns) by reflexivity.
  assert (Hn : 2 ≤ length (records (delimiter_of P41) (skip_header_of P41)
                             population_four_columns)) by (vm_compute; lia).
  assert (Hall : Forall (λ vs, length vs = 4)
                   (records (delimiter_of P41) (skip_header_of P41)
                      population_four_columns)).
  { vm_compute. repeat constructor. }
  assert (Hk : columns_used P41 ≤ 4) by (simpl; lia).
  split; [exact Hs|]. split; [exact Hfile|]. split; [exact Hn|].
  split; [exact Hall|]. split; [exact Hk|].
  exact (extra_columns_are_ignored P41 _ _ 4 Hs Hfile Hn Hall Hk).
Defined.

(** ** What a run reads of its file *)

Section blind.

Ltac blind_step :=
  intros w1 w2 (Hh & Hg & Hl); unfold same_memory; simpl;
  rewrite ?Hh, ?Hg, ?Hl; repeat split; try done.

Lemma blind_ret {A} (x : A) : blind (mret x).
Proof. by intros w1 w2 H. Qed.

Lemma blind_raise {A} (e : exn) : blind (raise (A := A) e).
Proof. by intros w1 w2 H. Qed.

Lemma blind_bind {A B} (m : M A) (f : A → M B) :
  blind m → (∀ x, blind (f x)) → blind (m ≫= f).
Proof.
  intros Hm Hf w1 w2 Hw. unfold mbind, M_bind.
  destruct (Hm w1 w2 Hw) as [Hw' Hr].
  destruct (m w1) as [w1' [e|x]], (m w2) as [w2' r2]; simpl in Hr; subst r2;
    [done|]. by apply Hf.
Qed.

Lemma blind_emit e : blind (emit e).
Proof. blind_step. Qed.

Lemma blind_alloc buf : blind (alloc buf).
Proof. blind_step. Qed.

Lemma blind_assign x a : blind (assign x a).
Proof. blind_step. Qed.

Lemma blind_var x : blind (var x).
Proof.
  intros w1 w2 (Hh & Hg & Hl). unfold var. rewrite Hg.
  by destruct (globals w2 !! x).
Qed.

Lemma blind_read a : blind (read a).
Proof. blind_step. Qed.

Lemma blind_display a : blind (display a).
Proof. blind_step. Qed.

Lemma blind_getitem a idx : blind (getitem a idx).
Proof.
  unfold getitem. destruct (index_axes _ _ _) as [[[off sh] st]|];
    [|apply blind_raise].
  apply blind_bind; [apply blind_emit|intros; apply blind_ret].
Qed.

Lemma blind_astype a : blind (astype_int a).
Proof.
  unfold astype_int.
  apply blind_bind; [apply blind_read|intros xs].
  apply blind_bind; [|intros _].
  { destruct (forallb cast_valid xs); [apply blind_ret|apply blind_emit]. }
  apply blind_bind; [apply blind_alloc|intros l].
  apply blind_bind; [apply blind_emit|intros; apply blind_ret].
Qed.

Lemma blind_exec (prog : list stmt) : Forall blind prog → blind (exec prog).
Proof.
  induction 1 as [|s prog Hs _ IH]; [apply blind_ret|].
  apply blind_bind; auto.
Qed.

End blind.

Create HintDb blind discriminated.

#[global] Hint Resolve blind_ret blind_raise blind_emit blind_alloc blind_assign
  blind_var blind_read blind_display blind_getitem blind_astype : blind.

Ltac blind_stmt :=
  repeat first
    [ solve [eauto with blind]
    | unfold print; apply blind_emit
    | apply blind_bind; [|intros ?] ].

(** After the load no statement reads a file. *)
Lemma statements_blind s : Forall blind (tail (program s)).
Proof.
  destruct s; simpl; repeat first [apply Forall_nil_2 | apply Forall_cons_2];
    blind_stmt.
Qed.

Lemma same_memory_boot fs1 fs2 : same_memory (boot fs1) (boot fs2).
Proof. done. Qed.

Lemma same_memory_add_event e w1 w2 :
  same_memory w1 w2 → same_memory (add_event e w1) (add_event e w2).
Proof. intros (Hh & Hg & Hl). unfold same_memory. simpl. by rewrite Hh, Hg, Hl. Qed.

Lemma open_bind {B} fname (f : string → M B) w text :
  files w !! fname = Some text →
  (open fname ≫= f) w = f text (add_event (EvOpen fname) w).
Proof. intros Hfile. unfold mbind, M_bind, open. by rewrite Hfile. Qed.

(** [np.genfromtxt] reads of its file the lines after the header, and
    nothing else. *)
Lemma genfromtxt_lines fname delimiter skip_header w1 w2 t1 t2 :
  files w1 !! fname = Some t1 → files w2 !! fname = Some t2 →
  drop skip_header (PyStr.readlines t1) = drop skip_header (PyStr.readlines t2) →
  same_memory w1 w2 →
  same_memory (genfromtxt fname delimiter skip_header w1).1
              (genfromtxt fname delimiter skip_header w2).1
  ∧ (genfromtxt fname delimiter skip_header w1).2
    = (genfromtxt fname delimiter skip_header w2).2.
Proof.
  intros Hf1 Hf2 Hlines Hw. unfold genfromtxt.
  rewrite (open_bind _ _ w1 t1 Hf1), (open_bind _ _ w2 t2 Hf2). cbv beta.
  rewrite Hlines.
  match goal with |- same_memory (?K ?a).1 (?K ?b).1 ∧ _ =>
    cut (blind K); [intros HK; by apply HK, same_memory_add_event|] end.
  apply blind_bind; [|intros [[first_line first_values] fhd']].
  { destruct (first_valid _ _); [apply blind_ret|].
    apply blind_bind; [apply blind_emit|intros; apply blind_ret]. }
  destruct (parse_lines _ _ _ _ _) as [rows [|bad invalid]];
    [|apply blind_raise].
  unfold np_array.
  apply blind_bind; [|intros output].
  { apply blind_bind; [apply blind_alloc|intros; apply blind_ret]. }
  apply blind_bind; [apply blind_emit|intros; apply blind_ret].
Qed.

(** Two runs whose loads agree go on the same way. *)
Lemma runs_agree s fs1 fs2 w1 w2 a :
  genfromtxt (input_name s) (delimiter_of s) (skip_header_of s) (boot fs1) = (w1, inr a) →
  genfromtxt (input_name s) (delimiter_of s) (skip_header_of s) (boot fs2) = (w2, inr a) →
  same_memory w1 w2 →
  same_memory (final s fs1) (final s fs2) ∧ outcome s fs1 = outcome s fs2.
Proof.
  intros E1 E2 (Hh & Hg & Hl). unfold final, outcome.
  rewrite (load_binds s fs1 w1 a E1), (load_binds s fs2 w2 a E2).
  apply (blind_exec (tail (program s)) (statements_blind s)).
  unfold same_memory. simpl. by rewrite Hh, Hg, Hl.
Qed.

Lemma same_outcome_refl o : same_outcome o o.
Proof. by destruct o as [[]|]. Qed.

(** Two files with the same lines after the header give the same run. *)
Lemma same_lines_same_run s fs1 fs2 t1 t2 :
  fs1 !! input_name s = Some t1 → fs2 !! input_name s = Some t2 →
  drop (skip_header_of s) (PyStr.readlines t1)
  = drop (skip_header_of s) (PyStr.readlines t2) →
  same_memory (final s fs1) (final s fs2) ∧ outcome s fs1 = outcome s fs2.
Proof.
  intros Hf1 Hf2 Hlines.
  destruct (genfromtxt_lines (input_name s) (delimiter_of s) (skip_header_of s)
              (boot fs1) (boot fs2) t1 t2 Hf1 Hf2 Hlines (same_memory_boot _ _))
    as [Hw Hr].
  destruct (genfromtxt _ _ _ (boot fs1)) as [w1 [e1|a1]] eqn:E1,
           (genfromtxt _ _ _ (boot fs2)) as [w2 [e2|a2]] eqn:E2;
    simpl in Hw, Hr; try done.
  - injection Hr as ->. unfold final, outcome.
    by rewrite (load_fails s fs1 w1 e2 E1), (load_fails s fs2 w2 e2 E2).
  - injection Hr as ->. by eapply runs_agree.
Qed.

(** Two files with the same records give the same run, up to the lines a
    [ValueError] lists. *)
Lemma same_records_same_run s fs1 fs2 t1 t2 :
  fs1 !! input_name s = Some t1 → fs2 !! input_name s = Some t2 →
  records (delimiter_of s) (skip_header_of s) t1
  = records (delimiter_of s) (skip_header_of s) t2 →
  same_memory (final s fs1) (final s fs2)
  ∧ same_outcome (outcome s fs1) (outcome s fs2).
Proof.
  intros Hf1 Hf2 Hrecs.
  destruct (uniform_or_ragged s t1) as [[k Hall]|Hragged].
  - pose proof (genfromtxt_loaded (delimiter_of s) (input_name s) (skip_header_of s)
                  (boot fs1) t1 k Hf1 Hall) as E1.
    rewrite Hrecs in Hall.
    pose proof (genfromtxt_loaded (delimiter_of s) (input_name s) (skip_header_of s)
                  (boot fs2) t2 k Hf2 Hall) as E2.
    rewrite <- Hrecs in E2.
    destruct (runs_agree s fs1 fs2 _ _ _ E1 E2) as [Hw Ho]; [done|].
    split; [done|]. rewrite Ho. apply same_outcome_refl.
  - assert (Hragged' : ragged s t2) by (unfold ragged in *; by rewrite <- Hrecs).
    unfold ragged in Hragged, Hragged'.
    destruct (records _ _ t1) as [|r recs] eqn:Hr1; [done|].
    destruct (records _ _ t2) as [|r' recs'] eqn:Hr2; [done|].
    injection Hrecs as <- <-.
    destruct (genfromtxt_ragged (delimiter_of s) (input_name s) (skip_header_of s)
                (boot fs1) t1 Hf1 r recs Hr1 Hragged) as (inv1 & E1).
    destruct (genfromtxt_ragged (delimiter_of s) (input_name s) (skip_header_of s)
                (boot fs2) t2 Hf2 r recs Hr2 Hragged') as (inv2 & E2).
    unfold final, outcome.
    by rewrite (load_fails s fs1 _ _ E1), (load_fails s fs2 _ _ E2).
Qed.

(** ** The text of a file *)

Section text.
Local Open Scope string_scope.
Implicit Types (s t : string) (c : ascii) (p : ascii → bool).

Local Arguments String.append !_ _ / : simpl nomatch.

Lemma universal_newlines_line h rest :
  forall_chars no_line_end h = true →
  PyStr.universal_newlines (h ++ String PyStr.LF rest)
  = h ++ String PyStr.LF (PyStr.universal_newlines rest).
Proof.
  induction h as [|c h IH]; [done|].
  cbn [forall_chars String.append PyStr.universal_newlines].
  unfold no_line_end at 1. rewrite !andb_true_iff, !negb_true_iff.
  intros [[-> _] Hh]. by rewrite IH.
Qed.

Lemma readlines_line h rest :
  forall_chars no_line_end h = true →
  PyStr.readlines (h ++ String PyStr.LF rest)
  = (h ++ String PyStr.LF "") :: PyStr.readlines rest.
Proof.
  intros Hh. unfold PyStr.readlines.
  rewrite universal_newlines_line, lines_of_app; [done| |done].
  eapply forall_chars_impl; [|done]. intros c. unfold no_line_end.
  rewrite andb_true_iff. by intros [_ ?].
Qed.

Lemma universal_newlines_crlf t :
  forall_chars (λ c, negb (Ascii.eqb c PyStr.CR)) t = true →
  PyStr.universal_newlines (crlf t) = t.
Proof.
  induction t as [|c t IH]; [done|].
  cbn [forall_chars crlf]. rewrite andb_true_iff, negb_true_iff.
  intros [Hc Ht]. destruct (Ascii.eqb_spec c PyStr.LF) as [->|Hlf].
  - cbn [PyStr.universal_newlines]. rewrite IH by done. reflexivity.
  - cbn [PyStr.universal_newlines]. rewrite Hc. by rewrite IH.
Qed.

Lemma lstrip_all p t : forall_chars p t = true → PyStr.lstrip p t = "".
Proof.
  induction t as [|c t IH]; [done|]. cbn [forall_chars PyStr.lstrip].
  rewrite andb_true_iff. intros [-> Ht]. auto.
Qed.

Lemma rstrip_tail p s t :
  forall_chars p t = true → PyStr.rstrip p (s ++ t) = PyStr.rstrip p s.
Proof.
  revert s. induction t as [|b t IH]; intros s; [by rewrite append_nil_r|].
  cbn [forall_chars]. rewrite andb_true_iff. intros [Hb Ht].
  change (String b t) with (String b "" ++ t).
  rewrite <- append_assoc, IH by done. by apply rstrip_app_blank.
Qed.

(** Stripping what follows the body of a line. *)
Lemma strip_tail p x t :
  forall_chars p t = true →
  x = "" ∨ (∃ c rest, x = String c rest ∧ p c = false) ∧ PyStr.rstrip p x = x →
  PyStr.strip p (x ++ t) = x.
Proof.
  intros Ht [->|[(c & rest & -> & Hc) Hx]]; unfold PyStr.strip.
  - cbn [String.append]. by rewrite lstrip_all.
  - cbn [String.append PyStr.lstrip]. rewrite Hc.
    change (String c (rest ++ t)) with (String c rest ++ t).
    by rewrite rstrip_tail.
Qed.

Lemma forall_chars_spaces p n : p " "%char = true → forall_chars p (spaces n) = true.
Proof. intros Hp. induction n as [|n IH]; [done|]. simpl. by rewrite Hp. Qed.

End text.

Section entries.
Local Open Scope string_scope.

Local Arguments String.append !_ _ / : simpl nomatch.

(** The body of a data line is split into its fields. *)
Lemma split_body s (r : list string) :
  r ≠ [] → Forall (plain s) r →
  match join (separator s) r with
  | "" => []
  | _ =>
      match delimiter_of s with
      | Some (String _ _ as d) => PyStr.split d (join (separator s) r)
      | _ => PyStr.split_ws (join (separator s) r)
      end
  end = r.
Proof.
  intros Hne Hr.
  pose proof (join_nonempty s r Hne Hr) as Hline.
  destruct (join (separator s) r) as [|c line] eqn:E; [done|]. rewrite <- E.
  destruct s; cbn [delimiter_of separator] in *.
  - apply split_join; [done|]. eapply plain_fields_chars; [|done].
    intros d Hd. by destruct (plain_char_spec P41 d Hd) as (_ & _ & _ & ?).
  - apply split_join; [done|]. eapply plain_fields_chars; [|done].
    intros d Hd. by destruct (plain_char_spec P51 d Hd) as (_ & _ & _ & ?).
  - apply split_ws_join. eapply plain_fields_nonempty; [|done].
    intros d Hd. by destruct (plain_char_spec P52 d Hd) as (_ & _ & _ & ?).
Qed.

Lemma body_no_comment s r :
  match r with None => True | Some r => r ≠ [] ∧ Forall (plain s) r end →
  forall_chars (λ d, negb (Ascii.eqb "#" d)) (body_of s r) = true.
Proof.
  destruct r as [r|]; [|done]. intros [_ Hr]. simpl.
  apply forall_chars_join; [by destruct s|].
  eapply plain_fields_chars; [|done]. intros c Hc.
  by destruct (plain_char_spec s c Hc) as (_ & ? & _).
Qed.

Lemma body_stripped s r :
  match r with None => True | Some r => r ≠ [] ∧ Forall (plain s) r end →
  body_of s r = ""
  ∨ (∃ c rest, body_of s r = String c rest ∧ PyStr.mem c blanks = false)
    ∧ PyStr.rstrip (λ c, PyStr.mem c blanks) (body_of s r) = body_of s r.
Proof.
  destruct r as [r|]; [|by left]. intros [Hne Hr]. right. simpl.
  split.
  - destruct r as [|f r]; [done|].
    pose proof Hr as [[Hf Hchars] _]%Forall_cons.
    destruct (join_head (separator s) f r Hf) as (c & rest & -> & E).
    eexists _, _. split; [exact E|].
    simpl in Hchars. apply andb_true_iff in Hchars as [Hc _].
    destruct (plain_char_spec s c Hc) as (Hb & _). by apply negb_true_iff.
  - apply rstrip_join. eapply plain_fields_nonempty; [|done].
    intros c Hc. by destruct (plain_char_spec s c Hc) as (? & _).
Qed.

(** What [np.genfromtxt] takes from a line of an annotated file. *)
Lemma split_line_entry s e :
  well_written s e →
  split_line (delimiter_of s) (entry_line s e ++ String PyStr.LF "")
  = from_option id [] (row e).
Proof.
  destruct e as [r n t]. unfold well_written, entry_line, trailer.
  cbn [row pad note]. intros [Ht Hr].
  fold (body_of s r).
  pose proof (body_no_comment s r Hr) as Hhash.
  pose proof (body_stripped s r Hr) as Hbody.
  assert (Hsp : ∀ p, p " "%char = true → forall_chars p (spaces n) = true)
    by (intros; by apply forall_chars_spaces).
  assert (Hstrip : PyStr.strip (λ c, PyStr.mem c blanks)
                     (hd "" (PyStr.split comments
                               ((body_of s r ++ spaces n
                                 ++ match t with None => "" | Some t => String "#" t end)
                                ++ String PyStr.LF "")))
                   = body_of s r).
  { unfold comments. destruct t as [t|].
    - replace ((body_of s r ++ spaces n ++ String "#" t) ++ String PyStr.LF "")
        with ((body_of s r ++ spaces n) ++ String "#" (t ++ String PyStr.LF ""))
        by (by rewrite !append_assoc).
      rewrite split_app; cycle 1.
      { rewrite forall_chars_app, Hhash. by apply Hsp. }
      cbn [hd]. apply strip_tail; [by apply Hsp|done].
    - rewrite split_none; cycle 1.
      { rewrite !forall_chars_app, Hhash, Hsp by done. done. }
      cbn [hd]. rewrite append_assoc. apply strip_tail; [|done].
      rewrite !forall_chars_app, Hsp by done. done. }
  unfold split_line. rewrite Hstrip.
  destruct r as [r|]; [|done]. destruct Hr as [Hne Hr].
  by apply split_body.
Qed.

End entries.

(** The records of an annotated file are its rows. *)
Lemma records_annotated s header (es : list entry) :
  forall_chars no_line_end header = true →
  Forall (well_written s) es →
  records (delimiter_of s) (skip_header_of s) (annotated s header es) = omap row es.
Proof.
  intros Hheader Hes. unfold records, annotated.
  rewrite readlines_unlines; cycle 1.
  { apply Forall_app. split; [by apply Forall_replicate|].
    apply Forall_fmap. eapply Forall_impl; [exact Hes|].
    intros [r n t] [Ht Hr]. unfold entry_line, trailer. simpl in *.
    rewrite !forall_chars_app. apply andb_true_iff. split.
    - destruct r as [r|]; [|done]. destruct Hr as [_ Hr].
      apply forall_chars_join; [apply separator_chars; by destruct s|].
      eapply plain_fields_chars; [|done]. intros c Hc.
      by destruct (plain_char_spec s c Hc) as (_ & _ & ? & _).
    - rewrite forall_chars_spaces by done. by destruct t. }
  rewrite fmap_app, drop_app_length'
    by (by rewrite length_fmap, length_replicate).
  rewrite <- !list_fmap_compose.
  induction Hes as [|e es He _ IH]; [done|].
  csimpl. rewrite split_line_entry by done.
  destruct (row e) as [r|] eqn:Hrow; simpl.
  - destruct He as [_ He]. rewrite Hrow in He. destruct He as [Hne _].
    rewrite filter_cons_True by done. by rewrite IH.
  - rewrite filter_cons_False by (by intros []). exact IH.
Qed.

Lemma rows_well_written s (es : list entry) :
  Forall (well_written s) es →
  Forall (λ r, r ≠ [] ∧ Forall (plain s) r) (omap row es).
Proof.
  induction 1 as [|e es [_ He] _ IH]; [done|]. simpl.
  destruct (row e); [by constructor|done].
Qed.

(** An outcome other than a [ValueError] is the same in two runs that
    have the same outcome up to the lines listed. *)
Lemma same_outcome_eq o1 o2 :
  same_outcome o1 o2 → (∀ k invalid, o1 ≠ inl (ValueError k invalid)) → o1 = o2.
Proof.
  intros H Hno. destruct o1 as [[]|], o2 as [[]|]; simpl in H; try done.
  by edestruct Hno.
Qed.

(** On records of one length no [ValueError] is raised. *)
Lemma table_no_value_error s fs text k :
  fs !! input_name s = Some text →
  Forall (λ vs, length vs = k) (records (delimiter_of s) (skip_header_of s) text) →
  ∀ nbcols invalid, outcome s fs ≠ inl (ValueError nbcols invalid).
Proof.
  intros Hfile Hall nbcols invalid.
  destruct (run_table s fs text k Hfile Hall) as (_ & _ & [(-> & _)|[-> _]]); done.
Qed.

(** X7.  Comments, blank lines and blanks at the end of a line are not
    data: a file whose lines are rows of fields followed by blanks and a
    comment, or blanks and comments only, has the rows as its records,
    and the script runs on it as on the file written from the rows alone:
    the same array, the same names, the same output, and the same
    outcome up to the lines a [ValueError] lists, where comment and blank
    lines are counted.  Where the rows have one length the outcome is
    the same. *)
Theorem annotations_are_dropped (s : script_id) (header : string) (es : list entry)
    (fs1 fs2 : gmap string string) :
  forall_chars no_line_end header = true →
  Forall (well_written s) es →
  fs1 !! input_name s = Some (annotated s header es) →
  fs2 !! input_name s = Some (written s header (omap row es)) →
  records (delimiter_of s) (skip_header_of s) (annotated s header es) = omap row es
  ∧ same_memory (final s fs1) (final s fs2)
  ∧ same_outcome (outcome s fs1) (outcome s fs2)
  ∧ (∀ k, Forall (λ r, length r = k) (omap row es) → outcome s fs1 = outcome s fs2).
Proof.
  intros Hheader Hes Hf1 Hf2.
  pose proof (records_annotated s header es Hheader Hes) as Hrecs.
  split; [exact Hrecs|].
  destruct (same_records_same_run s fs1 fs2 _ _ Hf1 Hf2) as [Hmem Hout].
  { rewrite Hrecs. symmetry. apply records_written; [done|].
    by apply rows_well_written. }
  split; [exact Hmem|]. split; [exact Hout|].
  intros k Hall. apply same_outcome_eq; [done|].
  apply (table_no_value_error s fs1 _ k Hf1). by rewrite Hrecs.
Qed.

Lemma annotations_are_dropped_witness :
  forall_chars no_line_end "Year,PopIndia,PopChina" = true
  ∧ Forall (well_written P41) population_annotated
  ∧ ({[ Problem41.fname := annotated P41 "Year,PopIndia,PopChina" population_annotated ]}
     : gmap string string) !! input_name P41
    = Some (annotated P41 "Year,PopIndia,PopChina" population_annotated)
  ∧ ({[ Problem41.fname := population_sample ]} : gmap string string) !! input_name P41
    = Some (written P41 "Year,PopIndia,PopChina" (omap row population_annotated))
  ∧ records (delimiter_of P41) (skip_header_of P41)
      (annotated P41 "Year,PopIndia,PopChina" population_annotated)
    = omap row population_annotated
  ∧ same_memory
      (final P41 {[ Problem41.fname
                    := annotated P41 "Year,PopIndia,PopChina" population_annotated ]})
      (final P41 {[ Problem41.fname := population_sample ]})
  ∧ same_outcome
      (outcome P41 {[ Problem41.fname
                      := annotated P41 "Year,PopIndia,PopChina" population_annotated ]})
      (outcome P41 {[ Problem41.fname := population_sample ]})
  ∧ (∀ k, Forall (λ r, length r = k) (omap row population_annotated) →
       outcome P41 {[ Problem41.fname
                      := annotated P41 "Year,PopIndia,PopChina" population_annotated ]}
       = outcome P41 {[ Problem41.fname := population_sample ]}).
Proof.
  assert (H1 : forall_chars no_line_end "Year,PopIndia,PopChina" = true) by reflexivity.
  assert (H2 : Forall (well_written P41) population_annotated).
  { repeat constructor; done. }
  assert (H3 : ({[ Problem41.fname
                   := annotated P41 "Year,PopIndia,PopChina" population_annotated ]}
                : gmap string string) !! input_name P41
               = Some (annotated P41 "Year,PopIndia,PopChina" population_annotated))
    by reflexivity.
  assert (H4 : ({[ Problem41.fname := population_sample ]} : gmap string string)
               !! input_name P41
               = Some (written P41 "Year,PopIndia,PopChina"
                         (omap row population_annotated))) by reflexivity.
  split; [exact H1|]. split; [exact H2|]. split; [exact H3|]. split; [exact H4|].
  exact (annotations_are_dropped P41 _ _ _ _ H1 H2 H3 H4).
Defined.

(** Where the rows differ in length the two files do not list the same
    lines: the comment line is counted. *)
Example annotated_lines_are_counted :
  outcome P41 {[ Problem41.fname
                 := annotated P41 "Year,PopIndia,PopChina"
                      [Entry (Some ["1960"; "445954579"; "667070000"]) 0 None;
                       Entry None 0 (Some " revised");
                       Entry (Some ["1961"; "456351876"]) 0 None] ]}
  = inl (ValueError 3 [(4, 2)])
  ∧ outcome P41 {[ Problem41.fname
                   := written P41 "Year,PopIndia,PopChina"
                        [["1960"; "445954579"; "667070000"];
                         ["1961"; "456351876"]] ]}
    = inl (ValueError 3 [(3, 2)]).
Proof. split; by vm_compute. Qed.

Lemma headerless_written s r0 (rest : list (list string)) :
  s ≠ P52 → headerless s (r0 :: rest) = written s (join (separator s) r0) rest.
Proof. intros Hs. by destruct s. Qed.

Lemma join_no_line_end s (r : list string) :
  Forall (plain s) r → forall_chars no_line_end (join (separator s) r) = true.
Proof.
  intros Hr. apply forall_chars_join.
  - apply separator_chars. by destruct s.
  - eapply plain_fields_chars; [|done]. intros c Hc.
    by destruct (plain_char_spec s c Hc) as (_ & _ & ? & _).
Qed.

(** X8.  With [skip_header=1] the first line of the text is dropped
    whatever it holds.  A file of DataReader_Problem4.1 or
    DataReader_Problem5.1 written without a header line loses its first
    record, without an error or a warning: its records are those of the
    lines after the first, the array is made of them alone, and the
    script runs as on the file with a header line and the other rows. *)
Theorem first_record_is_lost_without_a_header (s : script_id) (header : string)
    (r0 : list string) (rest : list (list string)) (fs1 fs2 : gmap string string) :
  s ≠ P52 →
  forall_chars no_line_end header = true →
  Forall (λ r, r ≠ [] ∧ Forall (plain s) r) (r0 :: rest) →
  fs1 !! input_name s = Some (headerless s (r0 :: rest)) →
  fs2 !! input_name s = Some (written s header rest) →
  records (delimiter_of s) (skip_header_of s) (headerless s (r0 :: rest)) = rest
  ∧ same_memory (final s fs1) (final s fs2)
  ∧ outcome s fs1 = outcome s fs2
  ∧ ∀ k, Forall (λ r, length r = k) rest →
      ∃ a, globals (final s fs1) !! "data" = Some a
         ∧ shape a = loaded_shape rest
         ∧ items (heap (final s fs1)) a = cell <$> concat rest.
Proof.
  intros Hs Hheader [[_ Hr0] Hrest]%Forall_cons Hf1 Hf2.
  pose proof (join_no_line_end s r0 Hr0) as Hline.
  assert (Hrecs : records (delimiter_of s) (skip_header_of s)
                    (headerless s (r0 :: rest)) = rest).
  { rewrite headerless_written by done. by apply records_written. }
  split; [exact Hrecs|].
  destruct (same_lines_same_run s fs1 fs2 _ _ Hf1 Hf2) as [Hmem Hout].
  { rewrite headerless_written by done. unfold written.
    assert (Hskip : skip_header_of s = 1) by (by destruct s).
    rewrite Hskip. cbn [replicate app PyStr.unlines foldr].
    rewrite !readlines_line by done. done. }
  split; [exact Hmem|]. split; [exact Hout|].
  intros k Hall. pose proof Hall as Hall'. rewrite <- Hrecs in Hall'.
  destruct (run_table s fs1 _ k Hf1 Hall') as (Hdata & Hheap & _).
  rewrite Hrecs in Hdata, Hheap.
  eexists. split; [exact Hdata|]. split; [apply loaded_shape_eq|].
  by eapply loaded_items.
Qed.

Lemma first_record_is_lost_without_a_header_witness :
  P41 ≠ P52
  ∧ forall_chars no_line_end "Year,PopIndia,PopChina" = true
  ∧ Forall (λ r, r ≠ [] ∧ Forall (plain P41) r)
      (["1959"; "434000000"; "655000000"] :: population_rows)
  ∧ ({[ Problem41.fname
        := headerless P41 (["1959"; "434000000"; "655000000"] :: population_rows) ]}
     : gmap string string) !! input_name P41
    = Some (headerless P41 (["1959"; "434000000"; "655000000"] :: population_rows))
  ∧ ({[ Problem41.fname := population_sample ]} : gmap string string) !! input_name P41
    = Some (written P41 "Year,PopIndia,PopChina" population_rows)
  ∧ records (delimiter_of P41) (skip_header_of P41)
      (headerless P41 (["1959"; "434000000"; "655000000"] :: population_rows))
    = population_rows
  ∧ same_memory
      (final P41 {[ Problem41.fname
                    := headerless P41
                         (["1959"; "434000000"; "655000000"] :: population_rows) ]})
      (final P41 {[ Problem41.fname := population_sample ]})
  ∧ outcome P41 {[ Problem41.fname
                   := headerless P41
                        (["1959"; "434000000"; "655000000"] :: population_rows) ]}
    = outcome P41 {[ Problem41.fname := population_sample ]}
  ∧ ∀ k, Forall (λ r, length r = k) population_rows →
      ∃ a, globals (final P41 {[ Problem41.fname
                                 := headerless P41
                                      (["1959"; "434000000"; "655000000"]
                                       :: population_rows) ]}) !! "data" = Some a
         ∧ shape a = loaded_shape population_rows
         ∧ items (heap (final P41 {[ Problem41.fname
                                     := headerless P41
                                          (["1959"; "434000000"; "655000000"]
                                           :: population_rows) ]})) a
           = cell <$> concat population_rows.
Proof.
  assert (H0 : P41 ≠ P52) by done.
  assert (H1 : forall_chars no_line_end "Year,PopIndia,PopChina" = true)
    by reflexivity.
  assert (H2 : Forall (λ r, r ≠ [] ∧ Forall (plain P41) r)
                 (["1959"; "434000000"; "655000000"] :: population_rows)).
  { repeat constructor; done. }
  assert (H3 : ({[ Problem41.fname
                   := headerless P41
                        (["1959"; "434000000"; "655000000"] :: population_rows) ]}
                : gmap string string) !! input_name P41
               = Some (headerless P41
                         (["1959"; "434000000"; "655000000"] :: population_rows)))
    by reflexivity.
  assert (H4 : ({[ Problem41.fname := population_sample ]} : gmap string string)
               !! input_name P41
               = Some (written P41 "Year,PopIndia,PopChina" population_rows))
    by reflexivity.
  split; [exact H0|]. split; [exact H1|]. split; [exact H2|]. split; [exact H3|].
  split; [exact H4|].
  exact (first_record_is_lost_without_a_header P41 _ _ _ _ _ H0 H1 H2 H3 H4).
Defined.

(** X9.  Line ends: a file written with carriage return and line feed at
    the end of each line gives the same run as the file with line feeds
    alone. *)
Theorem windows_line_ends (s : script_id) (text : string)
    (fs1 fs2 : gmap string string) :
  forall_chars (λ c, negb (Ascii.eqb c PyStr.CR)) text = true →
  fs1 !! input_name s = Some text →
  fs2 !! input_name s = Some (crlf text) →
  same_memory (final s fs1) (final s fs2) ∧ outcome s fs1 = outcome s fs2.
Proof.
  intros Htext Hf1 Hf2.
  apply (same_lines_same_run s fs1 fs2 _ _ Hf1 Hf2).
  unfold PyStr.readlines.
  by rewrite universal_newlines_crlf, universal_newlines_id.
Qed.

Lemma windows_line_ends_witness :
  forall_chars (λ c, negb (Ascii.eqb c PyStr.CR)) decay_sample = true
  ∧ ({[ Problem52.fname := decay_sample ]} : gmap string string) !! input_name P52
    = Some decay_sample
  ∧ ({[ Problem52.fname := crlf decay_sample ]} : gmap string string) !! input_name P52
    = Some (crlf decay_sample)
  ∧ same_memory (final P52 {[ Problem52.fname := decay_sample ]})
                (final P52 {[ Problem52.fname := crlf decay_sample ]})
  ∧ outcome P52 {[ Problem52.fname := decay_sample ]}
    = outcome P52 {[ Problem52.fname := crlf decay_sample ]}.
Proof.
  assert (H1 : forall_chars (λ c, negb (Ascii.eqb c PyStr.CR)) decay_sample = true)
    by reflexivity.
  assert (H2 : ({[ Problem52.fname := decay_sample ]} : gmap string string)
               !! input_name P52 = Some decay_sample) by reflexivity.
  assert (H3 : ({[ Problem52.fname := crlf decay_sample ]} : gmap string string)
               !! input_name P52 = Some (crlf decay_sample)) by reflexivity.
  split; [exact H1|]. split; [exact H2|]. split; [exact H3|].
  exact (windows_line_ends P52 _ _ _ H1 H2 H3).
Defined.

(** ** Decay times in a row or in a column *)

Lemma concat_singletons {A} (l : list A) : concat ((λ x, [x]) <$> l) = l.
Proof. induction l as [|x l IH]; [done|]. csimpl. by rewrite IH. Qed.

(** DataReader_Problem5.2 on a one-dimensional array of the values
    [fields]. *)
Lemma run_vector_P52 fs text (fields : list string) :
  fs !! Problem52.fname = Some text →
  2 ≤ length fields →
  records None 0 text = [fields] ∨ records None 0 text = (λ f, [f]) <$> fields →
  run Problem52.script fs
  = ({| files := fs;
        heap := [cell <$> fields];
        globals := <["data" := NDArray 0 0 [length fields] [1]]> ∅;
        log :=
          [EvOpen Problem52.fname; EvParse Problem52.fname;
           EvPrint [PTuple [length fields]];
           EvSlice;
           EvPrint [PArray [10 `min` length fields] (take 10 (cell <$> fields))]] |},
     inr ()).
Proof.
  intros Hfile Hn Hrecs.
  assert (E : genfromtxt Problem52.fname None 0 (boot fs)
              = (add_event (EvParse Problem52.fname)
                   (add_buffer (cell <$> fields)
                      (add_event (EvOpen Problem52.fname) (boot fs))),
                 inr (NDArray 0 0 [length fields] [1]))).
  { destruct Hrecs as [Hrecs|Hrecs].
    - rewrite (genfromtxt_loaded None Problem52.fname 0 (boot fs) text (length fields)
                 Hfile) by (rewrite Hrecs; by repeat constructor).
      rewrite Hrecs. unfold loaded, load_warning, squeeze. cbn [concat].
      rewrite app_nil_r. cbn [shape strides zip zip_with length].
      rewrite filter_cons_False by (simpl; intros []; done).
      rewrite filter_cons_True by (simpl; lia). done.
    - rewrite (genfromtxt_loaded None Problem52.fname 0 (boot fs) text 1 Hfile)
        by (rewrite Hrecs; apply Forall_fmap, Forall_true; done).
      rewrite Hrecs, concat_singletons.
      destruct fields as [|f fields]; [simpl in Hn; lia|].
      unfold loaded, load_warning. cbn [fmap list_fmap length].
      rewrite length_fmap.
      rewrite squeeze_column by (simpl in Hn; lia). done. }
  unfold run, Problem52.script.
  rewrite exec_cons. unfold mbind at 1, M_bind at 1. rewrite E.
  unfold assign at 1. clear E Hrecs Hfile.
  assert (Hbuf : holds [cell <$> fields] (NDArray 0 0 [length fields] [1])
                   (cell <$> fields)).
  { rewrite <- (length_fmap cell fields). by apply holds_buffer. }
  simpl exec.
  next_stmt. { bound_var. reflexivity. }
  next_stmt.
  { bound_var. next_stmt; [by apply getitem_upto|].
    next_stmt; [|reflexivity].
    apply display_holds. simpl heap.
    apply (holds_take _ _ _ 10 _ Hbuf). by rewrite length_fmap. }
  rewrite abbreviate_small by (rewrite length_take; unfold threshold; lia).
  rewrite length_take, length_fmap. done.
Qed.

(** X10.  DataReader_Problem5.2 does not tell a row from a column: with
    the decay times all on one line, separated by white space, it loads
    the same one-dimensional array and prints the same two lines as with
    one decay time per line. *)
Theorem decay_times_in_a_row_or_a_column (fields : list string) (t1 t2 : string)
    (fs1 fs2 : gmap string string) :
  2 ≤ length fields →
  fs1 !! input_name P52 = Some t1 →
  records (delimiter_of P52) (skip_header_of P52) t1 = [fields] →
  fs2 !! input_name P52 = Some t2 →
  records (delimiter_of P52) (skip_header_of P52) t2 = (λ f, [f]) <$> fields →
  same_memory (final P52 fs1) (final P52 fs2)
  ∧ outcome P52 fs1 = inr () ∧ outcome P52 fs2 = inr ()
  ∧ stdout (final P52 fs1)
    = [[PTuple [length fields]];
       [PArray [10 `min` length fields] (take 10 (cell <$> fields))]].
Proof.
  intros Hn Hf1 Hr1 Hf2 Hr2. unfold final, outcome. cbn [program].
  rewrite (run_vector_P52 fs1 t1 fields Hf1 Hn (or_introl Hr1)).
  rewrite (run_vector_P52 fs2 t2 fields Hf2 Hn (or_intror Hr2)).
  done.
Qed.

Lemma decay_times_in_a_row_or_a_column_witness :
  2 ≤ length ["1.5"; "2.5"; "3.5"]
  ∧ ({[ Problem52.fname := decay_one_line ]} : gmap string string) !! input_name P52
    = Some decay_one_line
  ∧ records (delimiter_of P52) (skip_header_of P52) decay_one_line
    = [["1.5"; "2.5"; "3.5"]]
  ∧ ({[ Problem52.fname := decay_sample ]} : gmap string string) !! input_name P52
    = Some decay_sample
  ∧ records (delimiter_of P52) (skip_header_of P52) decay_sample
    = (λ f, [f]) <$> ["1.5"; "2.5"; "3.5"]
  ∧ same_memory (final P52 {[ Problem52.fname := decay_one_line ]})
                (final P52 {[ Problem52.fname := decay_sample ]})
  ∧ outcome P52 {[ Problem52.fname := decay_one_line ]} = inr ()
  ∧ outcome P52 {[ Problem52.fname := decay_sample ]} = inr ()
  ∧ stdout (final P52 {[ Problem52.fname := decay_one_line ]})
    = [[PTuple [length ["1.5"; "2.5"; "3.5"]]];
       [PArray [10 `min` length ["1.5"; "2.5"; "3.5"]]
          (take 10 (cell <$> ["1.5"; "2.5"; "3.5"]))]].
Proof.
  assert (Hn : 2 ≤ length ["1.5"; "2.5"; "3.5"]) by (simpl; lia).
  assert (Hf1 : ({[ Problem52.fname := decay_one_line ]} : gmap string string)
                !! input_name P52 = Some decay_one_line) by reflexivity.
  assert (Hr1 : records (delimiter_of P52) (skip_header_of P52) decay_one_line
                = [["1.5"; "2.5"; "3.5"]]) by (by vm_compute).
  assert (Hf2 : ({[ Problem52.fname := decay_sample ]} : gmap string string)
                !! input_name P52 = Some decay_sample) by reflexivity.
  assert (Hr2 : records (delimiter_of P52) (skip_header_of P52) decay_sample
                = (λ f, [f]) <$> ["1.5"; "2.5"; "3.5"]) by (by vm_compute).
  split; [exact Hn|]. split; [exact Hf1|]. split; [exact Hr1|].
  split; [exact Hf2|]. split; [exact Hr2|].
  exact (decay_times_in_a_row_or_a_column _ _ _ _ _ Hn Hf1 Hr1 Hf2 Hr2).
Defined.

(** ** Files and buffers *)

#[global] Instance quiet_preorder : PreOrder quiet.
Proof.
  split.
  - by intros w.
  - intros w1 w2 w3 [Hf1 Ho1] [Hf2 Ho2]. split; congruence.
Qed.

Lemma quiet_emit e :
  match e with EvOpen _ => False | _ => True end → keeps quiet (emit e).
Proof.
  intros He w. split; [done|]. unfold opened. simpl.
  rewrite omap_app. destruct e; simpl; by rewrite ?app_nil_r.
Qed.

Lemma quiet_alloc buf : keeps quiet (alloc buf).
Proof. by intros w. Qed.

Lemma quiet_assign name a : keeps quiet (assign name a).
Proof. by intros w. Qed.

Lemma quiet_getitem a idx : keeps quiet (getitem a idx).
Proof.
  unfold getitem. destruct (index_axes _ _ _) as [[[off sh] st]|];
    [|apply keeps_raise, _].
  apply keeps_bind; [apply _|by apply quiet_emit|intros; apply keeps_ret, _].
Qed.

Lemma quiet_astype a : keeps quiet (astype_int a).
Proof.
  unfold astype_int.
  apply keeps_bind; [apply _|apply keeps_read, _|intros xs].
  apply keeps_bind; [apply _| |intros _].
  { destruct (forallb cast_valid xs); [apply keeps_ret, _|by apply quiet_emit]. }
  apply keeps_bind; [apply _|apply quiet_alloc|intros l].
  apply keeps_bind; [apply _|by apply quiet_emit|intros; apply keeps_ret, _].
Qed.

Lemma quiet_print args : keeps quiet (print args).
Proof. by apply quiet_emit. Qed.

Ltac quiet_stmt :=
  repeat first
    [ apply quiet_assign | apply quiet_getitem | apply quiet_astype
    | apply quiet_print | apply keeps_var, _ | apply keeps_display, _
    | apply keeps_bind; [apply _| |intros ?] ].

(** After the load no statement opens or writes a file. *)
Lemma statements_quiet s : Forall (keeps quiet) (tail (program s)).
Proof.
  destruct s; simpl; repeat first [apply Forall_nil_2 | apply Forall_cons_2];
    quiet_stmt.
Qed.

Lemma opened_add_event e w :
  opened (add_event e w)
  = opened w ++ match e with EvOpen f => [f] | _ => [] end.
Proof. unfold opened. simpl. rewrite omap_app. simpl. by destruct e. Qed.

Lemma opened_add_events es w :
  warnings es → opened (add_events es w) = opened w.
Proof.
  intros Hes. unfold opened. simpl. rewrite omap_app.
  replace (omap _ es) with (@nil string); [by rewrite app_nil_r|].
  symmetry. unfold warnings in Hes.
  induction es as [|e es IH]; [done|].
  destruct e; simpl in *; try done; by apply IH.
Qed.

Lemma file_access s fs :
  files (final s fs) = fs
  ∧ opened (final s fs)
    = match fs !! input_name s with Some _ => [input_name s] | None => [] end.
Proof.
  unfold final.
  destruct (fs !! input_name s) as [text|] eqn:Hfile.
  - destruct (uniform_or_ragged s text) as [[k Hall]|Hragged].
    + pose proof (genfromtxt_loaded (delimiter_of s) (input_name s) (skip_header_of s)
                    (boot fs) text k Hfile Hall) as E.
      rewrite (load_binds s fs _ _ E).
      match goal with |- context [exec _ ?w] =>
        destruct (keeps_exec quiet (tail (program s)) (statements_quiet s) w)
          as [Hfiles Hopened] end.
      split; [by rewrite Hfiles|]. rewrite Hopened.
      change (opened (bind_name "data" ?a ?w)) with (opened w).
      rewrite opened_add_event.
      change (opened (add_buffer ?buf ?w)) with (opened w).
      by rewrite opened_add_events, opened_add_event
        by apply load_warning_warnings.
    + destruct (ragged_fails s fs text Hfile Hragged) as (nb & inv & E).
      by rewrite E.
  - by rewrite (load_fails s fs (boot fs) (FileNotFoundError (input_name s)))
      by by apply genfromtxt_missing.
Qed.


Section allocates.

Lemma allocates_ret {A} (x : A) : allocates 0 (mret x).
Proof. intros w. simpl. lia. Qed.

Lemma allocates_raise {A} (e : exn) : allocates 0 (raise (A := A) e).
Proof. intros w. simpl. lia. Qed.

Lemma allocates_bind {A B} (a b : nat) (m : M A) (f : A → M B) :
  allocates a m → (∀ x, allocates b (f x)) → allocates (a + b) (m ≫= f).
Proof.
  intros Hm Hf w. unfold mbind, M_bind.
  specialize (Hm w). destruct (m w) as [w1 [e|x]]; simpl in *; [lia|].
  specialize (Hf x w1). lia.
Qed.

Lemma allocates_more {A} (a b : nat) (m : M A) :
  allocates a m → a ≤ b → allocates b m.
Proof. intros Hm Hab w. specialize (Hm w). lia. Qed.

Lemma allocates_emit e : allocates 0 (emit e).
Proof. intros w. simpl. lia. Qed.

Lemma allocates_alloc buf : allocates 1 (alloc buf).
Proof. intros w. simpl. rewrite length_app. simpl. lia. Qed.

Lemma allocates_assign name a : allocates 0 (assign name a).
Proof. intros w. simpl. lia. Qed.

Lemma allocates_var name : allocates 0 (var name).
Proof. intros w. unfold var. destruct (globals w !! name); simpl; lia. Qed.

Lemma allocates_read a : allocates 0 (read a).
Proof. intros w. simpl. lia. Qed.

Lemma allocates_display a : allocates 0 (display a).
Proof. intros w. simpl. lia. Qed.

Lemma allocates_print args : allocates 0 (print args).
Proof. apply allocates_emit. Qed.

Lemma allocates_open fname : allocates 0 (open fname).
Proof. intros w. unfold open. destruct (files w !! fname); simpl; lia. Qed.

(** Indexing gives a view: no buffer is added. *)
Lemma allocates_getitem a idx : allocates 0 (getitem a idx).
Proof.
  unfold getitem. destruct (index_axes _ _ _) as [[[off sh] st]|];
    [|apply allocates_raise].
  apply (allocates_bind 0 0); [apply allocates_emit|intros; apply allocates_ret].
Qed.

(** [astype] gives a copy: one buffer. *)
Lemma allocates_astype a : allocates 1 (astype_int a).
Proof.
  unfold astype_int.
  apply (allocates_bind 0 1); [apply allocates_read|intros xs].
  apply (allocates_bind 0 1); [|intros _].
  { destruct (forallb cast_valid xs); [apply allocates_ret|apply allocates_emit]. }
  apply (allocates_bind 1 0); [apply allocates_alloc|intros l].
  apply (allocates_bind 0 0); [apply allocates_emit|intros; apply allocates_ret].
Qed.

Lemma allocates_genfromtxt fname delimiter skip_header :
  allocates 1 (genfromtxt fname delimiter skip_header).
Proof.
  unfold genfromtxt.
  apply (allocates_bind 0 1); [apply allocates_open|intros text].
  apply (allocates_bind 0 1); [|intros [[first_line first_values] fhd']].
  { destruct (first_valid _ _); [apply allocates_ret|].
    apply (allocates_bind 0 0); [apply allocates_emit|intros; apply allocates_ret]. }
  destruct (parse_lines _ _ _ _ _) as [rows [|bad invalid]];
    [|eapply allocates_more; [apply allocates_raise|lia]].
  unfold np_array.
  apply (allocates_bind 1 0); [|intros output].
  { apply (allocates_bind 1 0); [apply allocates_alloc|intros; apply allocates_ret]. }
  apply (allocates_bind 0 0); [apply allocates_emit|intros; apply allocates_ret].
Qed.

End allocates.

Ltac allocates_stmt :=
  repeat first
    [ apply allocates_ret | apply allocates_var | apply allocates_display
    | apply allocates_print | apply allocates_assign | apply allocates_getitem
    | apply allocates_astype | apply allocates_genfromtxt
    | eapply allocates_bind; [|intros ?] ].

Lemma script_allocates s : allocates (buffers_of s) (exec (program s)).
Proof.
  destruct s; (eapply allocates_more; [cbn [program exec]; unfold Problem41.script,
    Problem51.script, Problem52.script; cbn [exec]; allocates_stmt|simpl; lia]).
Qed.

Lemma complete_buffers s fs :
  outcome s fs = inr () → length (heap (final s fs)) = buffers_of s.
Proof.
  intros Hout.
  assert (Hle : length (heap (final s fs)) ≤ buffers_of s)
    by apply (script_allocates s (boot fs)).
  apply complete_iff in Hout as (text & Hfile & k & Hall & Hk).
  destruct s; simpl in Hfile, Hall, Hk.
  - destruct Hk as [Hn Hk]. unfold final. cbn [program].
    by rewrite (run_wide_P41 fs text k Hfile Hn Hall Hk).
  - destruct Hk as [Hn Hk]. unfold final. cbn [program].
    by rewrite (run_wide_P51 fs text k Hfile Hn Hall Hk).
  - destruct (run_table P52 fs text k Hfile Hall) as (_ & Hheap & _).
    apply lookup_lt_Some in Hheap. simpl in Hle |- *. lia.
Qed.

(** X12.  Slicing and printing never copy: on any input
    DataReader_Problem4.1 and DataReader_Problem5.2 hold one buffer at
    most when they stop, the table, and DataReader_Problem5.1 three, the
    table and the two columns [astype(int)] makes; a run that completes
    holds exactly these. *)
Theorem buffers_are_bounded (s : script_id) (fs : gmap string string) :
  length (heap (final s fs)) ≤ buffers_of s
  ∧ (outcome s fs = inr () → length (heap (final s fs)) = buffers_of s).
Proof.
  split; [apply (script_allocates s (boot fs))|apply complete_buffers].
Qed.

(** ** Whole numbers *)

Section whole.
Local Open Scope Z_scope.

Lemma digits2_iter_xO p k :
  digits2_pos (Pos.iter xO p k) = (digits2_pos p + k)%positive.
Proof.
  induction k as [|k IH] using Pos.peano_ind.
  - simpl. lia.
  - rewrite Pos.iter_succ. simpl. rewrite IH. lia.
Qed.

Lemma shiftl_pos p k : Z.shiftl (Zpos p) (Zpos k) = Zpos (Pos.iter xO p k).
Proof.
  unfold Z.shiftl.
  induction k as [|k IH] using Pos.peano_ind; [reflexivity|].
  rewrite !Pos.iter_succ, IH. reflexivity.
Qed.

Lemma div_eucl_1 a : Z.div_eucl a 1 = (a, 0).
Proof.
  generalize (Z.div_1_r a) (Z.mod_1_r a). unfold Z.div, Z.modulo.
  destruct (Z.div_eucl a 1). simpl. congruence.
Qed.

Lemma iter_xO_half p k :
  Pos.iter xO p k = xO (Pos.shiftl p (Pos.pred_N k)).
Proof.
  destruct k as [|k] using Pos.peano_case; [reflexivity|].
  rewrite Pos.iter_succ, Pos.pred_N_succ. reflexivity.
Qed.

(** A whole number of at most 53 bits divided by one: the quotient is
    the number itself, its mantissa shifted to 53 bits. *)
Lemma SFdiv_whole sg p k :
  Zpos (digits2_pos p) + Zpos k = 54 →
  SFdiv 53 1024 (S754_finite sg p 0) (S754_finite false 1 0)
  = S754_finite sg (Pos.shiftl p (Pos.pred_N k)) (1 - Zpos k).
Proof.
  intros Hd.
  unfold SFdiv, SFdiv_core_binary.
  cbn [Zdigits2 digits2_pos].
  assert (E1 : fexp 53 1024 (Z.pos (digits2_pos p) + 0 - (1 + 0)) = - Zpos k).
  { unfold fexp, emin. lia. }
  rewrite E1.
  replace (Z.min (- Z.pos k) (0 - 0)) with (- Z.pos k) by lia.
  replace (0 - 0 - - Z.pos k) with (Zpos k) by lia.
  rewrite div_eucl_1, shiftl_pos.
  change (new_location 1 0) with loc_Exact.
  unfold binary_round_aux, shr_fexp.
  cbn [Zdigits2 shr_record_of_loc]. rewrite digits2_iter_xO.
  assert (E2 : fexp 53 1024 (Z.pos (digits2_pos p + k) + - Z.pos k) - - Z.pos k = 1).
  { unfold fexp, emin. lia. }
  rewrite E2. cbn [shr SpecFloat.iter_pos].
  rewrite iter_xO_half. cbn [shr_1 orb shr_m loc_of_shr_record round_nearest_even].
  cbn [Zdigits2].
  assert (E3 : digits2_pos (Pos.shiftl p (Pos.pred_N k)) = 53%positive).
  { pose proof (digits2_iter_xO p k) as H. rewrite iter_xO_half in H.
    simpl in H. lia. }
  rewrite E3.
  assert (E4 : fexp 53 1024 (53 + (- Z.pos k + 1)) - (- Z.pos k + 1) = 0).
  { unfold fexp, emin. lia. }
  rewrite E4. cbn [shr shr_m].
  replace (- Z.pos k + 1 <=? 1024 - 53) with true by (symmetry; apply Z.leb_le; lia).
  replace (- Z.pos k + 1) with (1 - Z.pos k) by lia.
  by destruct sg.
Qed.

Lemma shiftr_shiftl_pos p n :
  Z.shiftr (Zpos (Pos.shiftl p n)) (Z.of_N n) = Zpos p.
Proof.
  destruct n as [|j]; [reflexivity|].
  change (Pos.shiftl p (Npos j)) with (Pos.iter xO p j).
  change (Z.of_N (Npos j)) with (Zpos j). rewrite <- shiftl_pos.
  rewrite Z.shiftr_shiftl_l by lia. by rewrite Z.sub_diag.
Qed.

Lemma digits2_bound p : 2 ^ (Zpos (digits2_pos p) - 1) ≤ Zpos p.
Proof.
  induction p as [p IH|p IH|]; [| |done]; simpl digits2_pos;
    rewrite Pos2Z.inj_succ;
    replace (Z.succ (Z.pos (digits2_pos p)) - 1)
      with (Z.succ (Z.pos (digits2_pos p) - 1)) by lia;
    rewrite Z.pow_succ_r by lia; lia.
Qed.

Lemma digits2_small p : Zpos p < 2 ^ 53 → Zpos (digits2_pos p) ≤ 53.
Proof.
  intros Hp. pose proof (digits2_bound p) as Hd.
  assert (H : 2 ^ (Zpos (digits2_pos p) - 1) < 2 ^ 53) by lia.
  apply Z.pow_lt_mono_r_iff in H; lia.
Qed.

(** The float read from a whole number below [2 ^ 53] has that number as
    its integer part. *)
Lemma trunc_of_whole neg m :
  0 ≤ m < 2 ^ 53 →
  PyFloat.trunc (PyFloat.of_decimal neg m 0) = Some (if neg then - m else m).
Proof.
  intros [Hm0 Hm]. destruct m as [|p|p]; [by destruct neg| |lia].
  unfold PyFloat.of_decimal. cbn [Z.leb Z.compare].
  replace (Z.to_pos (Z.pos p * 10 ^ 0)) with p by (rewrite Z.pow_0_r; lia).
  pose proof (digits2_small p Hm) as Hd.
  assert (Hk : Zpos (digits2_pos p) + Zpos (Z.to_pos (54 - Zpos (digits2_pos p))) = 54)
    by lia.
  unfold PyFloat.prec, PyFloat.emax. rewrite (SFdiv_whole neg p _ Hk).
  set (k := Z.to_pos (54 - Zpos (digits2_pos p))) in *.
  unfold PyFloat.trunc.
  assert (Hpred : Z.of_N (Pos.pred_N k) = Zpos k - 1).
  { destruct k as [|j] using Pos.peano_case; [done|].
    rewrite Pos.pred_N_succ. simpl. lia. }
  destruct (Z.leb_spec 0 (1 - Zpos k)) as [Hle|Hgt].
  - assert (k = 1%positive) as -> by lia. by destruct neg.
  - replace (- (1 - Zpos k)) with (Z.of_N (Pos.pred_N k)) by lia.
    rewrite shiftr_shiftl_pos. by destruct neg.
Qed.

Lemma pos_shiftl_pow2 p n : Zpos (Pos.shiftl p n) = Zpos p * 2 ^ Z.of_N n.
Proof.
  destruct n as [|j].
  { change (Pos.shiftl p 0) with p. change (Z.of_N 0) with 0.
    rewrite Z.pow_0_r. lia. }
  change (Pos.shiftl p (Npos j)) with (Pos.iter xO p j).
  change (Z.of_N (Npos j)) with (Zpos j).
  rewrite <- shiftl_pos. apply Z.shiftl_mul_pow2. lia.
Qed.

(** That float stands for the number itself, without a rounding error. *)
Lemma fraction_of_whole neg m :
  0 ≤ m < 2 ^ 53 →
  ∃ num den,
    PyFloat.fraction (PyFloat.of_decimal neg m 0) = Some (num, den)
    ∧ 0 < den ∧ num = (if neg then - m else m) * den.
Proof.
  intros [Hm0 Hm]. destruct m as [|p|p]; [|clear Hm0|lia].
  { exists 0, 1. by destruct neg. }
  unfold PyFloat.of_decimal. cbn [Z.leb Z.compare].
  replace (Z.to_pos (Z.pos p * 10 ^ 0)) with p by (rewrite Z.pow_0_r; lia).
  pose proof (digits2_small p Hm) as Hd.
  assert (Hk : Zpos (digits2_pos p) + Zpos (Z.to_pos (54 - Zpos (digits2_pos p))) = 54)
    by lia.
  unfold PyFloat.prec, PyFloat.emax. rewrite (SFdiv_whole neg p _ Hk).
  set (k := Z.to_pos (54 - Zpos (digits2_pos p))) in *.
  assert (Hpred : Z.of_N (Pos.pred_N k) = Zpos k - 1).
  { destruct k as [|j] using Pos.peano_case; [done|].
    rewrite Pos.pred_N_succ. simpl. lia. }
  pose proof (pos_shiftl_pow2 p (Pos.pred_N k)) as Hq. rewrite Hpred in Hq.
  unfold PyFloat.fraction.
  destruct (Z.leb_spec 0 (1 - Zpos k)) as [Hle|Hgt].
  - assert (k = 1%positive) as -> by lia. simpl in Hq.
    eexists _, 1. split; [done|]. split; [lia|]. destruct neg; simpl; lia.
  - eexists _, _. split; [done|].
    replace (- (1 - Zpos k)) with (Zpos k - 1) by lia.
    split; [apply Z.pow_pos_nonneg; lia|].
    destruct neg; [|done].
    change (Z.neg (Pos.shiftl p (Pos.pred_N k)))
      with (- Zpos (Pos.shiftl p (Pos.pred_N k))).
    rewrite Hq. lia.
Qed.

End whole.

Section literals.
Local Open Scope string_scope.
Import PyFloat.

(** What is known of a decimal digit. *)
Lemma is_digit_spec c :
  is_digit c = true →
  Ascii.eqb c "_" = false ∧ is_float_space c = false ∧ lower c = c
  ∧ Ascii.eqb c "i" = false ∧ Ascii.eqb c "n" = false
  ∧ (∀ r, take_sign (String c r) = (false, String c r))
  ∧ (0 ≤ digit_val c)%Z.
Proof.
  destruct c as [[] [] [] [] [] [] [] []]; try discriminate; intros _;
    split_and!; try reflexivity; try (intros; reflexivity); by vm_compute.
Qed.

Lemma drop_underscores_plain prev s :
  Ascii.eqb prev "_" = false →
  forall_chars (λ c, negb (Ascii.eqb c "_")) s = true →
  drop_underscores prev s = Some s.
Proof.
  revert prev. induction s as [|c s IH]; intros prev Hprev.
  - intros _. simpl. by rewrite Hprev.
  - cbn [forall_chars drop_underscores].
    rewrite andb_true_iff, negb_true_iff. intros [Hc Hs].
    rewrite Hc, Hprev. simpl. by rewrite (IH c Hc Hs).
Qed.

Lemma strip_plain p s :
  forall_chars (λ c, negb (p c)) s = true → PyStr.strip p s = s.
Proof.
  intros Hs. unfold PyStr.strip.
  replace (PyStr.lstrip p s) with s; [by apply rstrip_fixed|].
  destruct s as [|c s]; [done|]. simpl in *.
  apply andb_true_iff in Hs as [Hc _]. apply negb_true_iff in Hc.
  by rewrite Hc.
Qed.

Lemma take_digits_all s :
  forall_chars is_digit s = true →
  take_digits s = ((take_digits s).1, "")
  ∧ Forall (λ d, 0 ≤ d)%Z (take_digits s).1
  ∧ (s ≠ "" → (take_digits s).1 ≠ []).
Proof.
  induction s as [|c s IH]; [done|].
  cbn [forall_chars take_digits]. rewrite andb_true_iff. intros [Hc Hs].
  rewrite Hc. destruct (IH Hs) as (E & Hpos & _).
  destruct (take_digits s) as [ds r]. simpl in *.
  injection E as ->. split_and!; [done| |done].
  constructor; [|done]. by destruct (is_digit_spec c Hc) as (_ & _ & _ & _ & _ & _ & ?).
Qed.

Lemma digits_value_nonneg (ds : list Z) :
  Forall (λ d, 0 ≤ d)%Z ds → (0 ≤ digits_value ds)%Z.
Proof.
  unfold digits_value. intros Hds.
  assert (H : ∀ acc, (0 ≤ acc)%Z →
            (0 ≤ foldl (λ acc d : Z, 10 * acc + d) acc ds)%Z).
  { induction Hds as [|d ds Hd _ IH]; intros acc Ha; simpl; [done|].
    apply IH. lia. }
  by apply H.
Qed.

Lemma number_nonneg digits :
  forall_chars is_digit digits = true → (0 ≤ number digits)%Z.
Proof.
  intros Hd. destruct (take_digits_all digits Hd) as (_ & Hpos & _).
  by apply digits_value_nonneg.
Qed.

Lemma parse_decimal_digits digits :
  digits ≠ "" → forall_chars is_digit digits = true →
  parse_decimal digits = Some (number digits, 0%Z).
Proof.
  intros Hne Hd. destruct (take_digits_all digits Hd) as (E & _ & Hds).
  unfold parse_decimal, number. rewrite E. cbn [fst].
  rewrite app_nil_r.
  destruct (take_digits digits).1 as [|d ds]; [by destruct Hds|done].
Qed.

(** [float] of a decimal integer literal. *)
Lemma float_of_whole neg digits :
  digits ≠ "" → forall_chars is_digit digits = true →
  float_of_str (signed neg digits) = Some (of_decimal neg (number digits) 0).
Proof.
  intros Hne Hd.
  assert (Hplain : ∀ p, (∀ c, is_digit c = true → p c = true) → p "-"%char = true →
            forall_chars p (signed neg digits) = true).
  { intros p Hp Hminus. destruct neg; simpl; rewrite ?Hminus;
      by apply (forall_chars_impl is_digit). }
  unfold float_of_str.
  rewrite drop_underscores_plain; [|done|]; cycle 1.
  { apply Hplain; [|done]. intros c Hc.
    destruct (is_digit_spec c Hc) as (-> & _). done. }
  cbn [mbind option_bind].
  rewrite strip_plain; cycle 1.
  { apply Hplain; [|done]. intros c Hc.
    destruct (is_digit_spec c Hc) as (_ & -> & _). done. }
  destruct digits as [|c rest]; [done|].
  pose proof Hd as [Hc _]%andb_true_iff.
  destruct (is_digit_spec c Hc) as (_ & _ & Hlow & Hi & Hn & Hsign & _).
  assert (Hts : take_sign (signed neg (String c rest)) = (neg, String c rest)).
  { destruct neg; [done|apply Hsign]. }
  rewrite Hts. cbn [lower_str String.eqb]. rewrite Hlow, Hi, Hn. cbn [andb orb].
  by rewrite parse_decimal_digits.
Qed.

(** Read as a float and converted to an integer, a whole number below
    [2 ^ 53] is itself. *)
Lemma whole_cell neg digits :
  digits ≠ "" → forall_chars is_digit digits = true →
  (number digits < 2 ^ 53)%Z →
  cast_int (cell (signed neg digits))
  = I64 (if neg then - number digits else number digits).
Proof.
  intros Hne Hd Hn. pose proof (number_nonneg digits Hd) as H0.
  unfold cell, loose_call. rewrite float_of_whole by done.
  unfold cast_int, to_int64. rewrite trunc_of_whole by done.
  replace (fits_int64 _) with true; [done|].
  symmetry. unfold fits_int64, int64_min, int64_max.
  apply andb_true_iff. rewrite !Z.leb_le.
  assert (2 ^ 53 < 2 ^ 63)%Z by done.
  destruct neg; lia.
Qed.

Lemma whole_cell_exact neg digits :
  digits ≠ "" → forall_chars is_digit digits = true →
  (number digits < 2 ^ 53)%Z →
  ∃ x num den,
    cell (signed neg digits) = F64 x
    ∧ fraction x = Some (num, den) ∧ (0 < den)%Z
    ∧ num = ((if neg then - number digits else number digits) * den)%Z.
Proof.
  intros Hne Hd Hn. pose proof (number_nonneg digits Hd) as H0.
  unfold cell, loose_call. rewrite float_of_whole by done.
  destruct (fraction_of_whole neg (number digits)) as (num & den & Hf & Hden & Hnum);
    [done|].
  by eexists _, num, den.
Qed.

End literals.

(** X13.  Whole numbers are read without error: a field that is a decimal
    integer below [2 ^ 53], with or without a minus sign, is stored as
    the float that stands for exactly that integer, and converting it
    with [astype(int)] gives the integer back. *)
Theorem whole_numbers_are_read_exactly (neg : bool) (digits : string) :
  digits ≠ "" →
  forall_chars PyFloat.is_digit digits = true →
  (number digits < 2 ^ 53)%Z →
  ∃ x num den,
    cell (signed neg digits) = F64 x
    ∧ PyFloat.fraction x = Some (num, den) ∧ (0 < den)%Z
    ∧ num = ((if neg then - number digits else number digits) * den)%Z
    ∧ cast_int (F64 x) = I64 (if neg then - number digits else number digits).
Proof.
  intros Hne Hd Hn.
  destruct (whole_cell_exact neg digits Hne Hd Hn) as (x & num & den & Hx & Hf & Hden & Hnum).
  exists x, num, den. split_and!; [done..|].
  rewrite <- Hx. by apply whole_cell.
Qed.

Lemma whole_numbers_are_read_exactly_witness :
  "119999" ≠ ""
  ∧ forall_chars PyFloat.is_digit "119999" = true
  ∧ (number "119999" < 2 ^ 53)%Z
  ∧ ∃ x num den,
      cell (signed false "119999") = F64 x
      ∧ PyFloat.fraction x = Some (num, den) ∧ (0 < den)%Z
      ∧ num = ((if false then - number "119999" else number "119999") * den)%Z
      ∧ cast_int (F64 x) = I64 (if false then - number "119999" else number "119999").
Proof.
  assert (H1 : "119999" ≠ "") by done.
  assert (H2 : forall_chars PyFloat.is_digit "119999" = true) by reflexivity.
  assert (H3 : (number "119999" < 2 ^ 53)%Z) by (by vm_compute).
  split; [exact H1|]. split; [exact H2|]. split; [exact H3|].
  exact (whole_numbers_are_read_exactly false "119999" H1 H2 H3).
Defined.

(** X14.  In DataReader_Problem5.1, where column 0 or column 4 of a record
    holds a decimal integer below [2 ^ 53] (an entry number, or a type
    1, 0 or -1), [index] and [type] hold exactly that integer at the
    record's row. *)
Theorem index_and_type_hold_the_integers_of_the_file (fs : gmap string string)
    (text : string) (r j : nat) (name : string) (vs : list string)
    (neg : bool) (digits : string) :
  fs !! input_name P51 = Some text →
  well_formed P51 text →
  (name = "index" ∧ j = 0) ∨ (name = "type" ∧ j = 4) →
  records (delimiter_of P51) (skip_header_of P51) text !! r = Some vs →
  vs !! j = Some (signed neg digits) →
  digits ≠ "" →
  forall_chars PyFloat.is_digit digits = true →
  (number digits < 2 ^ 53)%Z →
  ∃ a, globals (final P51 fs) !! name = Some a
     ∧ items (heap (final P51 fs)) a !! r
       = Some (I64 (if neg then - number digits else number digits)).
Proof.
  intros Hfile Hwf Hname Hr Hj Hne Hd Hn.
  destruct (projections_hold P51 fs text Hfile Hwf) as (_ & _ & _ & Hindex & Htype).
  assert (Hcol : copy_of_column (final P51 fs) name j
                   (records (delimiter_of P51) (skip_header_of P51) text)).
  { by destruct Hname as [[-> ->]|[-> ->]]. }
  destruct Hcol as (data & v & _ & Hv & _ & Hitems & _).
  exists v. split; [done|]. rewrite Hitems. unfold column.
  rewrite !list_lookup_fmap, Hr. simpl.
  rewrite (list_lookup_total_correct _ _ _ Hj).
  f_equal. by apply whole_cell.
Qed.

Lemma index_and_type_hold_the_integers_of_the_file_witness :
  ({[ Problem51.fname := signal_sample ]} : gmap string string) !! input_name P51
  = Some signal_sample
  ∧ well_formed P51 signal_sample
  ∧ (("type" = "index" ∧ 4 = 0) ∨ ("type" = "type" ∧ 4 = 4))
  ∧ records (delimiter_of P51) (skip_header_of P51) signal_sample !! 2
    = Some ["2"; "0.125"; "1.875"; "2.125"; "-1"]
  ∧ ["2"; "0.125"; "1.875"; "2.125"; "-1"] !! 4 = Some (signed true "1")
  ∧ "1" ≠ ""
  ∧ forall_chars PyFloat.is_digit "1" = true
  ∧ (number "1" < 2 ^ 53)%Z
  ∧ ∃ a, globals (final P51 {[ Problem51.fname := signal_sample ]}) !! "type" = Some a
       ∧ items (heap (final P51 {[ Problem51.fname := signal_sample ]})) a !! 2
         = Some (I64 (if true then - number "1" else number "1")).
Proof.
  assert (H1 : ({[ Problem51.fname := signal_sample ]} : gmap string string)
               !! input_name P51 = Some signal_sample) by reflexivity.
  assert (H2 : well_formed P51 signal_sample).
  { split; vm_compute; [lia | repeat constructor]. }
  assert (H3 : ("type" = "index" ∧ 4 = 0) ∨ ("type" = "type" ∧ 4 = 4)) by (by right).
  assert (H4 : records (delimiter_of P51) (skip_header_of P51) signal_sample !! 2
               = Some ["2"; "0.125"; "1.875"; "2.125"; "-1"]) by (by vm_compute).
  assert (H5 : ["2"; "0.125"; "1.875"; "2.125"; "-1"] !! 4 = Some (signed true "1"))
    by reflexivity.
  assert (H6 : "1" ≠ "") by done.
  assert (H7 : forall_chars PyFloat.is_digit "1" = true) by reflexivity.
  assert (H8 : (number "1" < 2 ^ 53)%Z) by (by vm_compute).
  split; [exact H1|]. split; [exact H2|]. split; [exact H3|]. split; [exact H4|].
  split; [exact H5|]. split; [exact H6|]. split; [exact H7|]. split; [exact H8|].
  exact (index_and_type_hold_the_integers_of_the_file _ _ 2 4 "type" _ true "1"
           H1 H2 H3 H4 H5 H6 H7 H8).
Defined.

(** ** The lines a [ValueError] lists *)

Lemma parse_lines_written s nbcols k i (rows : list (list string)) :
  Forall (λ r, r ≠ [] ∧ Forall (plain s) r) rows →
  parse_lines (delimiter_of s) nbcols k i
    ((λ r, String.append (join (separator s) r) (String PyStr.LF "")) <$> rows)
  = (filter (λ r, length r = nbcols) rows, odd_lines nbcols (i + k + 1) rows).
Proof.
  intros Hrows. revert i.
  induction Hrows as [|r rows [Hne Hr] _ IH]; intros i; [done|].
  rewrite fmap_cons. cbn [parse_lines].
  rewrite (IH (S i)), split_line_written by done.
  assert (H0 : (length r =? 0) = false) by (by destruct r).
  rewrite H0. cbn [odd_lines].
  destruct (Nat.eqb_spec (length r) nbcols) as [Hn|Hn]; cbn [negb app].
  - by rewrite filter_cons_True.
  - by rewrite filter_cons_False.
Qed.

Lemma odd_lines_nil nbcols line rows :
  odd_lines nbcols line rows = [] → Forall (λ r, length r = nbcols) rows.
Proof.
  revert line. induction rows as [|r rows IH]; intros line; [done|].
  simpl. destruct (Nat.eqb_spec (length r) nbcols) as [Hn|Hn]; [|done].
  simpl. intros H. constructor; [done|]. by eapply IH.
Qed.

Lemma genfromtxt_written_ragged s header r0 (rest : list (list string)) w :
  forall_chars no_line_end header = true →
  Forall (λ r, r ≠ [] ∧ Forall (plain s) r) (r0 :: rest) →
  ¬ Forall (λ r, length r = length r0) rest →
  files w !! input_name s = Some (written s header (r0 :: rest)) →
  genfromtxt (input_name s) (delimiter_of s) (skip_header_of s) w
  = (add_event (EvOpen (input_name s)) w,
     inl (ValueError (length r0)
            (odd_lines (length r0) (skip_header_of s + 1) (r0 :: rest)))).
Proof.
  intros Hheader Hrows Hodd Hfile. unfold genfromtxt.
  rewrite (open_bind _ _ w _ Hfile). cbv beta. unfold written.
  rewrite readlines_unlines; cycle 1.
  { apply Forall_app. split; [by apply Forall_replicate|].
    apply Forall_fmap. eapply Forall_impl; [exact Hrows|].
    intros r [_ Hr]. simpl. apply forall_chars_join.
    - apply separator_chars. by destruct s.
    - eapply plain_fields_chars; [|done]. intros c Hc.
      by destruct (plain_char_spec s c Hc) as (_ & _ & ? & _). }
  rewrite fmap_app, drop_app_length'
    by (by rewrite length_fmap, length_replicate).
  rewrite <- list_fmap_compose.
  rewrite fmap_cons. cbn [first_valid compose].
  pose proof Hrows as [[Hne0 Hr0] Hrest]%Forall_cons.
  rewrite split_line_written by done.
  destruct r0 as [|f0 r0]; [done|].
  unfold mbind at 1, M_bind at 1, mret at 1, M_ret at 1.
  change ((join (separator s) (f0 :: r0) +:+ String PyStr.LF "")
          :: ((λ l : string, l +:+ String PyStr.LF "") ∘ join (separator s) <$> rest))
    with ((λ r, String.append (join (separator s) r) (String PyStr.LF ""))
          <$> ((f0 :: r0) :: rest)).
  rewrite parse_lines_written by done.
  change (0 + skip_header_of s + 1) with (skip_header_of s + 1).
  destruct (odd_lines _ _ _) as [|bad invalid] eqn:Eodd; [|done].
  apply odd_lines_nil, Forall_cons in Eodd as [_ Eodd]. by destruct Hodd.
Qed.

(** X15.  The [ValueError] of a file whose records differ in length names
    the lines at fault: in a file written from rows of fields, it lists
    every line whose number of fields is not that of the first record,
    with its line number in the file, counted from one, and the number
    of fields it has, and no other line. *)
Theorem value_error_lists_the_odd_lines (s : script_id) (header : string)
    (r0 : list string) (rest : list (list string)) (fs : gmap string string) :
  forall_chars no_line_end header = true →
  Forall (λ r, r ≠ [] ∧ Forall (plain s) r) (r0 :: rest) →
  ¬ Forall (λ r, length r = length r0) rest →
  fs !! input_name s = Some (written s header (r0 :: rest)) →
  outcome s fs
  = inl (ValueError (length r0)
           (odd_lines (length r0) (skip_header_of s + 1) (r0 :: rest))).
Proof.
  intros Hheader Hrows Hodd Hfile. unfold outcome.
  by rewrite (load_fails s fs _ _
                (genfromtxt_written_ragged s header r0 rest (boot fs)
                   Hheader Hrows Hodd Hfile)).
Qed.

Lemma value_error_lists_the_odd_lines_witness :
  forall_chars no_line_end "Year,PopIndia,PopChina" = true
  ∧ Forall (λ r, r ≠ [] ∧ Forall (plain P41) r)
      (["1960"; "445"; "667"] :: tail population_gaps)
  ∧ ¬ Forall (λ r, length r = length ["1960"; "445"; "667"]) (tail population_gaps)
  ∧ ({[ Problem41.fname := written P41 "Year,PopIndia,PopChina" population_gaps ]}
     : gmap string string) !! input_name P41
    = Some (written P41 "Year,PopIndia,PopChina"
              (["1960"; "445"; "667"] :: tail population_gaps))
  ∧ outcome P41
      {[ Problem41.fname := written P41 "Year,PopIndia,PopChina" population_gaps ]}
    = inl (ValueError (length ["1960"; "445"; "667"])
             (odd_lines (length ["1960"; "445"; "667"]) (skip_header_of P41 + 1)
                (["1960"; "445"; "667"] :: tail population_gaps))).
Proof.
  assert (H1 : forall_chars no_line_end "Year,PopIndia,PopChina" = true) by reflexivity.
  assert (H2 : Forall (λ r, r ≠ [] ∧ Forall (plain P41) r)
                 (["1960"; "445"; "667"] :: tail population_gaps)).
  { repeat constructor; done. }
  assert (H3 : ¬ Forall (λ r, length r = length ["1960"; "445"; "667"])
                   (tail population_gaps)).
  { intros H. inversion H as [|? ? Hlen _]. discriminate Hlen. }
  assert (H4 : ({[ Problem41.fname
                   := written P41 "Year,PopIndia,PopChina" population_gaps ]}
                : gmap string string) !! input_name P41
               = Some (written P41 "Year,PopIndia,PopChina"
                         (["1960"; "445"; "667"] :: tail population_gaps)))
    by reflexivity.
  split; [exact H1|]. split; [exact H2|]. split; [exact H3|]. split; [exact H4|].
  exact (value_error_lists_the_odd_lines P41 _ _ _ _ H1 H2 H3 H4).
Defined.

(** In that file the third and the fifth line are at fault. *)
Example population_gaps_report :
  odd_lines 3 (skip_header_of P41 + 1) population_gaps = [(3, 2); (5, 4)].
Proof. reflexivity. Qed.

(** ** A last line without a line end *)

Section last_line.
Local Open Scope string_scope.

Local Arguments String.append !_ _ / : simpl nomatch.

Lemma readlines_unlines_app (ls : list string) rest :
  Forall (λ l, forall_chars no_line_end l = true) ls →
  PyStr.readlines (PyStr.unlines ls ++ rest)
  = app ((λ l, l ++ String PyStr.LF "") <$> ls) (PyStr.readlines rest).
Proof.
  induction 1 as [|l ls Hl _ IH]; [done|].
  cbn [PyStr.unlines foldr]. fold (PyStr.unlines ls).
  rewrite append_assoc. cbn [String.append].
  by rewrite readlines_line, IH.
Qed.

Lemma readlines_plain l :
  forall_chars no_line_end l = true →
  PyStr.readlines l = match l with "" => [] | _ => [l] end.
Proof.
  intros Hl. unfold PyStr.readlines. rewrite universal_newlines_id; cycle 1.
  { eapply forall_chars_impl; [|done]. intros c. unfold no_line_end.
    rewrite andb_true_iff. by intros [? _]. }
  assert (Hlf : forall_chars (λ c, negb (Ascii.eqb c PyStr.LF)) l = true).
  { eapply forall_chars_impl; [|done]. intros c. unfold no_line_end.
    rewrite andb_true_iff. by intros [_ ?]. }
  clear Hl. induction l as [|c l IH]; [done|].
  cbn [forall_chars] in Hlf. apply andb_true_iff in Hlf as [Hc Hlf].
  apply negb_true_iff in Hc. cbn [PyStr.lines_of]. rewrite Hc, (IH Hlf).
  by destruct l.
Qed.

(** The part of a line before its comment, with a line feed after the
    line. *)
Lemma before_comment_lf l :
  ∃ t, forall_chars (λ c, PyStr.mem c blanks) t = true
       ∧ hd "" (PyStr.split comments (l ++ String PyStr.LF ""))
         = hd "" (PyStr.split comments l) ++ t.
Proof.
  unfold comments, PyStr.split. induction l as [|a l (t & Ht & IH)].
  - by exists (String PyStr.LF "").
  - cbn [String.append PyStr.split_at]. rewrite !prefix_char.
    destruct (Ascii.eqb "#" a); [by exists ""|].
    exists t. split; [done|].
    destruct (PyStr.split_at "#" 0 (l ++ String PyStr.LF "")) as [|x xs],
             (PyStr.split_at "#" 0 l) as [|y ys]; simpl in *; by rewrite ?IH.
Qed.

Lemma strip_tail_blanks p x t :
  forall_chars p t = true → PyStr.strip p (x ++ t) = PyStr.strip p x.
Proof.
  intros Ht. unfold PyStr.strip. induction x as [|c x IH].
  - cbn [String.append]. by rewrite lstrip_all.
  - cbn [String.append PyStr.lstrip]. destruct (p c); [done|].
    change (String c (x ++ t)) with (String c x ++ t). by apply rstrip_tail.
Qed.

Lemma split_line_lf delimiter l :
  split_line delimiter (l ++ String PyStr.LF "") = split_line delimiter l.
Proof.
  unfold split_line. destruct (before_comment_lf l) as (t & Ht & ->).
  by rewrite strip_tail_blanks.
Qed.

Lemma records_last_line delimiter k (ls : list string) l :
  Forall (λ l, forall_chars no_line_end l = true) ls →
  forall_chars no_line_end l = true →
  records delimiter k (PyStr.unlines ls ++ l)
  = records delimiter k (PyStr.unlines (ls ++ [l])%list).
Proof.
  intros Hls Hl. unfold records.
  rewrite readlines_unlines_app, readlines_plain by done.
  rewrite readlines_unlines by (apply Forall_app; split; [done|by constructor]).
  rewrite fmap_app. cbn [fmap list_fmap].
  rewrite !drop_app, !fmap_app, !filter_app. f_equal.
  rewrite length_fmap.
  destruct (k - length ls)%nat as [|j]; cbn [drop].
  - destruct l as [|c l]; [done|].
    cbn [fmap list_fmap]. by rewrite split_line_lf.
  - destruct l; cbn [drop]; by rewrite ?drop_nil.
Qed.

End last_line.

(** X16.  The last line of the file need not end in a line feed: the
    script runs on the file without it as on the file with it. *)
Theorem last_line_needs_no_line_end (s : script_id) (ls : list string) (l : string)
    (fs1 fs2 : gmap string string) :
  Forall (λ l, forall_chars no_line_end l = true) ls →
  forall_chars no_line_end l = true →
  fs1 !! input_name s = Some (String.append (PyStr.unlines ls) l) →
  fs2 !! input_name s = Some (PyStr.unlines (ls ++ [l])) →
  same_memory (final s fs1) (final s fs2)
  ∧ same_outcome (outcome s fs1) (outcome s fs2).
Proof.
  intros Hls Hl Hf1 Hf2.
  apply (same_records_same_run s fs1 fs2 _ _ Hf1 Hf2).
  by apply records_last_line.
Qed.

Lemma last_line_needs_no_line_end_witness :
  Forall (λ l, forall_chars no_line_end l = true) ["1.5"; "2.5"]
  ∧ forall_chars no_line_end "3.5" = true
  ∧ ({[ Problem52.fname := String.append (PyStr.unlines ["1.5"; "2.5"]) "3.5" ]}
     : gmap string string) !! input_name P52
    = Some (String.append (PyStr.unlines ["1.5"; "2.5"]) "3.5")
  ∧ ({[ Problem52.fname := decay_sample ]} : gmap string string) !! input_name P52
    = Some (PyStr.unlines (["1.5"; "2.5"] ++ ["3.5"]))
  ∧ same_memory
      (final P52 {[ Problem52.fname
                    := String.append (PyStr.unlines ["1.5"; "2.5"]) "3.5" ]})
      (final P52 {[ Problem52.fname := decay_sample ]})
  ∧ same_outcome
      (outcome P52 {[ Problem52.fname
                      := String.append (PyStr.unlines ["1.5"; "2.5"]) "3.5" ]})
      (outcome P52 {[ Problem52.fname := decay_sample ]}).
Proof.
  assert (H1 : Forall (λ l, forall_chars no_line_end l = true) ["1.5"; "2.5"])
    by (by repeat constructor).
  assert (H2 : forall_chars no_line_end "3.5" = true) by reflexivity.
  assert (H3 : ({[ Problem52.fname
                   := String.append (PyStr.unlines ["1.5"; "2.5"]) "3.5" ]}
                : gmap string string) !! input_name P52
               = Some (String.append (PyStr.unlines ["1.5"; "2.5"]) "3.5"))
    by reflexivity.
  assert (H4 : ({[ Problem52.fname := decay_sample ]} : gmap string string)
               !! input_name P52
               = Some (PyStr.unlines (["1.5"; "2.5"] ++ ["3.5"]))) by reflexivity.
  split; [exact H1|]. split; [exact H2|]. split; [exact H3|]. split; [exact H4|].
  exact (last_line_needs_no_line_end P52 _ _ _ _ H1 H2 H3 H4).
Defined.

(** ** Blanks around a number *)

Section padded.
Local Open Scope string_scope.
Import PyFloat.

Local Arguments String.append !_ _ / : simpl nomatch.

Lemma drop_underscores_prev p1 p2 s :
  is_digit p1 = is_digit p2 → Ascii.eqb p1 "_" = Ascii.eqb p2 "_" →
  drop_underscores p1 s = drop_underscores p2 s.
Proof.
  intros Hd Hu. destruct s as [|c s]; cbn [drop_underscores]; by rewrite ?Hd, ?Hu.
Qed.

Lemma drop_underscores_spaces prev m :
  drop_underscores prev (spaces m)
  = if Ascii.eqb prev "_" then None else Some (spaces m).
Proof.
  destruct m as [|m]; [done|]. cbn [spaces drop_underscores].
  change (Ascii.eqb " " "_") with false. cbn [is_digit negb andb].
  change (is_digit " ") with false. cbn [negb]. rewrite andb_true_r.
  destruct (Ascii.eqb prev "_"); [done|].
  rewrite drop_underscores_plain; [done..|].
  by apply forall_chars_spaces.
Qed.

Lemma drop_underscores_trailing prev f m :
  drop_underscores prev (f ++ spaces m)
  = (λ s1, s1 ++ spaces m) <$> drop_underscores prev f.
Proof.
  revert prev. induction f as [|c f IH]; intros prev.
  - cbn [String.append drop_underscores]. rewrite drop_underscores_spaces.
    by destruct (Ascii.eqb prev "_").
  - cbn [String.append drop_underscores].
    destruct (Ascii.eqb c "_").
    + destruct (is_digit prev); [apply IH|done].
    + destruct (Ascii.eqb prev "_" && negb (is_digit c)); [done|].
      rewrite IH. by destruct (drop_underscores c f).
Qed.

Lemma drop_underscores_leading n x :
  drop_underscores (ascii_of_nat 0) (spaces n ++ x)
  = (λ s1, spaces n ++ s1) <$> drop_underscores (ascii_of_nat 0) x.
Proof.
  induction n as [|n IH].
  - cbn [spaces String.append]. by destruct (drop_underscores _ x).
  - cbn [spaces String.append drop_underscores].
    change (Ascii.eqb " " "_") with false.
    change (Ascii.eqb (ascii_of_nat 0) "_" && negb (is_digit " ")) with false.
    cbn iota.
    rewrite (drop_underscores_prev " " (ascii_of_nat 0)) by done.
    rewrite IH. by destruct (drop_underscores _ x).
Qed.

Lemma lstrip_spaces n x :
  PyStr.lstrip is_float_space (spaces n ++ x) = PyStr.lstrip is_float_space x.
Proof. induction n as [|n IH]; [done|]. cbn [spaces String.append PyStr.lstrip]. exact IH. Qed.

(** [float] takes no notice of blanks around the number. *)
Lemma float_of_padded n m f :
  float_of_str (spaces n ++ f ++ spaces m) = float_of_str f.
Proof.
  unfold float_of_str.
  rewrite drop_underscores_leading, drop_underscores_trailing.
  destruct (drop_underscores (ascii_of_nat 0) f) as [s1|]; [|done].
  cbn [fmap option_fmap option_map mbind option_bind].
  replace (PyStr.strip is_float_space (spaces n ++ s1 ++ spaces m))
    with (PyStr.strip is_float_space s1); [done|].
  unfold PyStr.strip at 2. rewrite lstrip_spaces.
  fold (PyStr.strip is_float_space (s1 ++ spaces m)).
  rewrite strip_tail_blanks; [done|]. by apply forall_chars_spaces.
Qed.

Lemma cell_padded n m f : cell (spaces n ++ f ++ spaces m) = cell f.
Proof. unfold cell, loose_call. by rewrite float_of_padded. Qed.

Lemma cell_spaced n f : cell (spaces n ++ f) = cell f.
Proof.
  rewrite <- (cell_padded n 0 f). cbn [spaces]. by rewrite append_nil_r.
Qed.

End padded.

(** ** Files that read as the same numbers *)

Lemma same_cells_lengths recs1 recs2 k :
  same_cells recs1 recs2 →
  Forall (λ vs, length vs = k) recs1 → Forall (λ vs, length vs = k) recs2.
Proof.
  induction 1 as [|r1 r2 recs1 recs2 Hr _ IH]; [done|].
  intros [Hk Hall]%Forall_cons. constructor; [|by apply IH].
  by rewrite <- (Forall2_length _ _ _ Hr).
Qed.

Lemma same_cells_concat recs1 recs2 :
  same_cells recs1 recs2 → cell <$> concat recs1 = cell <$> concat recs2.
Proof.
  induction 1 as [|r1 r2 recs1 recs2 Hr _ IH]; [done|].
  cbn [concat]. rewrite !fmap_app, IH. f_equal.
  clear -Hr. induction Hr as [|f g r1 r2 Hfg _ IH]; [done|].
  csimpl. by rewrite Hfg, IH.
Qed.

Lemma same_cells_loaded b recs1 recs2 :
  same_cells recs1 recs2 →
  loaded b recs1 = loaded b recs2
  ∧ ∀ fname, load_warning fname recs1 = load_warning fname recs2.
Proof.
  intros H. pose proof (Forall2_length _ _ _ H) as Hlen.
  destruct H as [|r1 r2 recs1 recs2 Hr _]; [done|].
  unfold loaded. by rewrite Hlen, (Forall2_length _ _ _ Hr).
Qed.

Lemma same_cells_sym recs1 recs2 : same_cells recs1 recs2 → same_cells recs2 recs1.
Proof.
  intros H. apply Forall2_flip. eapply Forall2_impl; [exact H|].
  intros r1 r2 Hr. apply Forall2_flip. eapply Forall2_impl; [exact Hr|]. done.
Qed.

(** Two files whose records read as the same floats give the same run,
    up to the lines a [ValueError] lists. *)
Lemma same_cells_same_run s fs1 fs2 t1 t2 :
  fs1 !! input_name s = Some t1 → fs2 !! input_name s = Some t2 →
  same_cells (records (delimiter_of s) (skip_header_of s) t1)
             (records (delimiter_of s) (skip_header_of s) t2) →
  same_memory (final s fs1) (final s fs2)
  ∧ same_outcome (outcome s fs1) (outcome s fs2).
Proof.
  intros Hf1 Hf2 Hcells.
  destruct (uniform_or_ragged s t1) as [[k Hall]|Hragged].
  - pose proof (genfromtxt_loaded (delimiter_of s) (input_name s) (skip_header_of s)
                  (boot fs1) t1 k Hf1 Hall) as E1.
    pose proof (genfromtxt_loaded (delimiter_of s) (input_name s) (skip_header_of s)
                  (boot fs2) t2 k Hf2 (same_cells_lengths _ _ k Hcells Hall)) as E2.
    destruct (same_cells_loaded 0 _ _ Hcells) as [Hloaded Hwarn].
    rewrite <- (same_cells_concat _ _ Hcells), <- Hwarn in E2.
    change (length (heap (boot fs2))) with 0 in E2. rewrite <- Hloaded in E2.
    destruct (runs_agree s fs1 fs2 _ _ _ E1 E2) as [Hw Ho]; [done|].
    split; [done|]. rewrite Ho. apply same_outcome_refl.
  - unfold ragged in Hragged.
    destruct (records _ _ t1) as [|r1 recs1] eqn:Hr1; [done|].
    destruct (records _ _ t2) as [|r2 recs2] eqn:Hr2; [by inversion Hcells|].
    apply Forall2_cons in Hcells as [Hr Hrecs].
    pose proof (Forall2_length _ _ _ Hr) as Hlen.
    assert (Hragged' : ¬ Forall (λ vs, length vs = length r2) recs2).
    { intros Hall. apply Hragged. rewrite Hlen.
      apply (same_cells_lengths recs2 recs1); [|done]. by apply same_cells_sym. }
    destruct (genfromtxt_ragged (delimiter_of s) (input_name s) (skip_header_of s)
                (boot fs1) t1 Hf1 r1 recs1 Hr1 Hragged) as (inv1 & E1).
    destruct (genfromtxt_ragged (delimiter_of s) (input_name s) (skip_header_of s)
                (boot fs2) t2 Hf2 r2 recs2 Hr2 Hragged') as (inv2 & E2).
    unfold final, outcome.
    by rewrite (load_fails s fs1 _ _ E1), (load_fails s fs2 _ _ E2).
Qed.

Section spaced.
Local Open Scope string_scope.

Local Arguments String.append !_ _ / : simpl nomatch.

Lemma join_prepend sep x g (fields : list string) :
  x ++ join sep (g :: fields) = join sep ((x ++ g) :: fields).
Proof. destruct fields; [done|]. cbn [join]. by rewrite append_assoc. Qed.

Lemma join_spaced n (r : list string) :
  join (String "," (spaces n)) r = join "," (spaced n r).
Proof.
  destruct r as [|f r]; [done|]. cbn [spaced]. revert f.
  induction r as [|g r IH]; intros f; [done|].
  change (join (String "," (spaces n)) (f :: g :: r))
    with (f ++ String "," (spaces n) ++ join (String "," (spaces n)) (g :: r)).
  rewrite fmap_cons.
  change (join "," (f :: (spaces n ++ g) :: (String.append (spaces n) <$> r)))
    with (f ++ "," ++ join "," ((spaces n ++ g) :: (String.append (spaces n) <$> r))).
  by rewrite IH, <- join_prepend.
Qed.

Lemma join_cons_nonempty sep g (fields : list string) :
  g ≠ "" → join sep (g :: fields) ≠ "".
Proof. intros Hg. destruct g; [done|]. by destruct fields. Qed.

(** A line whose fields end in something other than a blank is left as
    it is by [rstrip]. *)
Lemma rstrip_join_last p sep (fields : list string) :
  Forall (λ g, g ≠ "" ∧ PyStr.rstrip p g = g) fields →
  PyStr.rstrip p (join sep fields) = join sep fields.
Proof.
  induction 1 as [|f fields [Hne Hf] Hfields IH]; [done|].
  destruct fields as [|g fields]; [done|].
  change (join sep (f :: g :: fields)) with (f ++ sep ++ join sep (g :: fields)).
  pose proof Hfields as [[Hg _] _]%Forall_cons.
  pose proof (join_cons_nonempty sep g fields Hg) as Hj.
  apply rstrip_app.
  - destruct sep; [done|done].
  - apply rstrip_app; done.
Qed.

Lemma spaced_fields s n (r : list string) (q : ascii → bool) :
  q " "%char = true → (∀ c, plain_char s c = true → q c = true) →
  Forall (plain s) r → Forall (λ g, forall_chars q g = true) (spaced n r).
Proof.
  intros Hsp Hq Hr. destruct r as [|f r]; [done|].
  apply Forall_cons in Hr as [[_ Hf] Hr]. cbn [spaced]. constructor.
  - by eapply forall_chars_impl.
  - apply Forall_fmap. eapply Forall_impl; [exact Hr|].
    intros g [_ Hg]. simpl. rewrite forall_chars_app, forall_chars_spaces by done.
    by eapply forall_chars_impl.
Qed.

Lemma spaced_stripped s n (r : list string) :
  Forall (plain s) r →
  Forall (λ g, g ≠ "" ∧ PyStr.rstrip (λ c, PyStr.mem c blanks) g = g) (spaced n r).
Proof.
  intros Hr.
  assert (Hplain : ∀ f, plain s f →
            f ≠ "" ∧ PyStr.rstrip (λ c, PyStr.mem c blanks) f = f).
  { intros f [Hne Hf]. split; [done|]. apply rstrip_fixed.
    eapply forall_chars_impl; [|done]. intros c Hc.
    by destruct (plain_char_spec s c Hc) as (? & _). }
  destruct r as [|f r]; [done|].
  apply Forall_cons in Hr as [Hf Hr]. cbn [spaced]. constructor; [by apply Hplain|].
  apply Forall_fmap. eapply Forall_impl; [exact Hr|].
  intros g Hg. destruct (Hplain g Hg) as [Hne Hstrip]. simpl. split.
  - destruct (spaces n); [done|done].
  - by apply rstrip_app.
Qed.

(** The fields of a line written with blanks after the commas. *)
Lemma split_line_spaced s n (r : list string) :
  s ≠ P52 → r ≠ [] → Forall (plain s) r →
  split_line (delimiter_of s) (join (String "," (spaces n)) r ++ String PyStr.LF "")
  = spaced n r.
Proof.
  intros Hs Hne Hr. rewrite join_spaced. unfold split_line, comments.
  rewrite split_none; cycle 1.
  { rewrite forall_chars_app. apply andb_true_iff. split; [|done].
    apply forall_chars_join; [done|].
    apply (spaced_fields s); [done| |done]. intros c Hc.
    by destruct (plain_char_spec s c Hc) as (_ & ? & _). }
  cbn [hd].
  assert (Hhead : ∃ c rest, join "," (spaced n r) = String c rest
                            ∧ PyStr.mem c blanks = false).
  { destruct r as [|f r]; [done|].
    pose proof Hr as [[Hf Hchars] _]%Forall_cons. cbn [spaced].
    destruct (join_head "," f (String.append (spaces n) <$> r) Hf)
      as (c & rest & -> & E).
    eexists _, _. split; [exact E|].
    simpl in Hchars. apply andb_true_iff in Hchars as [Hc _].
    destruct (plain_char_spec s c Hc) as (Hb & _). by apply negb_true_iff. }
  rewrite strip_tail; [|done|]; cycle 1.
  { right. split; [done|]. by apply rstrip_join_last, (spaced_stripped s). }
  destruct Hhead as (c & rest & E & _). rewrite E, <- E.
  assert (Hsplit : PyStr.split "," (join "," (spaced n r)) = spaced n r).
  { apply split_join; [by destruct r|].
    apply (spaced_fields s); [done| |done]. intros d Hd.
    destruct (plain_char_spec s d Hd) as (_ & _ & _ & Hcomma).
    by destruct s. }
  by destruct s.
Qed.

End spaced.

Lemma records_written_spaced s n header (rows : list (list string)) :
  s ≠ P52 →
  forall_chars no_line_end header = true →
  Forall (λ r, r ≠ [] ∧ Forall (plain s) r) rows →
  records (delimiter_of s) (skip_header_of s) (written_spaced s n header rows)
  = spaced n <$> rows.
Proof.
  intros Hs Hheader Hrows. unfold records, written_spaced.
  rewrite readlines_unlines; cycle 1.
  { apply Forall_app. split; [by apply Forall_replicate|].
    apply Forall_fmap. eapply Forall_impl; [exact Hrows|].
    intros r [_ Hr]. simpl. apply forall_chars_join.
    - simpl. by apply forall_chars_spaces.
    - eapply plain_fields_chars; [|done]. intros c Hc.
      by destruct (plain_char_spec s c Hc) as (_ & _ & ? & _). }
  rewrite fmap_app, drop_app_length'
    by (by rewrite length_fmap, length_replicate).
  rewrite <- !list_fmap_compose.
  induction Hrows as [|r rows [Hne Hr] _ IH]; [done|].
  csimpl. rewrite split_line_spaced by done.
  rewrite filter_cons_True by (by destruct r). by rewrite IH.
Qed.

Lemma same_cells_spaced n (rows : list (list string)) :
  same_cells (spaced n <$> rows) rows.
Proof.
  induction rows as [|r rows IH]; [constructor|].
  csimpl. constructor; [|exact IH].
  destruct r as [|f r]; [constructor|]. cbn [spaced]. constructor; [done|].
  induction r as [|g r IHr]; [constructor|].
  csimpl. constructor; [apply cell_spaced|exact IHr].
Qed.

(** The main loop on lines whose fields are known. *)
Lemma parse_lines_fields delimiter nbcols k i lines (rows : list (list string)) :
  split_line delimiter <$> lines = rows →
  Forall (λ r, r ≠ []) rows →
  parse_lines delimiter nbcols k i lines
  = (filter (λ r, length r = nbcols) rows, odd_lines nbcols (i + k + 1) rows).
Proof.
  intros <-. revert i.
  induction lines as [|line lines IH]; intros i Hrows; [done|].
  rewrite fmap_cons in Hrows. apply Forall_cons in Hrows as [Hne Hrows].
  rewrite fmap_cons. cbn [parse_lines].
  rewrite (IH (S i)) by done.
  assert (H0 : (length (split_line delimiter line) =? 0) = false)
    by (by destruct (split_line delimiter line)).
  rewrite H0. cbn [odd_lines].
  destruct (Nat.eqb_spec (length (split_line delimiter line)) nbcols) as [Hn|Hn];
    cbn [negb app].
  - by rewrite filter_cons_True.
  - by rewrite filter_cons_False.
Qed.

(** The lines listed depend on the number of fields of each row only. *)
Lemma odd_lines_lengths nbcols line (rows1 rows2 : list (list string)) :
  length <$> rows1 = length <$> rows2 →
  odd_lines nbcols line rows1 = odd_lines nbcols line rows2.
Proof.
  revert line rows2.
  induction rows1 as [|r1 rows1 IH]; intros line [|r2 rows2]; try done.
  rewrite !fmap_cons. intros [= Hr Hrows]. cbn [odd_lines].
  by rewrite Hr, (IH (S line) rows2).
Qed.

(** [np.genfromtxt] on a file whose lines after the header all have
    fields, not all as many as the first. *)
Lemma genfromtxt_ragged_fields delimiter fname skip_header w text lines r0
    (rest : list (list string)) :
  files w !! fname = Some text →
  drop skip_header (PyStr.readlines text) = lines →
  split_line delimiter <$> lines = r0 :: rest →
  Forall (λ r, r ≠ []) (r0 :: rest) →
  ¬ Forall (λ r, length r = length r0) rest →
  genfromtxt fname delimiter skip_header w
  = (add_event (EvOpen fname) w,
     inl (ValueError (length r0)
            (odd_lines (length r0) (skip_header + 1) (r0 :: rest)))).
Proof.
  intros Hfile Hlines Hfields Hne Hodd. unfold genfromtxt.
  rewrite (open_bind _ _ w _ Hfile). cbv beta. rewrite Hlines.
  destruct lines as [|l0 ls]; [done|].
  pose proof Hfields as Hfields'.
  rewrite fmap_cons in Hfields'. injection Hfields' as Hl0 Hls.
  cbn [first_valid]. rewrite Hl0.
  pose proof Hne as [Hne0 _]%Forall_cons.
  destruct r0 as [|f0 r0]; [done|].
  unfold mbind at 1, M_bind at 1, mret at 1, M_ret at 1.
  rewrite (parse_lines_fields _ _ _ _ _ _ Hfields Hne).
  change (0 + skip_header + 1) with (skip_header + 1).
  destruct (odd_lines _ _ _) as [|bad invalid] eqn:Eodd; [|done].
  apply odd_lines_nil, Forall_cons in Eodd as [_ Eodd]. by destruct Hodd.
Qed.

Lemma length_spaced n (r : list string) : length (spaced n r) = length r.
Proof. destruct r; [done|]. cbn [spaced length]. by rewrite length_fmap. Qed.

Lemma written_spaced_ragged s n header r0 (rest : list (list string)) w :
  s ≠ P52 →
  forall_chars no_line_end header = true →
  Forall (λ r, r ≠ [] ∧ Forall (plain s) r) (r0 :: rest) →
  ¬ Forall (λ r, length r = length r0) rest →
  files w !! input_name s = Some (written_spaced s n header (r0 :: rest)) →
  genfromtxt (input_name s) (delimiter_of s) (skip_header_of s) w
  = (add_event (EvOpen (input_name s)) w,
     inl (ValueError (length r0)
            (odd_lines (length r0) (skip_header_of s + 1) (r0 :: rest)))).
Proof.
  intros Hs Hheader Hrows Hodd Hfile.
  rewrite (genfromtxt_ragged_fields _ _ _ _ _
             ((λ r, String.append (join (String "," (spaces n)) r) (String PyStr.LF ""))
              <$> (r0 :: rest))
             (spaced n r0) (spaced n <$> rest) Hfile).
  - rewrite length_spaced. do 3 f_equal.
    rewrite <- fmap_cons. apply odd_lines_lengths.
    rewrite <- list_fmap_compose. apply list_fmap_ext. intros ? r ?. apply length_spaced.
  - unfold written_spaced.
    rewrite readlines_unlines; cycle 1.
    { apply Forall_app. split; [by apply Forall_replicate|].
      apply Forall_fmap. eapply Forall_impl; [exact Hrows|].
      intros r [_ Hr]. simpl. apply forall_chars_join.
      - simpl. by apply forall_chars_spaces.
      - eapply plain_fields_chars; [|done]. intros c Hc.
        by destruct (plain_char_spec s c Hc) as (_ & _ & ? & _). }
    rewrite fmap_app, drop_app_length'
      by (by rewrite length_fmap, length_replicate).
    by rewrite <- list_fmap_compose.
  - rewrite <- fmap_cons, <- list_fmap_compose.
    apply Forall_fmap_ext_1. eapply Forall_impl; [exact Hrows|].
    intros r [Hne Hr]. simpl. by apply split_line_spaced.
  - rewrite <- fmap_cons. apply Forall_fmap. eapply Forall_impl; [exact Hrows|].
    intros r [Hne Hr]. simpl. by destruct r.
  - intros Hall. apply Hodd. rewrite Forall_fmap in Hall.
    eapply Forall_impl; [exact Hall|]. intros r. simpl. by rewrite !length_spaced.
Qed.

(** X17.  Blanks after the commas do not matter: a file written with a
    comma and any number of blanks between the fields of a row is read
    by DataReader_Problem4.1 and DataReader_Problem5.1 as the same
    numbers, and the script runs on it as on the file written with
    commas alone, to the same outcome: where the rows differ in length,
    the [ValueError] lists the same lines. *)
Theorem blanks_after_commas_do_not_matter (s : script_id) (n : nat) (header : string)
    (rows : list (list string)) (fs1 fs2 : gmap string string) :
  s ≠ P52 →
  forall_chars no_line_end header = true →
  Forall (λ r, r ≠ [] ∧ Forall (plain s) r) rows →
  fs1 !! input_name s = Some (written_spaced s n header rows) →
  fs2 !! input_name s = Some (written s header rows) →
  same_memory (final s fs1) (final s fs2)
  ∧ outcome s fs1 = outcome s fs2.
Proof.
  intros Hs Hheader Hrows Hf1 Hf2.
  destruct (same_cells_same_run s fs1 fs2 _ _ Hf1 Hf2) as [Hmem Hout].
  { rewrite records_written_spaced, records_written by done.
    apply same_cells_spaced. }
  split; [done|].
  destruct rows as [|r0 rest].
  { apply same_outcome_eq; [done|].
    apply (table_no_value_error s fs1 _ 0 Hf1).
    by rewrite records_written_spaced. }
  destruct (decide (Forall (λ r, length r = length r0) rest)) as [Hall|Hodd].
  - apply same_outcome_eq; [done|].
    apply (table_no_value_error s fs1 _ (length r0) Hf1).
    rewrite records_written_spaced by done.
    rewrite fmap_cons. constructor; [apply length_spaced|].
    apply Forall_fmap. eapply Forall_impl; [exact Hall|].
    intros r. simpl. by rewrite length_spaced.
  - unfold outcome.
    rewrite (load_fails s fs1 _ _
               (written_spaced_ragged s n header r0 rest (boot fs1)
                  Hs Hheader Hrows Hodd Hf1)).
    by rewrite (load_fails s fs2 _ _
                  (genfromtxt_written_ragged s header r0 rest (boot fs2)
                     Hheader Hrows Hodd Hf2)).
Qed.

Lemma blanks_after_commas_do_not_matter_witness :
  P41 ≠ P52
  ∧ forall_chars no_line_end "Year, PopIndia, PopChina" = true
  ∧ Forall (λ r, r ≠ [] ∧ Forall (plain P41) r) population_gaps
  ∧ ({[ Problem41.fname
        := written_spaced P41 1 "Year, PopIndia, PopChina" population_gaps ]}
     : gmap string string) !! input_name P41
    = Some (written_spaced P41 1 "Year, PopIndia, PopChina" population_gaps)
  ∧ ({[ Problem41.fname := written P41 "Year, PopIndia, PopChina" population_gaps ]}
     : gmap string string) !! input_name P41
    = Some (written P41 "Year, PopIndia, PopChina" population_gaps)
  ∧ same_memory
      (final P41 {[ Problem41.fname
                    := written_spaced P41 1 "Year, PopIndia, PopChina"
                         population_gaps ]})
      (final P41 {[ Problem41.fname
                    := written P41 "Year, PopIndia, PopChina" population_gaps ]})
  ∧ outcome P41 {[ Problem41.fname
                   := written_spaced P41 1 "Year, PopIndia, PopChina"
                        population_gaps ]}
    = outcome P41 {[ Problem41.fname
                     := written P41 "Year, PopIndia, PopChina" population_gaps ]}.
Proof.
  assert (H0 : P41 ≠ P52) by done.
  assert (H1 : forall_chars no_line_end "Year, PopIndia, PopChina" = true)
    by reflexivity.
  assert (H2 : Forall (λ r, r ≠ [] ∧ Forall (plain P41) r) population_gaps).
  { repeat constructor; done. }
  assert (H3 : ({[ Problem41.fname
                   := written_spaced P41 1 "Year, PopIndia, PopChina" population_gaps ]}
                : gmap string string) !! input_name P41
               = Some (written_spaced P41 1 "Year, PopIndia, PopChina" population_gaps))
    by reflexivity.
  assert (H4 : ({[ Problem41.fname
                   := written P41 "Year, PopIndia, PopChina" population_gaps ]}
                : gmap string string) !! input_name P41
               = Some (written P41 "Year, PopIndia, PopChina" population_gaps))
    by reflexivity.
  split; [exact H0|]. split; [exact H1|]. split; [exact H2|]. split; [exact H3|].
  split; [exact H4|].
  exact (blanks_after_commas_do_not_matter P41 1 _ _ _ _ H0 H1 H2 H3 H4).
Defined.

(** The rows of the witness differ in length: with and without the
    blanks the load lists the second and the fourth row. *)
Example population_gaps_spaced :
  outcome P41 {[ Problem41.fname
                 := written_spaced P41 1 "Year, PopIndia, PopChina" population_gaps ]}
  = inl (ValueError 3 [(3, 2); (5, 4)])
  ∧ outcome P41 {[ Problem41.fname
                   := written P41 "Year, PopIndia, PopChina" population_gaps ]}
    = inl (ValueError 3 [(3, 2); (5, 4)]).
Proof. split; by vm_compute. Qed.

(** A file of rows of one length written with a blank after each comma,
    and what the script prints for it. *)
Example population_spaced_text :
  written_spaced P41 1 "Year, PopIndia, PopChina" population_rows
  = PyStr.unlines ["Year, PopIndia, PopChina"; "1960, 445954579, 667070000";
                   "1961, 456351876, 660330000"; "1962, 467024193, 665770000"]
  ∧ stdout (final P41 {[ Problem41.fname
                         := written_spaced P41 1 "Year, PopIndia, PopChina"
                              population_rows ]})
    = printed P41 population_rows.
Proof. split; by vm_compute. Qed.

(** ** Missing values *)

Section missing.
Local Open Scope string_scope.

Local Arguments String.append !_ _ / : simpl nomatch.

Lemma join_two_nonempty sep (r : list string) :
  sep ≠ "" → (2 ≤ length r)%nat → join sep r ≠ "".
Proof.
  intros Hsep Hn. destruct r as [|f [|g r]]; [simpl in Hn; lia..|].
  change (join sep (f :: g :: r)) with (f ++ sep ++ join sep (g :: r)).
  destruct f; [|done]. by destruct sep.
Qed.

(** The fields of a line with missing values. *)
Lemma split_line_gappy s (r : list string) :
  s ≠ P52 → gappy s r →
  split_line (delimiter_of s) (join "," r ++ String PyStr.LF "") = r.
Proof.
  intros Hs [Hn Hr]. unfold split_line, comments.
  assert (Hchars : ∀ q : ascii → bool, q ","%char = true →
            (∀ c, plain_char s c = true → q c = true) →
            forall_chars q (join "," r) = true).
  { intros q Hcomma Hq. apply forall_chars_join; [by simpl; rewrite Hcomma|].
    eapply Forall_impl; [exact Hr|]. intros f Hf. by eapply forall_chars_impl. }
  rewrite split_none; cycle 1.
  { rewrite forall_chars_app. apply andb_true_iff. split; [|done].
    apply Hchars; [done|]. intros c Hc.
    by destruct (plain_char_spec s c Hc) as (_ & ? & _). }
  cbn [hd]. rewrite strip_tail_blanks by done.
  rewrite strip_plain; cycle 1.
  { apply Hchars; [done|]. intros c Hc.
    by destruct (plain_char_spec s c Hc) as (? & _). }
  pose proof (join_two_nonempty "," r ltac:(done) Hn) as Hline.
  destruct (join "," r) as [|c line] eqn:E; [done|]. rewrite <- E.
  assert (Hsplit : PyStr.split "," (join "," r) = r).
  { apply split_join; [by destruct r|].
    eapply Forall_impl; [exact Hr|]. intros f Hf.
    eapply forall_chars_impl; [|exact Hf]. intros d Hd.
    destruct (plain_char_spec s d Hd) as (_ & _ & _ & Hcomma). by destruct s. }
  by destruct s.
Qed.

End missing.

Lemma records_gappy s header (rows : list (list string)) :
  s ≠ P52 →
  forall_chars no_line_end header = true →
  Forall (gappy s) rows →
  records (delimiter_of s) (skip_header_of s) (written s header rows) = rows.
Proof.
  intros Hs Hheader Hrows. unfold records, written.
  assert (Hsep : separator s = ",") by (by destruct s).
  rewrite Hsep.
  rewrite readlines_unlines; cycle 1.
  { apply Forall_app. split; [by apply Forall_replicate|].
    apply Forall_fmap. eapply Forall_impl; [exact Hrows|].
    intros r [_ Hr]. simpl. apply forall_chars_join; [done|].
    eapply Forall_impl; [exact Hr|]. intros f Hf.
    eapply forall_chars_impl; [|exact Hf]. intros c Hc.
    by destruct (plain_char_spec s c Hc) as (_ & _ & ? & _). }
  rewrite fmap_app, drop_app_length'
    by (by rewrite length_fmap, length_replicate).
  rewrite <- !list_fmap_compose.
  induction Hrows as [|r rows Hr _ IH]; [done|].
  csimpl. rewrite split_line_gappy by done.
  rewrite filter_cons_True; [by rewrite IH|].
  destruct Hr as [Hn _]. destruct r; [simpl in Hn; lia|done].
Qed.

(** X18.  Missing values: in the files of DataReader_Problem4.1 and
    DataReader_Problem5.1 a field may be empty, nothing between two
    commas or at an end of the line.  The record keeps its fields, the
    empty ones too, so the table keeps its shape, and an empty field is
    read as NaN; no error is raised for it. *)
Theorem missing_values_are_read_as_nan (s : script_id) (header : string)
    (rows : list (list string)) (k : nat) (fs : gmap string string) :
  s ≠ P52 →
  forall_chars no_line_end header = true →
  Forall (gappy s) rows →
  Forall (λ r, length r = k) rows →
  fs !! input_name s = Some (written s header rows) →
  records (delimiter_of s) (skip_header_of s) (written s header rows) = rows
  ∧ cell "" = F64 PyFloat.nan
  ∧ ∃ a, globals (final s fs) !! "data" = Some a
       ∧ shape a = loaded_shape rows
       ∧ items (heap (final s fs)) a = cell <$> concat rows.
Proof.
  intros Hs Hheader Hrows Hk Hfile.
  pose proof (records_gappy s header rows Hs Hheader Hrows) as Hrecs.
  split; [exact Hrecs|]. split; [done|].
  rewrite <- Hrecs in Hk.
  destruct (run_table s fs _ k Hfile Hk) as (Hdata & Hheap & _).
  rewrite Hrecs in *.
  eexists. split; [exact Hdata|]. split; [apply loaded_shape_eq|].
  by eapply loaded_items.
Qed.

Lemma missing_values_are_read_as_nan_witness :
  P41 ≠ P52
  ∧ forall_chars no_line_end "Year,PopIndia,PopChina" = true
  ∧ Forall (gappy P41) population_missing
  ∧ Forall (λ r, length r = 3) population_missing
  ∧ ({[ Problem41.fname := written P41 "Year,PopIndia,PopChina" population_missing ]}
     : gmap string string) !! input_name P41
    = Some (written P41 "Year,PopIndia,PopChina" population_missing)
  ∧ records (delimiter_of P41) (skip_header_of P41)
      (written P41 "Year,PopIndia,PopChina" population_missing)
    = population_missing
  ∧ cell "" = F64 PyFloat.nan
  ∧ ∃ a, globals (final P41 {[ Problem41.fname
                               := written P41 "Year,PopIndia,PopChina"
                                    population_missing ]}) !! "data" = Some a
       ∧ shape a = loaded_shape population_missing
       ∧ items (heap (final P41 {[ Problem41.fname
                                   := written P41 "Year,PopIndia,PopChina"
                                        population_missing ]})) a
         = cell <$> concat population_missing.
Proof.
  assert (H0 : P41 ≠ P52) by done.
  assert (H1 : forall_chars no_line_end "Year,PopIndia,PopChina" = true)
    by reflexivity.
  assert (H2 : Forall (gappy P41) population_missing).
  { repeat constructor; simpl; lia. }
  assert (H3 : Forall (λ r, length r = 3) population_missing)
    by (by repeat constructor).
  assert (H4 : ({[ Problem41.fname
                   := written P41 "Year,PopIndia,PopChina" population_missing ]}
                : gmap string string) !! input_name P41
               = Some (written P41 "Year,PopIndia,PopChina" population_missing))
    by reflexivity.
  split; [exact H0|]. split; [exact H1|]. split; [exact H2|]. split; [exact H3|].
  split; [exact H4|].
  exact (missing_values_are_read_as_nan P41 _ _ 3 _ H0 H1 H2 H3 H4).
Defined.

(** X19.  A run depends on its file only through the numbers: two files
    whose records have, field by field, the same value as floats, however
    the numbers are spelled, give the same array, the same names and the
    same output, and the same outcome up to the lines a [ValueError]
    lists. *)
Theorem the_numbers_decide_the_run (s : script_id) (t1 t2 : string)
    (fs1 fs2 : gmap string string) :
  fs1 !! input_name s = Some t1 →
  fs2 !! input_name s = Some t2 →
  same_cells (records (delimiter_of s) (skip_header_of s) t1)
             (records (delimiter_of s) (skip_header_of s) t2) →
  same_memory (final s fs1) (final s fs2)
  ∧ same_outcome (outcome s fs1) (outcome s fs2).
Proof. apply same_cells_same_run. Qed.

Lemma the_numbers_decide_the_run_witness :
  ({[ Problem52.fname := decay_sample ]} : gmap string string) !! input_name P52
  = Some decay_sample
  ∧ ({[ Problem52.fname := decay_respelled ]} : gmap string string) !! input_name P52
    = Some decay_respelled
  ∧ same_cells (records (delimiter_of P52) (skip_header_of P52) decay_sample)
               (records (delimiter_of P52) (skip_header_of P52) decay_respelled)
  ∧ same_memory (final P52 {[ Problem52.fname := decay_sample ]})
                (final P52 {[ Problem52.fname := decay_respelled ]})
  ∧ same_outcome (outcome P52 {[ Problem52.fname := decay_sample ]})
                 (outcome P52 {[ Problem52.fname := decay_respelled ]}).
Proof.
  assert (H1 : ({[ Problem52.fname := decay_sample ]} : gmap string string)
               !! input_name P52 = Some decay_sample) by reflexivity.
  assert (H2 : ({[ Problem52.fname := decay_respelled ]} : gmap string string)
               !! input_name P52 = Some decay_respelled) by reflexivity.
  assert (H3 : same_cells (records (delimiter_of P52) (skip_header_of P52) decay_sample)
                          (records (delimiter_of P52) (skip_header_of P52)
                             decay_respelled)).
  { replace (records (delimiter_of P52) (skip_header_of P52) decay_sample)
      with [["1.5"]; ["2.5"]; ["3.5"]] by (by vm_compute).
    replace (records (delimiter_of P52) (skip_header_of P52) decay_respelled)
      with [["1.50"]; ["25e-1"]; ["+3.5"]] by (by vm_compute).
    repeat (apply Forall2_cons_2;
            [apply Forall2_cons_2; [by vm_compute|apply Forall2_nil_2]|]).
    apply Forall2_nil_2. }
  split; [exact H1|]. split; [exact H2|]. split; [exact H3|].
  exact (the_numbers_decide_the_run P52 _ _ _ _ H1 H2 H3).
Defined.
